(** * cloudscraper: the data-distillation pipeline

    A shallow embedding of [cloudscraper.py] and [lib/cloudtrax.py]:
    the table distiller, the node and user decoders, the checkin image
    decoder and the report formatter, with the properties the design
    document states about them.

    Python values are modelled as follows.
    - [int] is [Z]; the Python 2 operator [/] on two ints is floor
      division, [Z.div].
    - [str]/[unicode] is [string]; a [list] is [list]; a [dict] with
      string keys is [gmap string _].
    - An expression that may raise is a [result]: [Ok v] or [Raise e],
      with [e] one of the exception classes the code can raise.
    - [float] is a binary64 number [pyfloat], every operation rounding to
      nearest, ties to even.
    - The output written by [print_if_verbose] and [logging] is not
      modelled. *)

From Stdlib Require Import ZArith Lia Ascii String Strings.Byte List Bool.
From Stdlib Require Import Reals Lra.
From stdpp Require Import gmap strings list fin_maps pretty.

Local Open Scope string_scope.

(** ** Exceptions and results *)

Inductive exception : Type :=
  | IndexError
  | KeyError
  | AttributeError
  | UnboundLocalError
  | ZeroDivisionError
  | OverflowError
  | ValueError
  | IOError
  | ArraySizeError
  | ConnectionError
  | SystemExit (code : Z).

(** The name of the Python class of an exception. *)
Definition class_name (e : exception) : string :=
  match e with
  | IndexError => "IndexError"
  | KeyError => "KeyError"
  | AttributeError => "AttributeError"
  | UnboundLocalError => "UnboundLocalError"
  | ZeroDivisionError => "ZeroDivisionError"
  | OverflowError => "OverflowError"
  | ValueError => "ValueError"
  | IOError => "IOError"
  | ArraySizeError => "ArraySizeError"
  | ConnectionError => "ConnectionError"
  | SystemExit _ => "SystemExit"
  end.

Inductive result (A : Type) : Type :=
  | Ok (a : A)
  | Raise (e : exception).
Arguments Ok {A} a.
Arguments Raise {A} e.

#[global] Instance result_ret : MRet result := fun A a => Ok a.
#[global] Instance result_bind : MBind result := fun A B k r =>
  match r with
  | Ok a => k a
  | Raise e => Raise e
  end.

(** [fails_with r name]: evaluating [r] raises an exception of class
    [name]. *)
Definition fails_with {A} (r : result A) (name : string) : Prop :=
  exists e, r = Raise e /\ class_name e = name.

(** [for x in l: acc = body(acc, x)], stopping at the first exception. *)
Fixpoint for_each {A S} (l : list A) (body : S -> A -> result S) (acc : S)
  : result S :=
  match l with
  | [] => Ok acc
  | x :: l' => acc' ← body acc x; for_each l' body acc'
  end.

(** ** Sequences *)

(** [l[i]] for a non-negative literal index [i]. *)
Definition item {A} (l : list A) (i : nat) : result A :=
  match l !! i with
  | Some x => Ok x
  | None => Raise IndexError
  end.

(** [l[-1]]. *)
Definition item_last {A} (l : list A) : result A :=
  match last l with
  | Some x => Ok x
  | None => Raise IndexError
  end.

(** [d[k]] for a dict. *)
Definition getitem {V} (d : gmap string V) (k : string) : result V :=
  match d !! k with
  | Some v => Ok v
  | None => Raise KeyError
  end.

(** A distilled row: cells, each the list of its text fragments. *)
Definition row : Type := list (list string).

(** [values[i][j]] *)
Definition cell (values : row) (i j : nat) : result string :=
  c ← item values i; item c j.

(** [values[i][-1]] *)
Definition cell_last (values : row) (i : nat) : result string :=
  c ← item values i; item_last c.

(** ** Parsed HTML (BeautifulSoup 3)

    A parsed document is a tree of tags and text nodes.  [attrs] is the
    attribute dictionary a tag is matched against. *)

#[warnings="-register-all"]
Inductive node : Type :=
  | Tag (name : string) (attrs : gmap string string) (contents : list node)
  | NavigableString (text : string).

(** Everything below a node, in document order. *)
Fixpoint descendants (n : node) : list node :=
  match n with
  | Tag _ _ contents => flat_map (fun c => c :: descendants c) contents
  | NavigableString _ => []
  end.

(** A tag matches [(name, attrs)] when it has that name and every
    attribute asked for has exactly the given value. *)
Definition matches (name : string) (wanted : gmap string string) (n : node)
  : bool :=
  match n with
  | Tag name' attrs _ =>
      bool_decide (name' = name)
      && bool_decide (map_Forall (fun k v => attrs !! k = Some v) wanted)
  | NavigableString _ => false
  end.

(** [tag.findAll(name, attrs)] *)
Definition findAll (tag : node) (name : string) (wanted : gmap string string)
  : list node :=
  List.filter (matches name wanted) (descendants tag).

(** [tag.find(name, attrs)]: the first match, or [None]. *)
Definition find (tag : node) (name : string) (wanted : gmap string string)
  : option node :=
  head (findAll tag name wanted).

(** [tag.findAll(text=True)] *)
Definition findAll_text (tag : node) : list string :=
  flat_map (fun n => match n with
                     | NavigableString s => [s]
                     | Tag _ _ _ => []
                     end) (descendants tag).

(** ** Images (PIL)

    A decoded image: its size and its pixels, each an RGB triple of
    bytes.  [pixelmap[col, row]] raises [IndexError] outside the image. *)

Definition pixel : Type := byte * byte * byte.

Record image : Type := {
  width : Z;
  height : Z;
  pixel_at : Z -> Z -> pixel;
}.

Definition pixelmap (img : image) (col r : Z) : result pixel :=
  if bool_decide (0 <= col < width img /\ 0 <= r < height img)%Z
  then Ok (pixel_at img col r)
  else Raise IndexError.

(** ** HTTP (requests)

    The bytes of a response body are seen through the two decoders the
    code applies to them: [BeautifulSoup] parses any input; [as_image]
    is the image a file of an image format holds, and [Image.open]
    raises [IOError] on bytes of no image format and on a file whose
    width is not positive. *)

Record body : Type := {
  as_html : list node;
  as_image : option image;
}.

Record response : Type := {
  status_code : Z;
  content : body;
}.

(** [session.get(url, params=parameters)] *)
Definition session : Type :=
  string -> gmap string string -> result response.

Definition BeautifulSoup (content : body) : node :=
  Tag "[document]" ∅ (as_html content).

Definition Image_open (content : body) : result image :=
  match as_image content with
  | Some img =>
      if bool_decide (0 < width img)%Z then Ok img else Raise IOError
  | None => Raise IOError
  end.

(** [range(0, n)] *)
Definition range (n : Z) : list Z := Z.of_nat <$> seq 0 (Z.to_nat n).

(** ** Floats (binary64)

    [Finite neg m e] is [(-1)^neg * m * 2^e], with [m = 0] and
    [e = -1074] for a zero, [2^52 <= m < 2^53] and [-1074 <= e <= 971]
    for a normal number, [m < 2^52] and [e = -1074] for a subnormal
    one. *)

Inductive pyfloat : Type :=
  | Finite (neg : bool) (m e : Z)
  | Infinity (neg : bool)
  | NaN.

Local Open Scope Z_scope.

(** The fraction [a / (b * 2^k)], without a negative power. *)
Definition scaled (a b k : Z) : Z * Z :=
  if 0 <=? k then (a, b * 2 ^ k) else (a * 2 ^ (- k), b).

(** The integer nearest to [x / y], the even one on a tie ([y > 0]). *)
Definition div_nearest_even (x y : Z) : Z :=
  let q := x / y in
  let r := x mod y in
  if 2 * r <? y then q
  else if y <? 2 * r then q + 1
  else if Z.even q then q else q + 1.

(** [floor (log2 (a / b))] for [a, b > 0]. *)
Definition ilog2 (a b : Z) : Z :=
  let d := Z.log2 a - Z.log2 b in
  let '(x, y) := scaled a b d in
  if y <=? x then d else d - 1.

(** The binary64 number nearest to [a / b] ([a >= 0], [b > 0]), with
    sign [neg]; [Infinity] on overflow. *)
Definition round64 (neg : bool) (a b : Z) : pyfloat :=
  if a =? 0 then Finite neg 0 (-1074)
  else
    let k := Z.max (ilog2 a b - 52) (-1074) in
    let '(x, y) := scaled a b k in
    let m := div_nearest_even x y in
    let '(m, k) := if m =? 2 ^ 53 then (2 ^ 52, k + 1) else (m, k) in
    if 971 <? k then Infinity neg else Finite neg m k.

(** [float(n)] for an int, also the coercion of an int operand. *)
Definition float_of_int (n : Z) : result pyfloat :=
  match round64 (n <? 0) (Z.abs n) 1 with
  | Infinity _ => Raise OverflowError
  | x => Ok x
  end.

(** [x * y] on floats. *)
Definition fmul (x y : pyfloat) : pyfloat :=
  match x, y with
  | NaN, _ | _, NaN => NaN
  | Infinity s, Infinity t => Infinity (xorb s t)
  | Infinity s, Finite t m _ | Finite s m _, Infinity t =>
      if m =? 0 then NaN else Infinity (xorb s t)
  | Finite s m e, Finite t n f =>
      let '(a, b) := scaled (m * n) 1 (- (e + f)) in
      round64 (xorb s t) a b
  end.

(** [x / y] on floats. *)
Definition fdiv (x y : pyfloat) : result pyfloat :=
  match x, y with
  | _, Finite _ 0 _ => Raise ZeroDivisionError
  | NaN, _ | _, NaN => Ok NaN
  | Infinity _, Infinity _ => Ok NaN
  | Infinity s, Finite t _ _ => Ok (Infinity (xorb s t))
  | Finite s _ _, Infinity t => Ok (Finite (xorb s t) 0 (-1074))
  | Finite s m e, Finite t n f =>
      let '(a, b) := scaled m n (f - e) in
      Ok (round64 (xorb s t) a b)
  end.

(** [abs(x) >= abs(y)] for finite floats. *)
Definition magnitude_ge (x y : pyfloat) : bool :=
  match x, y with
  | Finite _ m e, Finite _ n f =>
      let '(a, b) := scaled m n (f - e) in b <=? a
  | Infinity _, Finite _ _ _ => true
  | _, _ => false
  end.

Definition is_digit (c : ascii) : bool :=
  let n := nat_of_ascii c in ((48 <=? n) && (n <=? 57))%nat.

Definition digit_value (c : ascii) : Z := Z.of_nat (nat_of_ascii c) - 48.

(** The number a string of decimal digits denotes. *)
Definition number_of (ds : list ascii) : Z :=
  fold_left (fun acc c => 10 * acc + digit_value c) ds 0.

Definition is_space (c : ascii) : bool :=
  let n := nat_of_ascii c in ((n =? 32) || ((9 <=? n) && (n <=? 13)))%nat.

Definition lower (c : ascii) : ascii :=
  let n := nat_of_ascii c in
  if ((65 <=? n) && (n <=? 90))%nat then ascii_of_nat (n + 32) else c.

Fixpoint take_while {A} (p : A -> bool) (l : list A) : list A :=
  match l with
  | x :: l' => if p x then x :: take_while p l' else []
  | [] => []
  end.

Fixpoint drop_while {A} (p : A -> bool) (l : list A) : list A :=
  match l with
  | x :: l' => if p x then drop_while p l' else l
  | [] => []
  end.

Definition strip (s : list ascii) : list ascii :=
  rev (drop_while is_space (rev (drop_while is_space s))).

Definition split_sign (s : list ascii) : bool * list ascii :=
  match s with
  | "-"%char :: s' => (true, s')
  | "+"%char :: s' => (false, s')
  | _ => (false, s)
  end.

Definition span_digits (s : list ascii) : list ascii * list ascii :=
  (take_while is_digit s, drop_while is_digit s).

(** The exponent part of a numeral: [Some 0] when there is none, [None]
    when it is malformed. *)
Definition exponent_of (s : list ascii) : option Z :=
  match s with
  | [] => Some 0
  | c :: s' =>
      if bool_decide (lower c = "e"%char) then
        let '(neg, s'') := split_sign s' in
        if bool_decide (s'' <> []) && forallb is_digit s''
        then Some (if neg then - number_of s'' else number_of s'')
        else None
      else None
  end.

(** [float(text)] for a string: surrounding white space, a sign, then
    [inf], [infinity], [nan], or a decimal numeral
    [digits [. digits] [e [sign] digits]] with at least one digit before
    the exponent. *)
Definition py_float (text : string) : result pyfloat :=
  let '(neg, s) := split_sign (strip (list_ascii_of_string text)) in
  let word : list ascii := lower <$> s in
  if bool_decide (word = list_ascii_of_string "inf")
     || bool_decide (word = list_ascii_of_string "infinity")
  then Ok (Infinity neg)
  else if bool_decide (word = list_ascii_of_string "nan") then Ok NaN
  else
    let '(int_part, rest) := span_digits s in
    let '(frac_part, rest) :=
      match rest with
      | "."%char :: r => span_digits r
      | _ => ([], rest)
      end in
    match (int_part ++ frac_part)%list, exponent_of rest with
    | (_ :: _) as ds, Some ex =>
        let sc := ex - Z.of_nat (length frac_part) in
        let n := number_of ds in
        Ok (if 0 <=? sc then round64 neg (n * 10 ^ sc) 1
            else round64 neg n (10 ^ (- sc)))
    | _, _ => Raise ValueError
    end.

(** [n] in decimal, with at least two digits ([n >= 0]). *)
Definition two_digits (n : Z) : string :=
  if n <? 10 then "0" +:+ pretty n else pretty n.

(** A count of hundredths as a decimal with two places. *)
Definition hundredths (neg : bool) (h : Z) : string :=
  (if neg then "-" else "") +:+ pretty (h / 100) +:+ "." +:+
  two_digits (h mod 100).

(** ['%.2g' % x] for a finite [x] with [abs(x) >= 1e50]; such an [x] is
    an integer. *)
Definition format_2g_big (neg : bool) (m e : Z) : string :=
  let n := m * 2 ^ e in
  let ex := Z.of_nat (String.length (pretty n)) - 1 in
  let mant := div_nearest_even n (10 ^ (ex - 1)) in
  let '(mant, ex) := if mant =? 100 then (10, ex + 1) else (mant, ex) in
  (if neg then "-" else "") +:+ pretty (mant / 10) +:+
  (if mant mod 10 =? 0 then "" else "." +:+ pretty (mant mod 10)) +:+
  "e+" +:+ pretty ex.

(** ['%.2f' % x].  Python 2 formats with [%g] instead of [%f] from
    [1e50] on. *)
Definition format_2f (x : pyfloat) : string :=
  match x with
  | NaN => "nan"
  | Infinity neg => if neg then "-inf" else "inf"
  | Finite neg m e =>
      if magnitude_ge x (round64 false (10 ^ 50) 1)
      then format_2g_big neg m e
      else
        let '(a, b) := scaled (100 * m) 1 (- e) in
        hundredths neg (div_nearest_even a b)
  end.

(** ['%x' % b] for a pixel channel: lower-case hexadecimal, no padding. *)
Definition hex_digit (n : N) : ascii :=
  match n with
  | 10 => "a" | 11 => "b" | 12 => "c" | 13 => "d" | 14 => "e" | 15 => "f"
  | _ => ascii_of_N (48 + n)
  end%N%char.

Definition format_x (b : byte) : string :=
  let n := Byte.to_N b in
  if (n <? 16)%N then String (hex_digit n) ""
  else String (hex_digit (n / 16)) (String (hex_digit (n mod 16)) "").

(** ["%x%x%x" % (p[0], p[1], p[2])] *)
Definition format_xxx (p : pixel) : string :=
  let '(r, g, b) := p in format_x r +:+ format_x g +:+ format_x b.

(** [s.replace(old, new)] for a one-character [old]. *)
Fixpoint replace (old : ascii) (new : string) (s : string) : string :=
  match s with
  | EmptyString => EmptyString
  | String c s' =>
      if bool_decide (c = old) then new +:+ replace old new s'
      else String c (replace old new s')
  end.

Close Scope Z_scope.

(** ** Text tables (texttable)

    The table object keeps its header and rows and checks that every
    row has as many cells as the first array it was given; how [draw]
    lays the table out is left to the renderer. *)

Record Texttable : Type := {
  tt_row_size : nat;
  tt_header : list string;
  tt_rows : list (list string);
}.

Definition new_Texttable : Texttable :=
  {| tt_row_size := 0; tt_header := []; tt_rows := [] |}.

Definition check_row_size (t : Texttable) (array : list string)
  : result Texttable :=
  if bool_decide (tt_row_size t = 0%nat) then
    Ok {| tt_row_size := length array; tt_header := tt_header t;
          tt_rows := tt_rows t |}
  else if bool_decide (tt_row_size t = length array) then Ok t
  else Raise ArraySizeError.

Definition set_header (t : Texttable) (array : list string)
  : result Texttable :=
  t ← check_row_size t array;
  Ok {| tt_row_size := tt_row_size t; tt_header := array;
        tt_rows := tt_rows t |}.

Definition add_row (t : Texttable) (array : list string)
  : result Texttable :=
  t ← check_row_size t array;
  Ok {| tt_row_size := tt_row_size t; tt_header := tt_header t;
        tt_rows := tt_rows t ++ [array] |}.

Class Renderer : Type := draw : Texttable -> string.

(** The records a table is drawn from: anything with [get_type] and
    [get_table_row]. *)
Class Entity (A : Type) : Type := {
  get_type : A -> result string;
  get_table_row : A -> result (list string);
}.

Definition nl : string := String (ascii_of_nat 10) "".

(** [n * s] for an int [n] and a string [s]. *)
Fixpoint string_times (n : nat) (s : string) : string :=
  match n with
  | O => ""
  | S n' => s +:+ string_times n' s
  end.

(** * cloudscraper.py *)

Module Cloudscraper.

Definition NODE_STATUS : gmap string string :=
  list_to_map [("gw_down", "1"); ("relay_down", "2"); ("gw_up", "3");
               ("relay_up", "4"); ("spare_gw_down", "5");
               ("spare_down", "6"); ("spare_gw_up", "7"); ("spare_up", "8")].

Definition header : gmap string (list string) :=
  list_to_map
    [("gateway", ["Name" +:+ nl +:+ "(Firmware)"; "Users";
                  "DL MB" +:+ nl +:+ "UL MB"; "Up" +:+ nl +:+ "(Down)";
                  "IP Address"]);
     ("relay", ["Name" +:+ nl +:+ "(Firmware)"; "Users";
                "DL MB" +:+ nl +:+ "UL MB"; "Gateway";
                "Up" +:+ nl +:+ "(Down)"; "Latency" +:+ nl +:+ "(Hops)"]);
     ("spare", ["Name" +:+ nl +:+ "(Firmware)"; "Users";
                "DL MB" +:+ nl +:+ "UL MB"; "Up" +:+ nl +:+ "(Down)";
                "IP Address"]);
     ("user", ["Name" +:+ nl +:+ "(mac)"; "Last seen on"; "Blocked";
               "MB Down"; "MB Up"])].

Definition draw_table `{Renderer} {A} `{Entity A}
    (entity_type : string) (entities : list A) : result string :=
  let table := new_Texttable in
  columns ← getitem header entity_type;
  table ← set_header table columns;
  table ← for_each entities (fun table entity =>
    t ← get_type entity;
    if bool_decide (t = entity_type)
    then r ← get_table_row entity; add_row table r
    else Ok table) table;
  Ok (draw table).

Definition distill_html (content : body) (element : string)
    (identifier : gmap string string) : result (list row) :=
  let distilled_text : list row := [] in
  if bool_decide (element = "table") then
    match find (BeautifulSoup content) element identifier with
    | None => Raise AttributeError
    | Some distilled_table =>
        Ok (fold_left (fun distilled_text r =>
              let raw_values :=
                fold_left (fun raw_values c =>
                             (raw_values ++ [findAll_text c])%list)
                          (findAll r "td" ∅) ([] : row) in
              if bool_decide (0 < length raw_values)%nat
              then (distilled_text ++ [raw_values])%list
              else distilled_text)
            (findAll distilled_table "tr" ∅) distilled_text)
    end
  else Ok distilled_text.

(** An attribute that is only set on some paths is an [option]. *)
Record Node : Type := {
  node_type : option string;
  node_status : option string;
  name : string;
  comment : string;
  mac : string;
  ip : string;
  chan_24 : string;
  chan_58 : string;
  users_24 : string;
  download_24 : string;
  upload_24 : string;
  uptime : string;
  fw_version : string;
  fw_name : string;
  load : string;
  memfree : string;
  time_since_checkin : string;
  gateway_name : string;
  gateway_ip : string;
  hops : string;
  latency : string;
  time_as_gw : Z;
  time_as_relay : Z;
  time_offline : Z;
  checkin_url : string;
  colour_counter : option (gmap string Z);
  checkin_img : option image;
  checkin_img_width : option Z;
  checkin_img_height : option Z;
}.

(** The assignments [scrape_checkin_data] makes to [self]. *)
Definition with_checkin (self : Node) (counter : gmap string Z)
    (img : image) (gw relay offline : Z) : Node :=
  {| node_type := node_type self; node_status := node_status self;
     name := name self; comment := comment self; mac := mac self;
     ip := ip self; chan_24 := chan_24 self; chan_58 := chan_58 self;
     users_24 := users_24 self; download_24 := download_24 self;
     upload_24 := upload_24 self; uptime := uptime self;
     fw_version := fw_version self; fw_name := fw_name self;
     load := load self; memfree := memfree self;
     time_since_checkin := time_since_checkin self;
     gateway_name := gateway_name self; gateway_ip := gateway_ip self;
     hops := hops self; latency := latency self;
     time_as_gw := gw; time_as_relay := relay; time_offline := offline;
     checkin_url := checkin_url self;
     colour_counter := Some counter;
     checkin_img := Some img;
     checkin_img_width := Some (width img);
     checkin_img_height := Some (height img) |}.

(** [a / b] on two ints (Python 2). *)
Definition int_div (a b : Z) : result Z :=
  if bool_decide (b = 0)%Z then Raise ZeroDivisionError else Ok (a / b)%Z.

(** One pass of the pixel loop. *)
Definition count_pixel (img : image) (ROW : Z)
    (counter : gmap string Z) (col : Z) : result (gmap string Z) :=
  p ← pixelmap img col ROW;
  let pixel_colour := format_xxx p in
  if bool_decide (pixel_colour ∈ dom counter)
     && bool_decide (pixel_colour <> "000")
  then
    n ← getitem counter pixel_colour;
    Ok (<[pixel_colour := (n + 1)%Z]> counter)
  else Ok (<[pixel_colour := 1%Z]> counter).

(** Returns the updated [self] and the returned colour counter. *)
Definition scrape_checkin_data (self : Node) (session : session)
  : result (Node * gmap string Z) :=
  let parameters : gmap string string :=
    list_to_map [("mac", mac self); ("legend", "0")] in
  request ← session (checkin_url self) parameters;
  let counter : gmap string Z :=
    list_to_map [("cccccc", 0%Z); ("1faa5f", 0%Z); ("4fdd8f", 0%Z)] in
  img ← Image_open (content request);
  let ROW := 1%Z in
  counter ← for_each (range (width img)) (count_pixel img ROW) counter;
  n ← getitem counter "1faa5f";
  q ← int_div n (width img - 2);
  let gw := (q * 100)%Z in
  n ← getitem counter "4fdd8f";
  q ← int_div n (width img - 2);
  let relay := (q * 100)%Z in
  n ← getitem counter "cccccc";
  q ← int_div n (width img - 2);
  let offline := (q * 100)%Z in
  Ok (with_checkin self counter img gw relay offline, counter).

(** The [if]/[elif] chain at the head of [Node.__init__]: the node type
    and status assigned for a status token, [None] where no branch
    assigns the attribute. *)
Definition init_status (token : string)
  : result (option string * option string) :=
  code ← getitem NODE_STATUS "gw_up";
  if bool_decide (token = code) then Ok (Some "gateway", Some "up") else
  code ← getitem NODE_STATUS "gw_down";
  if bool_decide (token = code) then Ok (Some "gateway", Some "down") else
  code ← getitem NODE_STATUS "relay_up";
  if bool_decide (token = code) then Ok (Some "relay", Some "down") else
  code ← getitem NODE_STATUS "relay_down";
  if bool_decide (token = code) then Ok (Some "relay", Some "down") else
  code ← getitem NODE_STATUS "spare_gw_up";
  if bool_decide (token = code) then Ok (Some "spare", Some "up") else
  code ← getitem NODE_STATUS "spare_gw_down";
  if bool_decide (token = code) then Ok (Some "spare", Some "down") else
  code ← getitem NODE_STATUS "spare_up";
  if bool_decide (token = code) then Ok (Some "spare", Some "up") else
  code ← getitem NODE_STATUS "spare_down";
  if bool_decide (token = code) then Ok (Some "spare", Some "down") else
  Ok (None, None).

(** [Node(session, values, checkin_url)] *)
Definition Node_init (session : session) (values : row)
    (checkin_url : string) : result Node :=
  token ← cell values 0 0;
  '(node_type, node_status) ← init_status token;
  name ← cell values 1 0;
  comment ← cell_last values 1;
  mac ← cell values 2 0;
  ip ← cell values 2 1;
  chan_24 ← cell values 3 0;
  chan_58 ← cell values 3 1;
  users_24 ← cell values 4 0;
  download_24 ← cell values 5 0;
  upload_24 ← cell values 5 1;
  uptime ← cell values 6 0;
  fw_version ← cell values 7 0;
  fw_name ← cell values 7 1;
  load ← cell values 8 0;
  memfree ← cell values 8 1;
  time_since_checkin ← cell values 9 0;
  gateway_name ← cell values 10 0;
  gateway_ip ← cell values 10 1;
  hops ← cell values 11 0;
  latency ← cell values 12 0;
  let self :=
    {| node_type := node_type; node_status := node_status;
       name := name; comment := comment; mac := mac; ip := ip;
       chan_24 := chan_24; chan_58 := chan_58; users_24 := users_24;
       download_24 := download_24; upload_24 := upload_24;
       uptime := uptime; fw_version := fw_version; fw_name := fw_name;
       load := load; memfree := memfree;
       time_since_checkin := time_since_checkin;
       gateway_name := gateway_name; gateway_ip := gateway_ip;
       hops := hops; latency := latency;
       time_as_gw := 0; time_as_relay := 0; time_offline := 0;
       checkin_url := checkin_url;
       colour_counter := None; checkin_img := None;
       checkin_img_width := None; checkin_img_height := None |} in
  '(self, _) ← scrape_checkin_data self session;
  Ok self.

(** Reading an attribute that may be unset. *)
Definition getattr {A} (a : option A) : result A :=
  match a with
  | Some x => Ok x
  | None => Raise AttributeError
  end.

Definition Node_get_type (self : Node) : result string :=
  getattr (node_type self).

Definition Node_get_table_row (self : Node) : result (list string) :=
  t ← getattr (node_type self);
  if bool_decide (t = "gateway") || bool_decide (t = "spare") then
    Ok [name self +:+ nl +:+ "(" +:+ fw_version self +:+ ")";
        users_24 self;
        download_24 self +:+ nl +:+ "(" +:+ upload_24 self +:+ ")";
        pretty (time_as_gw self) +:+ "%" +:+ nl +:+ "(" +:+
          pretty (time_offline self) +:+ "%)";
        gateway_ip self]
  else if bool_decide (t = "relay") then
    Ok [name self +:+ nl +:+ "(" +:+ fw_version self +:+ ")";
        users_24 self;
        download_24 self +:+ nl +:+ "(" +:+ upload_24 self +:+ ")";
        gateway_name self;
        pretty (time_as_relay self) +:+ "%" +:+ nl +:+ "(" +:+
          pretty (time_offline self) +:+ "%)";
        latency self +:+ "ms" +:+ nl +:+ "(" +:+ hops self +:+ ")"]
  else Raise UnboundLocalError.

#[global] Instance Node_entity : Entity Node :=
  {| get_type := Node_get_type; get_table_row := Node_get_table_row |}.

Record User : Type := { values : gmap string string }.

(** [User(values)] *)
Definition User_init (values : row) : result User :=
  name ← cell values 0 0;
  mac ← cell_last values 0;
  node_name ← cell values 1 0;
  node_mac ← cell values 1 1;
  rssi ← cell values 3 0;
  rate ← cell values 4 0;
  mcs ← cell values 4 1;
  kb_down ← cell values 5 0;
  kb_up ← cell values 6 0;
  blocked ← cell values 8 0;
  Ok {| values :=
          list_to_map
            [("name", name); ("mac", mac); ("node_name", node_name);
             ("node_mac", node_mac); ("rssi", rssi); ("rate", rate);
             ("MCS", mcs); ("kb_down", replace "," "" kb_down);
             ("kb_up", replace "," "" kb_up); ("blocked", blocked)] |}.

Definition User_get_type (self : User) : result string := Ok "user".

Definition get_values (self : User) : gmap string string := values self.

(** ['%.2f' % (float(self.values[key]) / 1000)] *)
Definition usage (self : User) (key : string) : result string :=
  kb ← getitem (values self) key;
  x ← py_float kb;
  d ← float_of_int 1000;
  mb ← fdiv x d;
  Ok (format_2f mb).

Definition get_dl_usage (self : User) : result string := usage self "kb_down".

Definition get_ul_usage (self : User) : result string := usage self "kb_up".

Definition User_get_table_row (self : User) : result (list string) :=
  name ← getitem (values self) "name";
  mac ← getitem (values self) "mac";
  node_name ← getitem (values self) "node_name";
  node_mac ← getitem (values self) "node_mac";
  blocked ← getitem (values self) "blocked";
  dl ← get_dl_usage self;
  ul ← get_ul_usage self;
  Ok [name +:+ nl +:+ "(" +:+ mac +:+ ")";
      node_name +:+ nl +:+ "(" +:+ node_mac +:+ ")";
      blocked; dl; ul].

#[global] Instance User_entity : Entity User :=
  {| get_type := User_get_type; get_table_row := User_get_table_row |}.

(** The connector.  An exception that leaves a method ends the program,
    so a method returns the new state of [self] or the exception. *)
Record CloudTrax : Type := {
  ct_network : string;
  ct_nodes : list Node;
  ct_users : list User;
  ct_data_url : string;
  ct_user_url : string;
  ct_checkin_url : string;
  ct_session : session;
  ct_request : option response;
}.

Definition refresh_network_status (self : CloudTrax) : result CloudTrax :=
  let parameters : gmap string string :=
    list_to_map [("network", ct_network self); ("showall", "1");
                 ("details", "1")] in
  request ← ct_session self (ct_data_url self) parameters;
  if bool_decide (status_code request = 200%Z) then
    rows ← distill_html (content request) "table" {["id" := "mytable"]};
    nodes ← for_each rows (fun nodes raw_values =>
      n ← Node_init (ct_session self) raw_values (ct_checkin_url self);
      Ok (nodes ++ [n])%list) [];
    Ok {| ct_network := ct_network self; ct_nodes := nodes;
          ct_users := ct_users self; ct_data_url := ct_data_url self;
          ct_user_url := ct_user_url self;
          ct_checkin_url := ct_checkin_url self;
          ct_session := ct_session self; ct_request := Some request |}
  else Raise (SystemExit (status_code request)).

Definition refresh_users (self : CloudTrax) : result CloudTrax :=
  let parameters : gmap string string :=
    list_to_map [("network", ct_network self)] in
  request ← ct_session self (ct_user_url self) parameters;
  if bool_decide (status_code request = 200%Z) then
    rows ← distill_html (content request) "table"
             {["class" := "inline sortable"]};
    users ← for_each rows (fun users raw_values =>
      u ← User_init raw_values;
      Ok (users ++ [u])%list) [];
    Ok {| ct_network := ct_network self; ct_nodes := ct_nodes self;
          ct_users := users; ct_data_url := ct_data_url self;
          ct_user_url := ct_user_url self;
          ct_checkin_url := ct_checkin_url self;
          ct_session := ct_session self; ct_request := Some request |}
  else Raise (SystemExit (status_code request)).

(** [underline(text)] *)
Definition underline (text : string) : string :=
  text +:+ nl +:+ string_times (String.length text) "-" +:+ nl.

(** [get_nodes] and [get_users] return the new state of [self] and the
    list they return. *)
Definition get_nodes (self : CloudTrax) : result (CloudTrax * list Node) :=
  if bool_decide (length (ct_nodes self) = 0%nat) then
    self ← refresh_network_status self;
    Ok (self, ct_nodes self)
  else Ok (self, ct_nodes self).

Definition get_users (self : CloudTrax) : result (CloudTrax * list User) :=
  if bool_decide (length (ct_users self) = 0%nat) then
    self ← refresh_users self;
    Ok (self, ct_users self)
  else Ok (self, ct_users self).

End Cloudscraper.

(** * lib/cloudtrax.py *)

Module Cloudtrax.

Definition header : gmap string (list string) :=
  list_to_map
    [("gateway", ["Name" +:+ nl +:+ "(mac)"; "Users";
                  "DL MB" +:+ nl +:+ "UL MB"; "Up" +:+ nl +:+ "(Down)";
                  "IP Address" +:+ nl +:+ "(Firmware)"]);
     ("relay", ["Name" +:+ nl +:+ "(mac)"; "Users";
                "DL MB" +:+ nl +:+ "UL MB";
                "Gateway" +:+ nl +:+ "(Firmware)";
                "Up" +:+ nl +:+ "(Down)"; "Latency" +:+ nl +:+ "(Hops)"]);
     ("spare", ["Name" +:+ nl +:+ "(mac)"; "Users";
                "DL MB" +:+ nl +:+ "UL MB"; "Up" +:+ nl +:+ "(Down)";
                "IP Address" +:+ nl +:+ "(Firmware)"])].

Definition draw_table `{Renderer} {A} `{Entity A}
    (entity_type : string) (entities : list A) : result string :=
  let table := new_Texttable in
  columns ← getitem header entity_type;
  table ← set_header table columns;
  table ← for_each entities (fun table entity =>
    t ← get_type entity;
    if bool_decide (t = entity_type)
    then r ← get_table_row entity; add_row table r
    else Ok table) table;
  Ok (draw table).

Definition distill_html (content : body) (element : string)
    (identifier : gmap string string) : result (list row) :=
  let distilled_text : list row := [] in
  if bool_decide (element = "table") then
    match find (BeautifulSoup content) element identifier with
    | None => Raise AttributeError
    | Some distilled_table =>
        Ok (fold_left (fun distilled_text r =>
              let raw_values :=
                fold_left (fun raw_values c =>
                             (raw_values ++ [findAll_text c])%list)
                          (findAll r "td" ∅) ([] : row) in
              if bool_decide (0 < length raw_values)%nat
              then (distilled_text ++ [raw_values])%list
              else distilled_text)
            (findAll distilled_table "tr" ∅) distilled_text)
    end
  else Ok distilled_text.

(** [(float(value) * 100) / max_value] on two ints. *)
Definition percentage (value max_value : Z) : result pyfloat :=
  v ← float_of_int value;
  hundred ← float_of_int 100;
  d ← float_of_int max_value;
  fdiv (fmul v hundred) d.

(** One pass of the pixel loop. *)
Definition count_pixel (img : image) (r : Z)
    (colour_counter : gmap string Z) (col : Z) : result (gmap string Z) :=
  p ← pixelmap img col r;
  let pixel_colour := format_xxx p in
  if bool_decide (pixel_colour ∈ dom colour_counter)
  then
    n ← getitem colour_counter pixel_colour;
    Ok (<[pixel_colour := (n + 1)%Z]> colour_counter)
  else Ok (<[pixel_colour := 1%Z]> colour_counter).

Section Connector.

(** [lib/node.py] and [lib/user.py] are not part of the sources at
    hand: the two constructors are parameters. *)
Context {Node User : Type}.
Variable new_Node : row -> pyfloat * pyfloat * pyfloat -> result Node.
Variable new_User : row -> result User.

Record CloudTrax : Type := {
  nodes : list Node;
  users : list User;
  session_of : session;
  url : gmap string string;
  network : gmap string string;
}.

Definition get_checkin_data (self : CloudTrax) (node_mac : string)
  : result (pyfloat * pyfloat * pyfloat) :=
  let parameters : gmap string string :=
    list_to_map [("mac", node_mac); ("legend", "0")] in
  checkin ← getitem (url self) "checkin";
  request ← session_of self checkin parameters;
  let colour_counter : gmap string Z :=
    list_to_map [("cccccc", 0%Z); ("1faa5f", 0%Z); ("4fdd8f", 0%Z)] in
  checkin_img ← Image_open (content request);
  let r := 1%Z in
  colour_counter ←
    for_each (range (width checkin_img)) (count_pixel checkin_img r)
             colour_counter;
  n ← getitem colour_counter "1faa5f";
  time_as_gw ← percentage n (width checkin_img - 2);
  n ← getitem colour_counter "4fdd8f";
  time_as_relay ← percentage n (width checkin_img - 2);
  n ← getitem colour_counter "cccccc";
  time_offline ← percentage n (width checkin_img - 2);
  Ok (time_as_gw, time_as_relay, time_offline).

Definition refresh_nodes (self : CloudTrax) : result CloudTrax :=
  name ← getitem (network self) "name";
  let parameters : gmap string string :=
    list_to_map [("network", name); ("showall", "1"); ("details", "1")] in
  data ← getitem (url self) "data";
  request ← session_of self data parameters;
  if bool_decide (status_code request = 200%Z) then
    rows ← distill_html (content request) "table" {["id" := "mytable"]};
    nodes ← for_each rows (fun nodes raw_values =>
      node_mac ← cell raw_values 2 0;
      checkin ← get_checkin_data self node_mac;
      n ← new_Node raw_values checkin;
      Ok (nodes ++ [n])%list) [];
    Ok {| nodes := nodes; users := users self;
          session_of := session_of self; url := url self;
          network := network self |}
  else Raise (SystemExit (status_code request)).

Definition refresh_users (self : CloudTrax) : result CloudTrax :=
  name ← getitem (network self) "name";
  let parameters : gmap string string := list_to_map [("network", name)] in
  user ← getitem (url self) "user";
  request ← session_of self user parameters;
  if bool_decide (status_code request = 200%Z) then
    rows ← distill_html (content request) "table"
             {["class" := "inline sortable"]};
    users ← for_each rows (fun users raw_values =>
      u ← new_User raw_values;
      Ok (users ++ [u])%list) [];
    Ok {| nodes := nodes self; users := users;
          session_of := session_of self; url := url self;
          network := network self |}
  else Raise (SystemExit (status_code request)).

Definition get_nodes (self : CloudTrax) : result (CloudTrax * list Node) :=
  if bool_decide (length (nodes self) = 0%nat) then
    self ← refresh_nodes self;
    Ok (self, nodes self)
  else Ok (self, nodes self).

Definition get_users (self : CloudTrax) : result (CloudTrax * list User) :=
  if bool_decide (length (users self) = 0%nat) then
    self ← refresh_users self;
    Ok (self, users self)
  else Ok (self, users self).

End Connector.

End Cloudtrax.

(** * Vocabulary of the properties *)

(** The cells of a table row: the text fragments of each [td], in
    document order. *)
Definition cells_of (r : node) : row := findAll_text <$> findAll r "td" ∅.

(** The rows of a table that have at least one cell, in document order,
    each as its cells. *)
Definition distilled (table : node) : list row :=
  cells_of <$> filter (fun r => findAll r "td" ∅ <> []) (findAll table "tr" ∅).

(** The session answers a request with status 200 and the given body. *)
Definition answers (s : session) (u : string) (params : gmap string string)
    (page : body) : Prop :=
  exists request,
    s u params = Ok request /\ status_code request = 200%Z
    /\ content request = page.

(** ** Sample inputs *)

Definition td (fragments : list string) : node :=
  Tag "td" ∅ (NavigableString <$> fragments).

Definition tr (cells : list node) : node := Tag "tr" ∅ cells.

(** A page whose table has three data rows and one empty row. *)
Definition sample_table : node :=
  Tag "table" {["id" := "mytable"]}
    [tr [td ["3"]; td ["north"; "(roof)"]];
     tr [];
     tr [td ["4"]; td ["south"]];
     tr [td ["8"]; td ["attic"]]].

Definition sample_page : body :=
  {| as_html := [Tag "html" ∅ [Tag "body" ∅ [sample_table]]];
     as_image := None |}.

(** A page with a table, but not the one looked for. *)
Definition other_page : body :=
  {| as_html := [Tag "html" ∅ [Tag "table" {["id" := "legend"]} [tr [td ["x"]]]]];
     as_image := None |}.

(** A page whose table has no rows. *)
Definition bare_page : body :=
  {| as_html := [Tag "table" {["id" := "mytable"]} []]; as_image := None |}.

(** A session that answers every request with the same page. *)
Definition constant_session (code : Z) (page : body) : session :=
  fun _ _ => Ok {| status_code := code; content := page |}.

(** A record whose methods raise when they are called. *)
Inductive untouchable : Type := Untouchable.

#[local] Instance untouchable_entity : Entity untouchable :=
  {| get_type := fun _ => Raise AttributeError;
     get_table_row := fun _ => Raise AttributeError |}.

(** A renderer that only reports the number of rows. *)
Definition count_renderer : Renderer :=
  fun t => pretty (length (tt_rows t)) +:+ " rows".

Definition sample_connector (page : body) : Cloudscraper.CloudTrax :=
  {| Cloudscraper.ct_network := "mesh";
     Cloudscraper.ct_nodes := []; Cloudscraper.ct_users := [];
     Cloudscraper.ct_data_url := "https://dashboard/data";
     Cloudscraper.ct_user_url := "https://dashboard/users";
     Cloudscraper.ct_checkin_url := "https://dashboard/checkin";
     Cloudscraper.ct_session := constant_session 200 page;
     Cloudscraper.ct_request := None |}.

(** ** Checkin images *)

#[global] Instance byte_eq_dec : EqDecision byte := Byte.byte_eq_dec.

Definition gateway_colour : pixel := (x1f, xaa, x5f).
Definition relay_colour : pixel := (x4f, xdd, x8f).
Definition offline_colour : pixel := (xcc, xcc, xcc).

(** The pixels of row 1, left to right. *)
Definition row1 (img : image) : list pixel :=
  (fun col => pixel_at img col 1%Z) <$> range (width img).

(** How many pixels of a list have the colour [p]. *)
Definition count_of (p : pixel) (l : list pixel) : Z :=
  Z.of_nat (length (filter (fun q => q = p) l)).

(** How many pixels of a list are named [k] by ["%x%x%x"]. *)
Definition named (k : string) (l : list pixel) : Z :=
  Z.of_nat (length (filter (fun q => format_xxx q = k) l)).

(** A pixel of one of the three colours that are counted. *)
Definition classified (p : pixel) : Prop :=
  p = gateway_colour \/ p = relay_colour \/ p = offline_colour.

#[global] Instance classified_dec p : Decision (classified p).
Proof. unfold classified. apply _. Defined.

Definition unclassified (l : list pixel) : Z :=
  Z.of_nat (length (filter (fun q => ~ classified q) l)).

(** The image has a pixel row 1 for the loop to read, or no column. *)
Definition readable (img : image) : Prop :=
  (1 < height img \/ width img <= 0)%Z.

(** The session answers the checkin request for [mac] with a file that
    holds the image [img], of whatever width. *)
Definition carries (s : session) (checkin_url mac : string) (img : image)
  : Prop :=
  exists request,
    s checkin_url (list_to_map [("mac", mac); ("legend", "0")]) = Ok request
    /\ as_image (content request) = Some img.

(** The session answers the checkin request for [mac] with bytes that
    [Image.open] decodes to [img]. *)
Definition serves (s : session) (checkin_url mac : string) (img : image)
  : Prop :=
  exists request,
    s checkin_url (list_to_map [("mac", mac); ("legend", "0")]) = Ok request
    /\ Image_open (content request) = Ok img.

(** A strip of [h] identical pixel rows. *)
Definition strip_image (h : Z) (cols : list pixel) : image :=
  {| width := Z.of_nat (length cols); height := h;
     pixel_at := fun col _ => nth (Z.to_nat col) cols (x00, x00, x00) |}.

Definition black : pixel := (x00, x00, x00).

Definition image_session (img : image) : session :=
  constant_session 200 {| as_html := []; as_image := Some img |}.

(** A node of [cloudscraper.py] before its checkin data is scraped. *)
Definition blank_node (mac url : string) : Cloudscraper.Node :=
  {| Cloudscraper.node_type := None; Cloudscraper.node_status := None;
     Cloudscraper.name := ""; Cloudscraper.comment := "";
     Cloudscraper.mac := mac; Cloudscraper.ip := "";
     Cloudscraper.chan_24 := ""; Cloudscraper.chan_58 := "";
     Cloudscraper.users_24 := ""; Cloudscraper.download_24 := "";
     Cloudscraper.upload_24 := ""; Cloudscraper.uptime := "";
     Cloudscraper.fw_version := ""; Cloudscraper.fw_name := "";
     Cloudscraper.load := ""; Cloudscraper.memfree := "";
     Cloudscraper.time_since_checkin := "";
     Cloudscraper.gateway_name := ""; Cloudscraper.gateway_ip := "";
     Cloudscraper.hops := ""; Cloudscraper.latency := "";
     Cloudscraper.time_as_gw := 0; Cloudscraper.time_as_relay := 0;
     Cloudscraper.time_offline := 0;
     Cloudscraper.checkin_url := url;
     Cloudscraper.colour_counter := None;
     Cloudscraper.checkin_img := None;
     Cloudscraper.checkin_img_width := None;
     Cloudscraper.checkin_img_height := None |}.

(** A connector of [lib/cloudtrax.py] whose session serves one image. *)
Definition lib_connector (img : image) : @Cloudtrax.CloudTrax unit unit :=
  {| Cloudtrax.nodes := []; Cloudtrax.users := [];
     Cloudtrax.session_of := image_session img;
     Cloudtrax.url := {["checkin" := "https://dashboard/checkin"]};
     Cloudtrax.network := {["name" := "mesh"]} |}.

(** A day with a border column at each end, five columns as gateway and
    five columns offline. *)
Definition half_day : image :=
  strip_image 2 ([black] ++ replicate 5 gateway_colour
                 ++ replicate 5 offline_colour ++ [black]).

(** Three columns, all of them in the offline colour. *)
Definition all_offline : image :=
  strip_image 2 (replicate 3 offline_colour).

Definition two_wide : image := strip_image 2 [black; gateway_colour].
Definition one_wide : image := strip_image 2 [gateway_colour].
Definition no_column : image := strip_image 0 [].

(** [-0.0] and [-100.0] *)
Definition minus_zero : pyfloat := Finite true 0 (-1074).
Definition minus_hundred : pyfloat := Finite true 7036874417766400 (-46).

(** ** Floats as real numbers *)

Definition pow2 (e : Z) : R := powerRZ 2 e.

(** The real number a finite float stands for. *)
Definition float_value (x : pyfloat) : R :=
  match x with
  | Finite neg m e => ((if neg then -1 else 1) * IZR m * pow2 e)%R
  | _ => 0%R
  end.

(** The string is a numeral: one or more decimal digits, denoting [n]. *)
Definition numeral (s : string) (n : Z) : Prop :=
  let l := list_ascii_of_string s in
  l <> [] /\ forallb is_digit l = true /\ number_of l = n.

(** [s] without its commas. *)
Definition without_commas (s : string) : string :=
  string_of_list_ascii
    (filter (fun c => c <> ","%char) (list_ascii_of_string s)).

(** The three percentages [scrape_checkin_data] stores in the node. *)
Definition scraped_percentages (self : Cloudscraper.Node) (s : session)
  : result (Z * Z * Z) :=
  '(self, _) ← Cloudscraper.scrape_checkin_data self s;
  Ok (Cloudscraper.time_as_gw self, Cloudscraper.time_as_relay self,
      Cloudscraper.time_offline self).

(** ** Rows *)

(** Every cell a decoder reads is there: [values] has a cell for each
    entry of [needs], with at least that many text fragments. *)
Definition row_has (values : row) (needs : list nat) : Prop :=
  Forall2 (fun k (c : list string) => (k <= length c)%nat) needs
          (take (length needs) values).

(** The thirteen cells of a node row and the nine cells of a user row,
    with the number of fragments read from each. *)
Definition node_cells : list nat := [1; 1; 2; 2; 1; 2; 1; 2; 2; 1; 2; 1; 1]%nat.
Definition user_cells : list nat := [1; 2; 0; 1; 2; 1; 1; 0; 1]%nat.

(** The eight status codes. *)
Definition known_codes : list string :=
  ["1"; "2"; "3"; "4"; "5"; "6"; "7"; "8"].

(** Following the design document: the closed table of status codes,
    [gw_down=1, relay_down=2, gw_up=3, relay_up=4, spare_gw_down=5,
    spare_down=6, spare_gw_up=7, spare_up=8], as (kind, status) pairs. *)
Definition status_table : list (string * (string * string)) :=
  [("1", ("gateway", "down")); ("2", ("relay", "down"));
   ("3", ("gateway", "up")); ("4", ("relay", "up"));
   ("5", ("spare", "down")); ("6", ("spare", "down"));
   ("7", ("spare", "up")); ("8", ("spare", "up"))].

(** The kind and status of the node built from a row. *)
Definition decoded_status (s : session) (values : row) (checkin_url : string)
  : result (option string * option string) :=
  n ← Cloudscraper.Node_init s values checkin_url;
  Ok (Cloudscraper.node_type n, Cloudscraper.node_status n).

(** A node row with the given status token. *)
Definition node_row (token : string) : row :=
  [[token]; ["north"; "(roof)"]; ["00:11:22:33:44:55"; "10.0.0.7"];
   ["6"; "44"]; ["3"]; ["120.5"; "14.2"]; ["2d 4h"];
   ["r481"; "stable"]; ["0.12"; "21000"]; ["1 min"];
   ["south"; "10.0.0.1"]; ["1"]; ["12"]].

(** A user row: name and mac, node name and mac, vendor, rssi, rate and
    MCS, kb down, kb up, an unused cell, blocked. *)
Definition user_row (kb_down kb_up : string) : row :=
  [["laptop"; "66:77:88:99:aa:bb"]; ["north"; "00:11:22:33:44:55"];
   ["vendor"]; ["-61"]; ["54"; "7"]; [kb_down]; [kb_up]; []; ["no"]].

(** ** Vocabulary of the further properties *)



(** [100.0] and [0.0] *)
Definition hundred : pyfloat := Finite false 7036874417766400 (-46).
Definition zero : pyfloat := Finite false 0 (-1074).

(** A day spent as gateway: a border column at each end and [n] columns
    in the gateway colour. *)
Definition gateway_day (n : nat) : image :=
  strip_image 2 ([black] ++ replicate n gateway_colour ++ [black]).

(** What the counter returned by [scrape_checkin_data] holds for a
    colour name, given the names of the pixels of row 1: the number of
    pixels of that name, except that the name ["000"] is never counted
    beyond 1, and that a name without a pixel is only present when it is
    one of the three initial keys. *)
Definition counted (k : string) (l : list pixel) : option Z :=
  if bool_decide (k = "000") then
    if bool_decide (named k l = 0%Z) then None else Some 1%Z
  else if bool_decide (k ∈ ["cccccc"; "1faa5f"; "4fdd8f"]) then
    Some (named k l)
  else if bool_decide (named k l = 0%Z) then None else Some (named k l).

(** The image [half_day] with three more pixel rows, none of them like
    row 1. *)
Definition half_day_tall : image :=
  {| width := width half_day; height := 5;
     pixel_at := fun col r =>
       if (r =? 1)%Z then pixel_at half_day col 1%Z else relay_colour |}.

(** Two answers of a session that the decoders cannot tell apart: the
    same exception, or two responses with the same body. *)
Definition same_content (r1 r2 : result response) : Prop :=
  match r1, r2 with
  | Ok a, Ok b => content a = content b
  | Raise e1, Raise e2 => e1 = e2
  | _, _ => False
  end.

(** The parameters of the checkin request for a node. *)
Definition checkin_parameters (mac : string) : gmap string string :=
  list_to_map [("mac", mac); ("legend", "0")].

(** A session that refuses every request. *)
Definition offline_session : session := fun _ _ => Raise ConnectionError.

(** A session that answers every request with [404] and an HTML page. *)
Definition not_found_session : session := constant_session 404 bare_page.

#[local] Instance row_has_dec values needs : Decision (row_has values needs).
Proof. unfold row_has. apply _. Defined.

(** The rows of a report table: the table rows of the records of one
    type, in the order of the records. *)
Definition rows_of {A} `{Entity A} (entity_type : string) (entities : list A)
  : list (list string) :=
  flat_map (fun entity =>
              match get_type entity, get_table_row entity with
              | Ok t, Ok r => if bool_decide (t = entity_type) then [r] else []
              | _, _ => []
              end) entities.

(** The three kinds of node. *)
Definition node_kinds : list string := ["gateway"; "relay"; "spare"].

(** A node of [cloudscraper.py] of a given kind. *)
Definition sample_node (kind name : string) : Cloudscraper.Node :=
  {| Cloudscraper.node_type := Some kind;
     Cloudscraper.node_status := Some "up";
     Cloudscraper.name := name; Cloudscraper.comment := "";
     Cloudscraper.mac := "00:11:22:33:44:55"; Cloudscraper.ip := "10.0.0.7";
     Cloudscraper.chan_24 := "6"; Cloudscraper.chan_58 := "44";
     Cloudscraper.users_24 := "3"; Cloudscraper.download_24 := "120.5";
     Cloudscraper.upload_24 := "14.2"; Cloudscraper.uptime := "2d 4h";
     Cloudscraper.fw_version := "r481"; Cloudscraper.fw_name := "stable";
     Cloudscraper.load := "0.12"; Cloudscraper.memfree := "21000";
     Cloudscraper.time_since_checkin := "1 min";
     Cloudscraper.gateway_name := "south";
     Cloudscraper.gateway_ip := "10.0.0.1";
     Cloudscraper.hops := "1"; Cloudscraper.latency := "12";
     Cloudscraper.time_as_gw := 100; Cloudscraper.time_as_relay := 0;
     Cloudscraper.time_offline := 0;
     Cloudscraper.checkin_url := "https://dashboard/checkin";
     Cloudscraper.colour_counter := None;
     Cloudscraper.checkin_img := None;
     Cloudscraper.checkin_img_width := None;
     Cloudscraper.checkin_img_height := None |}.

Definition sample_nodes : list Cloudscraper.Node :=
  [sample_node "relay" "north"; sample_node "gateway" "south";
   sample_node "relay" "east"; sample_node "spare" "west"].

(** The text has no decimal digit. *)
Definition no_digit (text : string) : Prop :=
  Forall (fun c => is_digit c = false) (list_ascii_of_string text).

(** A user whose usage texts are read from cells without a number. *)
Definition idle_user : Cloudscraper.User :=
  {| Cloudscraper.values :=
       list_to_map
         [("name", "laptop"); ("mac", "66:77:88:99:aa:bb");
          ("node_name", "north"); ("node_mac", "00:11:22:33:44:55");
          ("rssi", "-61"); ("rate", "54"); ("MCS", "7");
          ("kb_down", ""); ("kb_up", "n/a"); ("blocked", "no")] |}.

(** The user of the row [user_row "1,234,567" "5"]. *)
Definition sample_user : Cloudscraper.User :=
  {| Cloudscraper.values :=
       list_to_map
         [("name", "laptop"); ("mac", "66:77:88:99:aa:bb");
          ("node_name", "north"); ("node_mac", "00:11:22:33:44:55");
          ("rssi", "-61"); ("rate", "54"); ("MCS", "7");
          ("kb_down", "1234567"); ("kb_up", "5"); ("blocked", "no")] |}.

(** What the decoding loop of a refresh makes of the distilled rows:
    the decoded records, one for each row and in the order of the rows,
    or the exception of the first row that cannot be decoded. *)
Definition decodes {B} (decode : row -> result B) (rows : list row)
    (outcome : result (list B)) : Prop :=
  match outcome with
  | Ok records => Forall2 (fun r x => decode r = Ok x) rows records
  | Raise e =>
      exists done r rest,
        rows = (done ++ r :: rest)%list
        /\ Forall (fun r => exists x, decode r = Ok x) done
        /\ decode r = Raise e
  end.

(** The node that [refresh_nodes] of [lib/cloudtrax.py] builds from a
    row. *)
Definition lib_node {Node User}
    (new_Node : row -> pyfloat * pyfloat * pyfloat -> result Node)
    (self : @Cloudtrax.CloudTrax Node User) (raw_values : row)
  : result Node :=
  node_mac ← cell raw_values 2 0;
  checkin ← Cloudtrax.get_checkin_data self node_mac;
  new_Node raw_values checkin.

(** A connector handed another session. *)
Definition with_session (self : Cloudscraper.CloudTrax) (s : session)
  : Cloudscraper.CloudTrax :=
  {| Cloudscraper.ct_network := Cloudscraper.ct_network self;
     Cloudscraper.ct_nodes := Cloudscraper.ct_nodes self;
     Cloudscraper.ct_users := Cloudscraper.ct_users self;
     Cloudscraper.ct_data_url := Cloudscraper.ct_data_url self;
     Cloudscraper.ct_user_url := Cloudscraper.ct_user_url self;
     Cloudscraper.ct_checkin_url := Cloudscraper.ct_checkin_url self;
     Cloudscraper.ct_session := s;
     Cloudscraper.ct_request := Cloudscraper.ct_request self |}.

Definition lib_with_session {Node User}
    (self : @Cloudtrax.CloudTrax Node User) (s : session)
  : @Cloudtrax.CloudTrax Node User :=
  {| Cloudtrax.nodes := Cloudtrax.nodes self;
     Cloudtrax.users := Cloudtrax.users self;
     Cloudtrax.session_of := s;
     Cloudtrax.url := Cloudtrax.url self;
     Cloudtrax.network := Cloudtrax.network self |}.

(** The dashboard: the checkin address serves an image, every other
    address the same page. *)
Definition dashboard (page : body) (img : image) : session :=
  fun u _ =>
    if bool_decide (u = "https://dashboard/checkin")
    then Ok {| status_code := 200;
               content := {| as_html := []; as_image := Some img |} |}
    else Ok {| status_code := 200; content := page |}.

(** A page with the table of two nodes and the table of two users. *)
Definition status_page : body :=
  {| as_html :=
       [Tag "html" ∅
          [Tag "table" {["id" := "mytable"]}
             [tr (td <$> node_row "3"); tr []; tr (td <$> node_row "2")];
           Tag "table" {["class" := "inline sortable"]}
             [tr (td <$> user_row "1,234,567" "5");
              tr (td <$> user_row "12" "7")]]];
     as_image := None |}.

Definition status_connector (s : session) : Cloudscraper.CloudTrax :=
  {| Cloudscraper.ct_network := "mesh";
     Cloudscraper.ct_nodes := []; Cloudscraper.ct_users := [];
     Cloudscraper.ct_data_url := "https://dashboard/data";
     Cloudscraper.ct_user_url := "https://dashboard/users";
     Cloudscraper.ct_checkin_url := "https://dashboard/checkin";
     Cloudscraper.ct_session := s;
     Cloudscraper.ct_request := None |}.

(** A connector of [lib/cloudtrax.py] whose records are the rows
    themselves. *)
Definition row_connector (s : session) : @Cloudtrax.CloudTrax row row :=
  {| Cloudtrax.nodes := []; Cloudtrax.users := [];
     Cloudtrax.session_of := s;
     Cloudtrax.url :=
       list_to_map [("data", "https://dashboard/data");
                    ("user", "https://dashboard/users");
                    ("checkin", "https://dashboard/checkin")];
     Cloudtrax.network := {["name" := "mesh"]} |}.

(** A connector of [cloudscraper.py] that has its lists. *)
Definition filled_connector : Cloudscraper.CloudTrax :=
  {| Cloudscraper.ct_network := "mesh";
     Cloudscraper.ct_nodes := sample_nodes;
     Cloudscraper.ct_users := [idle_user];
     Cloudscraper.ct_data_url := "https://dashboard/data";
     Cloudscraper.ct_user_url := "https://dashboard/users";
     Cloudscraper.ct_checkin_url := "https://dashboard/checkin";
     Cloudscraper.ct_session := offline_session;
     Cloudscraper.ct_request := None |}.

(** A connector of [lib/cloudtrax.py] that has its lists. *)
Definition filled_row_connector : @Cloudtrax.CloudTrax row row :=
  {| Cloudtrax.nodes := [node_row "3"];
     Cloudtrax.users := [user_row "12" "7"];
     Cloudtrax.session_of := offline_session;
     Cloudtrax.url := ∅;
     Cloudtrax.network := ∅ |}.

(** * Properties *)

(** ** The table distiller *)

Lemma distill_html_same :
  Cloudscraper.distill_html = Cloudtrax.distill_html.
Proof. reflexivity. Qed.

Lemma collect_cells (cells : list node) (acc : row) :
  fold_left (fun raw_values c => (raw_values ++ [findAll_text c])%list)
            cells acc
  = (acc ++ (findAll_text <$> cells))%list.
Proof.
  revert acc. induction cells as [|c cells IH]; intros acc; simpl.
  - by rewrite app_nil_r.
  - rewrite IH. by rewrite <- app_assoc.
Qed.

Lemma collect_rows (rows : list node) (acc : list row) :
  fold_left (fun distilled_text r =>
               let raw_values :=
                 fold_left (fun raw_values c =>
                              (raw_values ++ [findAll_text c])%list)
                           (findAll r "td" ∅) ([] : row) in
               if bool_decide (0 < length raw_values)%nat
               then (distilled_text ++ [raw_values])%list
               else distilled_text)
            rows acc
  = (acc ++ (cells_of <$> filter (fun r => findAll r "td" ∅ <> []) rows))%list.
Proof.
  revert acc. induction rows as [|r rows IH]; intros acc; simpl.
  - by rewrite app_nil_r.
  - rewrite IH, collect_cells. simpl. rewrite length_fmap.
    destruct (findAll r "td" ∅) as [|c cs] eqn:Hcells.
    + rewrite filter_cons_False by (rewrite Hcells; intros H; by apply H).
      by rewrite bool_decide_eq_false_2 by (simpl; lia).
    + rewrite filter_cons_True by (by rewrite Hcells).
      rewrite bool_decide_eq_true_2 by (simpl; lia).
      rewrite fmap_cons, <- app_assoc. simpl.
      unfold cells_of at 2. by rewrite Hcells.
Qed.

Lemma distill_html_found content identifier table :
  find (BeautifulSoup content) "table" identifier = Some table ->
  Cloudtrax.distill_html content "table" identifier = Ok (distilled table).
Proof.
  intros Hfind. unfold Cloudtrax.distill_html.
  rewrite bool_decide_eq_true_2 by done. rewrite Hfind.
  by rewrite collect_rows.
Qed.

Lemma distill_html_missing content identifier :
  find (BeautifulSoup content) "table" identifier = None ->
  Cloudtrax.distill_html content "table" identifier = Raise AttributeError.
Proof.
  intros Hfind. unfold Cloudtrax.distill_html.
  rewrite bool_decide_eq_true_2 by done. by rewrite Hfind.
Qed.

Lemma distill_html_unsupported content element identifier :
  element <> "table" ->
  Cloudtrax.distill_html content element identifier = Ok [].
Proof.
  intros Hne. unfold Cloudtrax.distill_html.
  by rewrite bool_decide_eq_false_2.
Qed.

(** No exception of the code has one of the error classes of the design
    document. *)
Lemma never_MalformedDocument {A} (r : result A) :
  ~ fails_with r "MalformedDocument".
Proof. intros (e & _ & H). by destruct e. Qed.

Lemma never_InvalidCheckinImage {A} (r : result A) :
  ~ fails_with r "InvalidCheckinImage".
Proof. intros (e & _ & H). by destruct e. Qed.

Lemma never_UnknownStatusCode {A} (r : result A) :
  ~ fails_with r "UnknownStatusCode".
Proof. intros (e & _ & H). by destruct e. Qed.

(** One step through the [result] monad. *)
Ltac run := cbn [mbind result_bind].

Lemma bind_Ok {A B} (a : A) (k : A -> result B) : (x ← Ok a; k x) = k a.
Proof. reflexivity. Qed.

Lemma bind_Raise {A B} (e : exception) (k : A -> result B) :
  (x ← Raise e; k x) = Raise e.
Proof. reflexivity. Qed.

(** C7.  When the document contains the table looked for, [distill_html]
    returns exactly the rows of that table that have at least one cell,
    in document order, each as the list of the text-fragment groups of
    its cells; rows without a cell are left out.  Both copies of the
    function do so. *)
Theorem distill_html_rows content identifier table :
  find (BeautifulSoup content) "table" identifier = Some table ->
  Cloudtrax.distill_html content "table" identifier = Ok (distilled table)
  /\ Cloudscraper.distill_html content "table" identifier
     = Ok (distilled table).
Proof.
  intros Hfind. rewrite distill_html_same.
  split; by apply distill_html_found.
Qed.

(** The table with three data rows and one empty row gives three rows. *)
Lemma distill_html_rows_sample :
  find (BeautifulSoup sample_page) "table" {["id" := "mytable"]}
  = Some sample_table
  /\ exists rows,
       Cloudtrax.distill_html sample_page "table" {["id" := "mytable"]}
       = Ok rows
       /\ length (findAll sample_table "tr" ∅) = 4%nat
       /\ length rows = 3%nat
       /\ rows = [[["3"]; ["north"; "(roof)"]]; [["4"]; ["south"]];
                  [["8"]; ["attic"]]].
Proof.
  split; [by vm_compute|].
  exists (distilled sample_table). split; [|by vm_compute].
  apply (distill_html_rows sample_page {["id" := "mytable"]} sample_table).
  by vm_compute.
Defined.

(** C9.  With an element kind other than ['table'], [distill_html]
    returns the empty list and raises nothing, whatever the content and
    the identifier: the same result as for a document whose table is
    present and has no row. *)
Theorem distill_html_other_element content element identifier :
  element <> "table" ->
  Cloudtrax.distill_html content element identifier = Ok []
  /\ Cloudscraper.distill_html content element identifier = Ok []
  /\ forall content' table,
       find (BeautifulSoup content') "table" identifier = Some table ->
       findAll table "tr" ∅ = [] ->
       Cloudtrax.distill_html content' "table" identifier
       = Cloudtrax.distill_html content element identifier.
Proof.
  intros Hne. rewrite distill_html_same.
  rewrite distill_html_unsupported by done. repeat split.
  intros content' table Hfind Hrows.
  rewrite (distill_html_found _ _ _ Hfind).
  unfold distilled. by rewrite Hrows.
Qed.

Lemma distill_html_other_element_sample :
  "div" <> "table"
  /\ Cloudtrax.distill_html sample_page "div" {["id" := "mytable"]} = Ok []
  /\ Cloudtrax.distill_html bare_page "table" {["id" := "mytable"]} = Ok [].
Proof.
  assert (Hne : "div" <> "table") by discriminate.
  split; [exact Hne|].
  destruct (distill_html_other_element sample_page "div"
              {["id" := "mytable"]} Hne) as (H1 & _ & H3).
  split; [exact H1|].
  rewrite <- H1.
  apply (H3 bare_page (Tag "table" {["id" := "mytable"]} []));
    by vm_compute.
Defined.

(** ** A missing table *)

Section Missing_table.

Context {Node User : Type}.
Variable new_Node : row -> pyfloat * pyfloat * pyfloat -> result Node.
Variable new_User : row -> result User.

Lemma refresh_nodes_missing (self : @Cloudtrax.CloudTrax Node User) name data page :
  Cloudtrax.network self !! "name" = Some name ->
  Cloudtrax.url self !! "data" = Some data ->
  answers (Cloudtrax.session_of self) data
          (list_to_map [("network", name); ("showall", "1");
                        ("details", "1")]) page ->
  find (BeautifulSoup page) "table" {["id" := "mytable"]} = None ->
  Cloudtrax.refresh_nodes new_Node self = Raise AttributeError.
Proof.
  intros Hname Hdata (request & Hget & Hcode & <-) Hfind.
  unfold Cloudtrax.refresh_nodes, getitem.
  rewrite Hname, Hdata. run. rewrite Hget. run.
  rewrite bool_decide_eq_true_2 by done.
  by rewrite distill_html_missing.
Qed.

Lemma refresh_users_missing (self : @Cloudtrax.CloudTrax Node User) name user page :
  Cloudtrax.network self !! "name" = Some name ->
  Cloudtrax.url self !! "user" = Some user ->
  answers (Cloudtrax.session_of self) user
          (list_to_map [("network", name)]) page ->
  find (BeautifulSoup page) "table" {["class" := "inline sortable"]}
  = None ->
  Cloudtrax.refresh_users new_User self = Raise AttributeError.
Proof.
  intros Hname Huser (request & Hget & Hcode & <-) Hfind.
  unfold Cloudtrax.refresh_users, getitem.
  rewrite Hname, Huser. run. rewrite Hget. run.
  rewrite bool_decide_eq_true_2 by done.
  by rewrite distill_html_missing.
Qed.

End Missing_table.

Lemma refresh_network_status_missing (self : Cloudscraper.CloudTrax) page :
  answers (Cloudscraper.ct_session self) (Cloudscraper.ct_data_url self)
          (list_to_map [("network", Cloudscraper.ct_network self);
                        ("showall", "1"); ("details", "1")]) page ->
  find (BeautifulSoup page) "table" {["id" := "mytable"]} = None ->
  Cloudscraper.refresh_network_status self = Raise AttributeError.
Proof.
  intros (request & Hget & Hcode & <-) Hfind.
  unfold Cloudscraper.refresh_network_status.
  rewrite Hget. run. rewrite bool_decide_eq_true_2 by done.
  by rewrite distill_html_same, distill_html_missing.
Qed.

Lemma scraper_refresh_users_missing (self : Cloudscraper.CloudTrax) page :
  answers (Cloudscraper.ct_session self) (Cloudscraper.ct_user_url self)
          (list_to_map [("network", Cloudscraper.ct_network self)]) page ->
  find (BeautifulSoup page) "table" {["class" := "inline sortable"]} = None ->
  Cloudscraper.refresh_users self = Raise AttributeError.
Proof.
  intros (request & Hget & Hcode & <-) Hfind.
  unfold Cloudscraper.refresh_users.
  rewrite Hget. run. rewrite bool_decide_eq_true_2 by done.
  by rewrite distill_html_same, distill_html_missing.
Qed.

(** C6, as the code has it.  When the selector matches no table,
    [distill_html] raises [AttributeError] (the lookup returned [None],
    which has no [findAll]); the code has no [MalformedDocument] error.
    Nothing catches the exception: a refresh whose page lacks the table
    ends with the same [AttributeError]. *)
Theorem distill_html_no_table content identifier :
  find (BeautifulSoup content) "table" identifier = None ->
  Cloudtrax.distill_html content "table" identifier = Raise AttributeError
  /\ Cloudscraper.distill_html content "table" identifier
     = Raise AttributeError
  /\ (forall self : Cloudscraper.CloudTrax,
        identifier = {["id" := "mytable"]} ->
        answers (Cloudscraper.ct_session self) (Cloudscraper.ct_data_url self)
                (list_to_map [("network", Cloudscraper.ct_network self);
                              ("showall", "1"); ("details", "1")]) content ->
        Cloudscraper.refresh_network_status self = Raise AttributeError)
  /\ (forall self : Cloudscraper.CloudTrax,
        identifier = {["class" := "inline sortable"]} ->
        answers (Cloudscraper.ct_session self) (Cloudscraper.ct_user_url self)
                (list_to_map [("network", Cloudscraper.ct_network self)])
                content ->
        Cloudscraper.refresh_users self = Raise AttributeError).
Proof.
  intros Hfind. rewrite distill_html_same.
  rewrite distill_html_missing by done. repeat split.
  - intros self -> Hget. by eapply refresh_network_status_missing.
  - intros self -> Hget. by eapply scraper_refresh_users_missing.
Qed.

Lemma distill_html_no_table_sample :
  find (BeautifulSoup other_page) "table" {["id" := "mytable"]} = None
  /\ Cloudtrax.distill_html other_page "table" {["id" := "mytable"]}
     = Raise AttributeError
  /\ Cloudscraper.refresh_network_status (sample_connector other_page)
     = Raise AttributeError.
Proof.
  assert (Hfind : find (BeautifulSoup other_page) "table"
                    {["id" := "mytable"]} = None) by (by vm_compute).
  split; [exact Hfind|].
  destruct (distill_html_no_table other_page {["id" := "mytable"]} Hfind)
    as (H1 & _ & H3 & _).
  split; [exact H1|].
  apply H3; [reflexivity|].
  eexists. split; [reflexivity|]. split; reflexivity.
Defined.

(** The claim of the design document, that the failure is a
    [MalformedDocument] error, does not hold of the code. *)
Lemma distill_html_no_table_not_MalformedDocument :
  find (BeautifulSoup other_page) "table" {["id" := "mytable"]} = None
  /\ ~ fails_with
         (Cloudtrax.distill_html other_page "table" {["id" := "mytable"]})
         "MalformedDocument"
  /\ ~ fails_with
         (Cloudscraper.distill_html other_page "table" {["id" := "mytable"]})
         "MalformedDocument".
Proof.
  split; [by vm_compute|].
  split; intros (e & He & Hname); vm_compute in He;
    injection He as <-; discriminate Hname.
Qed.

(** ** The report formatter *)

Lemma scraper_draw_table_unknown `{Renderer} {A} `{Entity A}
    (entity_type : string) (entities : list A) :
  Cloudscraper.header !! entity_type = None ->
  Cloudscraper.draw_table entity_type entities = Raise KeyError.
Proof.
  intros Hnone. unfold Cloudscraper.draw_table, getitem. by rewrite Hnone.
Qed.

Lemma lib_draw_table_unknown `{Renderer} {A} `{Entity A}
    (entity_type : string) (entities : list A) :
  Cloudtrax.header !! entity_type = None ->
  Cloudtrax.draw_table entity_type entities = Raise KeyError.
Proof.
  intros Hnone. unfold Cloudtrax.draw_table, getitem. by rewrite Hnone.
Qed.

(** Once the header is found the records are examined in order: the
    first one whose [get_type] raises ends the call with its exception. *)
Lemma lib_draw_table_examines `{Renderer} {A} `{Entity A}
    (entity_type : string) (entity : A) (entities : list A) e :
  is_Some (Cloudtrax.header !! entity_type) ->
  get_type entity = Raise e ->
  Cloudtrax.draw_table entity_type (entity :: entities) = Raise e.
Proof.
  intros [columns Hcolumns] Hraise.
  unfold Cloudtrax.draw_table, getitem. rewrite Hcolumns. run.
  unfold set_header, check_row_size. simpl. run.
  by rewrite Hraise.
Qed.

(** C10.  [draw_table] with a category that has no entry in its header
    dictionary raises [KeyError] whatever the records are, also when
    examining any of them would raise: the lookup comes first.  The
    dictionary of [lib/cloudtrax.py] has the keys gateway, relay and
    spare only, so the category ['user'] fails there, while that of
    [cloudscraper.py] has it. *)
Theorem draw_table_unknown_category `{Renderer} {A} `{Entity A}
    (entity_type : string) (entities : list A) :
  (Cloudscraper.header !! entity_type = None ->
   Cloudscraper.draw_table entity_type entities = Raise KeyError)
  /\ (Cloudtrax.header !! entity_type = None ->
      Cloudtrax.draw_table entity_type entities = Raise KeyError)
  /\ Cloudtrax.draw_table "user" entities = Raise KeyError
  /\ is_Some (Cloudscraper.header !! "user").
Proof.
  split; [apply scraper_draw_table_unknown|].
  split; [apply lib_draw_table_unknown|].
  split; [by apply lib_draw_table_unknown|].
  eexists. by vm_compute.
Qed.

(** Records that cannot be examined without an exception: the result is
    still the [KeyError] of the header lookup. *)
Lemma draw_table_unknown_category_sample :
  Cloudscraper.header !! "router" = None
  /\ Cloudtrax.header !! "router" = None
  /\ @Cloudscraper.draw_table count_renderer _ untouchable_entity
       "router" [Untouchable; Untouchable] = Raise KeyError
  /\ @Cloudtrax.draw_table count_renderer _ untouchable_entity
       "router" [Untouchable; Untouchable] = Raise KeyError
  /\ @Cloudtrax.draw_table count_renderer _ untouchable_entity
       "user" [Untouchable; Untouchable] = Raise KeyError
  /\ @Cloudtrax.draw_table count_renderer _ untouchable_entity
       "relay" [Untouchable; Untouchable] = Raise AttributeError.
Proof.
  assert (H1 : Cloudscraper.header !! "router" = None) by (by vm_compute).
  assert (H2 : Cloudtrax.header !! "router" = None) by (by vm_compute).
  destruct (@draw_table_unknown_category count_renderer _ untouchable_entity
              "router" [Untouchable; Untouchable]) as (G1 & G2 & _ & _).
  destruct (@draw_table_unknown_category count_renderer _ untouchable_entity
              "user" [Untouchable; Untouchable]) as (_ & _ & G3 & _).
  split; [exact H1|]. split; [exact H2|]. split; [exact (G1 H1)|].
  split; [exact (G2 H2)|]. split; [exact G3|]. by vm_compute.
Defined.

(** ** The checkin image decoder *)

(** *** Colour names *)

Lemma format_x_shape b :
  (exists c, format_x b = String c "")
  \/ (exists c d, format_x b = String c (String d "")).
Proof. unfold format_x. destruct (_ <? _)%N; eauto. Qed.

Lemma format_xxx_six r g b c1 c2 c3 c4 c5 c6 :
  format_xxx (r, g, b)
  = String c1 (String c2 (String c3 (String c4 (String c5 (String c6 ""))))) ->
  format_x r = String c1 (String c2 "")
  /\ format_x g = String c3 (String c4 "")
  /\ format_x b = String c5 (String c6 "").
Proof.
  unfold format_xxx.
  destruct (format_x_shape r) as [(a1 & ->)|(a1 & a2 & ->)];
  destruct (format_x_shape g) as [(b1 & ->)|(b1 & b2 & ->)];
  destruct (format_x_shape b) as [(d1 & ->)|(d1 & d2 & ->)];
  simpl; intros H; try congruence;
  try (injection H; intros; discriminate).
  by injection H as -> -> -> -> -> ->.
Qed.

Ltac byte_cases b :=
  destruct b; vm_compute; intros H; first [reflexivity | discriminate H].

Lemma format_x_1f b : format_x b = "1f" -> b = x1f.
Proof. byte_cases b. Qed.
Lemma format_x_aa b : format_x b = "aa" -> b = xaa.
Proof. byte_cases b. Qed.
Lemma format_x_5f b : format_x b = "5f" -> b = x5f.
Proof. byte_cases b. Qed.
Lemma format_x_4f b : format_x b = "4f" -> b = x4f.
Proof. byte_cases b. Qed.
Lemma format_x_dd b : format_x b = "dd" -> b = xdd.
Proof. byte_cases b. Qed.
Lemma format_x_8f b : format_x b = "8f" -> b = x8f.
Proof. byte_cases b. Qed.
Lemma format_x_cc b : format_x b = "cc" -> b = xcc.
Proof. byte_cases b. Qed.

(** A pixel is named ["1faa5f"] exactly when it is (0x1f, 0xaa, 0x5f),
    and likewise for the two other colours: the missing zero padding of
    ["%x"] does not confuse them with any other pixel. *)
Lemma gateway_name p : format_xxx p = "1faa5f" <-> p = gateway_colour.
Proof.
  split; [|by intros ->].
  destruct p as [[r g] b]. intros (Hr & Hg & Hb)%format_xxx_six.
  by rewrite (format_x_1f _ Hr), (format_x_aa _ Hg), (format_x_5f _ Hb).
Qed.

Lemma relay_name p : format_xxx p = "4fdd8f" <-> p = relay_colour.
Proof.
  split; [|by intros ->].
  destruct p as [[r g] b]. intros (Hr & Hg & Hb)%format_xxx_six.
  by rewrite (format_x_4f _ Hr), (format_x_dd _ Hg), (format_x_8f _ Hb).
Qed.

Lemma offline_name p : format_xxx p = "cccccc" <-> p = offline_colour.
Proof.
  split; [|by intros ->].
  destruct p as [[r g] b]. intros (Hr & Hg & Hb)%format_xxx_six.
  by rewrite (format_x_cc _ Hr), (format_x_cc _ Hg), (format_x_cc _ Hb).
Qed.

(** *** Counting *)

Lemma named_cons k p l :
  named k (p :: l)
  = ((if decide (format_xxx p = k) then 1 else 0) + named k l)%Z.
Proof.
  unfold named. rewrite filter_cons. destruct (decide _); simpl length; lia.
Qed.

Lemma named_count k c l :
  (forall p, format_xxx p = k <-> p = c) -> named k l = count_of c l.
Proof.
  intros Hname. unfold named, count_of. do 2 f_equal.
  apply list_filter_iff. intros p. apply Hname.
Qed.

Lemma counts_partition l :
  (count_of gateway_colour l + count_of relay_colour l
   + count_of offline_colour l + unclassified l)%Z
  = Z.of_nat (length l).
Proof.
  unfold count_of, unclassified.
  induction l as [|p l IH]; [done|].
  rewrite !filter_cons.
  unfold classified, gateway_colour, relay_colour, offline_colour in *.
  destruct (decide (p = (x1f, xaa, x5f))) as [->|Hg];
    [|destruct (decide (p = (x4f, xdd, x8f))) as [->|Hr];
      [|destruct (decide (p = (xcc, xcc, xcc))) as [->|Ho]]];
    repeat (destruct (decide _) as [H|H];
            try (exfalso; intuition congruence));
    simpl length; lia.
Qed.

Lemma range_bounds n : Forall (fun col => 0 <= col < n)%Z (range n).
Proof.
  unfold range. apply Forall_fmap, Forall_forall.
  intros i [_ Hi]%elem_of_seq. simpl. lia.
Qed.

Lemma row1_length img :
  (0 <= width img)%Z -> Z.of_nat (length (row1 img)) = width img.
Proof.
  intros Hw. unfold row1, range.
  rewrite !length_fmap, length_seq. lia.
Qed.

Lemma pixelmap_inside img col :
  (0 <= col < width img)%Z -> (1 < height img)%Z ->
  pixelmap img col 1 = Ok (pixel_at img col 1%Z).
Proof.
  intros Hcol Hrow. unfold pixelmap.
  by rewrite bool_decide_eq_true_2 by lia.
Qed.

Lemma pixelmap_no_row img col : (height img <= 1)%Z ->
  pixelmap img col 1 = Raise IndexError.
Proof.
  intros Hrow. unfold pixelmap.
  by rewrite bool_decide_eq_false_2 by lia.
Qed.

Lemma lib_count_pixel_inside img col (counter : gmap string Z) :
  (0 <= col < width img)%Z -> (1 < height img)%Z ->
  Cloudtrax.count_pixel img 1 counter col
  = let pc := format_xxx (pixel_at img col 1%Z) in
    if bool_decide (pc ∈ dom counter)
    then n ← getitem counter pc; Ok (<[pc := (n + 1)%Z]> counter)
    else Ok (<[pc := 1%Z]> counter).
Proof.
  intros Hcol Hrow. unfold Cloudtrax.count_pixel.
  by rewrite pixelmap_inside.
Qed.

Lemma scraper_count_pixel_inside img col (counter : gmap string Z) :
  (0 <= col < width img)%Z -> (1 < height img)%Z ->
  Cloudscraper.count_pixel img 1 counter col
  = let pc := format_xxx (pixel_at img col 1%Z) in
    if bool_decide (pc ∈ dom counter) && bool_decide (pc <> "000")
    then n ← getitem counter pc; Ok (<[pc := (n + 1)%Z]> counter)
    else Ok (<[pc := 1%Z]> counter).
Proof.
  intros Hcol Hrow. unfold Cloudscraper.count_pixel.
  by rewrite pixelmap_inside.
Qed.

(** The loop of [lib/cloudtrax.py]: a key that is in the counter from
    the start ends with its initial value plus the number of pixels of
    that name. *)
Lemma lib_pixel_loop img cols (counter : gmap string Z) :
  (1 < height img)%Z ->
  Forall (fun col => 0 <= col < width img)%Z cols ->
  exists counter',
    for_each cols (Cloudtrax.count_pixel img 1) counter = Ok counter'
    /\ forall k n,
         counter !! k = Some n ->
         counter' !! k
         = Some (n + named k ((fun col => pixel_at img col 1%Z) <$> cols))%Z.
Proof.
  intros Hrow Hcols. revert counter.
  induction Hcols as [|col cols Hcol _ IH]; intros counter.
  - exists counter. split; [done|]. intros k n ->. unfold named. simpl.
    f_equal. lia.
  - cbn [for_each]. rewrite lib_count_pixel_inside by done.
    set (pc := format_xxx (pixel_at img col 1%Z)). cbv zeta.
    destruct (bool_decide (pc ∈ dom counter)) eqn:Hin.
    + apply bool_decide_eq_true in Hin.
      apply elem_of_dom in Hin as [n0 Hn0].
      unfold getitem. rewrite Hn0. run.
      destruct (IH (<[pc := (n0 + 1)%Z]> counter)) as (counter' & -> & Hk).
      exists counter'. split; [done|]. intros k n Hkn.
      rewrite fmap_cons, named_cons. fold pc.
      destruct (decide (pc = k)) as [->|Hne].
      * rewrite (Hk k (n0 + 1)%Z) by apply lookup_insert_eq.
        f_equal. rewrite Hn0 in Hkn. injection Hkn as ->. lia.
      * rewrite (Hk k n) by (by rewrite lookup_insert_ne). f_equal; lia.
    + apply bool_decide_eq_false in Hin. run.
      destruct (IH (<[pc := 1%Z]> counter)) as (counter' & -> & Hk).
      exists counter'. split; [done|]. intros k n Hkn.
      rewrite fmap_cons, named_cons. fold pc.
      rewrite decide_False.
      * rewrite (Hk k n); [f_equal; lia|].
        rewrite lookup_insert_ne; [done|].
        intros ->. apply Hin, elem_of_dom. eauto.
      * intros ->. apply Hin, elem_of_dom. eauto.
Qed.

(** The loop of [cloudscraper.py], which sets the counter of the name
    ["000"] to 1 at every black pixel: the same holds of every other
    key. *)
Lemma scraper_pixel_loop img cols (counter : gmap string Z) :
  (1 < height img)%Z ->
  Forall (fun col => 0 <= col < width img)%Z cols ->
  exists counter',
    for_each cols (Cloudscraper.count_pixel img 1) counter = Ok counter'
    /\ forall k n,
         k <> "000" ->
         counter !! k = Some n ->
         counter' !! k
         = Some (n + named k ((fun col => pixel_at img col 1%Z) <$> cols))%Z.
Proof.
  intros Hrow Hcols. revert counter.
  induction Hcols as [|col cols Hcol _ IH]; intros counter.
  - exists counter. split; [done|]. intros k n _ ->. unfold named. simpl.
    f_equal. lia.
  - cbn [for_each]. rewrite scraper_count_pixel_inside by done.
    set (pc := format_xxx (pixel_at img col 1%Z)). cbv zeta.
    destruct (bool_decide (pc ∈ dom counter) && bool_decide (pc <> "000"))
      eqn:Hin.
    + apply andb_true_iff in Hin as [Hin Hblack].
      apply bool_decide_eq_true in Hin.
      apply elem_of_dom in Hin as [n0 Hn0].
      unfold getitem. rewrite Hn0. run.
      destruct (IH (<[pc := (n0 + 1)%Z]> counter)) as (counter' & -> & Hk).
      exists counter'. split; [done|]. intros k n Hk0 Hkn.
      rewrite fmap_cons, named_cons. fold pc.
      destruct (decide (pc = k)) as [->|Hne].
      * rewrite (Hk k (n0 + 1)%Z) by (done || apply lookup_insert_eq).
        f_equal. rewrite Hn0 in Hkn. injection Hkn as ->. lia.
      * rewrite (Hk k n) by (done || by rewrite lookup_insert_ne).
        f_equal; lia.
    + run. destruct (IH (<[pc := 1%Z]> counter)) as (counter' & -> & Hk).
      exists counter'. split; [done|]. intros k n Hk0 Hkn.
      rewrite fmap_cons, named_cons. fold pc.
      assert (pc <> k) as Hne.
      { intros ->. apply andb_false_iff in Hin as [Hin|Hin].
        - apply bool_decide_eq_false in Hin. apply Hin, elem_of_dom. eauto.
        - apply bool_decide_eq_false in Hin. by apply Hin. }
      rewrite decide_False by done.
      rewrite (Hk k n) by (done || by rewrite lookup_insert_ne).
      f_equal; lia.
Qed.

Lemma range_empty n : (n <= 0)%Z -> range n = [].
Proof. intros Hn. unfold range. by replace (Z.to_nat n) with 0%nat by lia. Qed.

Lemma range_first n : (0 < n)%Z -> exists cols, range n = 0%Z :: cols.
Proof.
  intros Hn. unfold range.
  destruct (Z.to_nat n) as [|k] eqn:Hk; [lia|].
  simpl. eauto.
Qed.

Lemma lib_count_pixel_no_row img col (counter : gmap string Z) :
  (height img <= 1)%Z ->
  Cloudtrax.count_pixel img 1 counter col = Raise IndexError.
Proof.
  intros Hh. unfold Cloudtrax.count_pixel. by rewrite pixelmap_no_row.
Qed.

Lemma scraper_count_pixel_no_row img col (counter : gmap string Z) :
  (height img <= 1)%Z ->
  Cloudscraper.count_pixel img 1 counter col = Raise IndexError.
Proof.
  intros Hh. unfold Cloudscraper.count_pixel. by rewrite pixelmap_no_row.
Qed.

Lemma lib_pixel_loop_no_row img (counter : gmap string Z) :
  (0 < width img)%Z -> (height img <= 1)%Z ->
  for_each (range (width img)) (Cloudtrax.count_pixel img 1) counter
  = Raise IndexError.
Proof.
  intros Hw Hh. destruct (range_first _ Hw) as [cols ->].
  cbn [for_each]. by rewrite lib_count_pixel_no_row.
Qed.

Lemma scraper_pixel_loop_no_row img (counter : gmap string Z) :
  (0 < width img)%Z -> (height img <= 1)%Z ->
  for_each (range (width img)) (Cloudscraper.count_pixel img 1) counter
  = Raise IndexError.
Proof.
  intros Hw Hh. destruct (range_first _ Hw) as [cols ->].
  cbn [for_each]. by rewrite scraper_count_pixel_no_row.
Qed.

Lemma lib_pixel_counts img :
  readable img ->
  exists counter,
    for_each (range (width img)) (Cloudtrax.count_pixel img 1)
      (list_to_map [("cccccc", 0%Z); ("1faa5f", 0%Z); ("4fdd8f", 0%Z)])
    = Ok counter
    /\ counter !! "1faa5f" = Some (count_of gateway_colour (row1 img))
    /\ counter !! "4fdd8f" = Some (count_of relay_colour (row1 img))
    /\ counter !! "cccccc" = Some (count_of offline_colour (row1 img)).
Proof.
  intros [Hrow|Hw].
  - destruct (lib_pixel_loop img (range (width img))
                (list_to_map [("cccccc", 0%Z); ("1faa5f", 0%Z);
                              ("4fdd8f", 0%Z)]) Hrow (range_bounds _))
      as (counter & Hloop & Hk).
    exists counter. split; [done|]. fold (row1 img) in Hk.
    rewrite <- (named_count _ _ _ gateway_name).
    rewrite <- (named_count _ _ _ relay_name).
    rewrite <- (named_count _ _ _ offline_name).
    split; [|split]; by rewrite (Hk _ 0%Z).
  - unfold row1. rewrite range_empty by done. eexists. split; [done|].
    by vm_compute.
Qed.

Lemma scraper_pixel_counts img :
  readable img ->
  exists counter,
    for_each (range (width img)) (Cloudscraper.count_pixel img 1)
      (list_to_map [("cccccc", 0%Z); ("1faa5f", 0%Z); ("4fdd8f", 0%Z)])
    = Ok counter
    /\ counter !! "1faa5f" = Some (count_of gateway_colour (row1 img))
    /\ counter !! "4fdd8f" = Some (count_of relay_colour (row1 img))
    /\ counter !! "cccccc" = Some (count_of offline_colour (row1 img)).
Proof.
  intros [Hrow|Hw].
  - destruct (scraper_pixel_loop img (range (width img))
                (list_to_map [("cccccc", 0%Z); ("1faa5f", 0%Z);
                              ("4fdd8f", 0%Z)]) Hrow (range_bounds _))
      as (counter & Hloop & Hk).
    exists counter. split; [done|]. fold (row1 img) in Hk.
    rewrite <- (named_count _ _ _ gateway_name).
    rewrite <- (named_count _ _ _ relay_name).
    rewrite <- (named_count _ _ _ offline_name).
    split; [|split]; by rewrite (Hk _ 0%Z).
  - unfold row1. rewrite range_empty by done. eexists. split; [done|].
    by vm_compute.
Qed.

(** What [get_checkin_data] computes from a readable image: the three
    colours are counted over the whole of row 1, and each count is
    turned into a percentage of [width - 2]. *)
Lemma lib_checkin_decoded {Node User} (self : @Cloudtrax.CloudTrax Node User)
    mac checkin img :
  Cloudtrax.url self !! "checkin" = Some checkin ->
  serves (Cloudtrax.session_of self) checkin mac img ->
  readable img ->
  Cloudtrax.get_checkin_data self mac
  = (g ← Cloudtrax.percentage (count_of gateway_colour (row1 img))
                              (width img - 2);
     r ← Cloudtrax.percentage (count_of relay_colour (row1 img))
                              (width img - 2);
     o ← Cloudtrax.percentage (count_of offline_colour (row1 img))
                              (width img - 2);
     Ok (g, r, o)).
Proof.
  intros Hurl (request & Hget & Himg) Hread.
  unfold Cloudtrax.get_checkin_data, getitem.
  rewrite Hurl. run. rewrite Hget. run. rewrite Himg. run.
  destruct (lib_pixel_counts img Hread) as (counter & -> & Hg & Hr & Ho).
  run. by rewrite Hg, Hr, Ho.
Qed.

Lemma lib_checkin_no_row {Node User} (self : @Cloudtrax.CloudTrax Node User)
    mac checkin img :
  Cloudtrax.url self !! "checkin" = Some checkin ->
  serves (Cloudtrax.session_of self) checkin mac img ->
  (0 < width img)%Z -> (height img <= 1)%Z ->
  Cloudtrax.get_checkin_data self mac = Raise IndexError.
Proof.
  intros Hurl (request & Hget & Himg) Hw Hh.
  unfold Cloudtrax.get_checkin_data, getitem.
  rewrite Hurl. run. rewrite Hget. run. rewrite Himg. run.
  by rewrite lib_pixel_loop_no_row.
Qed.

(** The same for [scrape_checkin_data], where the division is the
    integer division of Python 2. *)
Lemma scraper_checkin_decoded (self : Cloudscraper.Node) session img :
  serves session (Cloudscraper.checkin_url self) (Cloudscraper.mac self) img ->
  readable img ->
  exists counter,
    Cloudscraper.scrape_checkin_data self session
    = (g ← Cloudscraper.int_div (count_of gateway_colour (row1 img))
                                (width img - 2);
       r ← Cloudscraper.int_div (count_of relay_colour (row1 img))
                                (width img - 2);
       o ← Cloudscraper.int_div (count_of offline_colour (row1 img))
                                (width img - 2);
       Ok (Cloudscraper.with_checkin self counter img
             (g * 100) (r * 100) (o * 100), counter)).
Proof.
  intros (request & Hget & Himg) Hread.
  destruct (scraper_pixel_counts img Hread) as (counter & Hloop & Hg & Hr & Ho).
  exists counter.
  unfold Cloudscraper.scrape_checkin_data, getitem.
  rewrite Hget. run. rewrite Himg. run. rewrite Hloop. run.
  rewrite Hg, Hr, Ho. run.
  by destruct (Cloudscraper.int_div _ _) as [g|e].
Qed.

Lemma scraper_checkin_no_row (self : Cloudscraper.Node) session img :
  serves session (Cloudscraper.checkin_url self) (Cloudscraper.mac self) img ->
  (0 < width img)%Z -> (height img <= 1)%Z ->
  Cloudscraper.scrape_checkin_data self session = Raise IndexError.
Proof.
  intros (request & Hget & Himg) Hw Hh.
  unfold Cloudscraper.scrape_checkin_data, getitem.
  rewrite Hget. run. rewrite Himg. run.
  by rewrite scraper_pixel_loop_no_row.
Qed.

(** *** Narrow images *)

Lemma count_of_single c p :
  count_of c [p] = if decide (p = c) then 1%Z else 0%Z.
Proof.
  unfold count_of. rewrite filter_cons. by destruct (decide (p = c)).
Qed.

Lemma count_of_bounds c l : (0 <= count_of c l <= Z.of_nat (length l))%Z.
Proof.
  unfold count_of. pose proof (length_filter (fun q => q = c) l). lia.
Qed.

Lemma row1_one_wide img :
  width img = 1%Z -> row1 img = [pixel_at img 0%Z 1%Z].
Proof. intros Hw. unfold row1. by rewrite Hw. Qed.

Lemma percentage_of_zero_width c :
  (0 <= c <= 2)%Z -> Cloudtrax.percentage c 0 = Raise ZeroDivisionError.
Proof.
  intros Hc. assert (c = 0 \/ c = 1 \/ c = 2)%Z as [->|[->| ->]] by lia;
    by vm_compute.
Qed.

(** [Image.open] accepts the file exactly when its width is positive. *)
Lemma carries_serves s u mac img :
  carries s u mac img -> (0 < width img)%Z -> serves s u mac img.
Proof.
  intros (request & Hget & Himg) Hw. exists request. split; [done|].
  unfold Image_open. rewrite Himg. by rewrite bool_decide_eq_true_2.
Qed.

Lemma serves_carries s u mac img :
  serves s u mac img -> carries s u mac img /\ (0 < width img)%Z.
Proof.
  intros (request & Hget & Hopen). unfold Image_open in Hopen.
  destruct (as_image (content request)) as [img'|] eqn:Himg; [|done].
  case_bool_decide as Hw; [|done]. injection Hopen as ->.
  split; [by exists request|done].
Qed.

Lemma lib_checkin_refused {Node User} (self : @Cloudtrax.CloudTrax Node User)
    mac checkin img :
  Cloudtrax.url self !! "checkin" = Some checkin ->
  carries (Cloudtrax.session_of self) checkin mac img ->
  (width img <= 0)%Z ->
  Cloudtrax.get_checkin_data self mac = Raise IOError.
Proof.
  intros Hurl (request & Hget & Himg) Hw.
  unfold Cloudtrax.get_checkin_data, getitem, Image_open.
  rewrite Hurl. run. rewrite Hget. run. rewrite Himg.
  by rewrite bool_decide_eq_false_2 by lia.
Qed.

Lemma scraper_checkin_refused (self : Cloudscraper.Node) session img :
  carries session (Cloudscraper.checkin_url self) (Cloudscraper.mac self) img ->
  (width img <= 0)%Z ->
  Cloudscraper.scrape_checkin_data self session = Raise IOError.
Proof.
  intros (request & Hget & Himg) Hw.
  unfold Cloudscraper.scrape_checkin_data, getitem, Image_open.
  rewrite Hget. run. rewrite Himg.
  by rewrite bool_decide_eq_false_2 by lia.
Qed.

Lemma lib_checkin_narrow {Node User} (self : @Cloudtrax.CloudTrax Node User)
    mac checkin img :
  Cloudtrax.url self !! "checkin" = Some checkin ->
  carries (Cloudtrax.session_of self) checkin mac img ->
  (width img <= 2)%Z ->
  let outcome := Cloudtrax.get_checkin_data self mac in
  let pct c := if decide (count_of c (row1 img) = 0%Z)
               then minus_zero else minus_hundred in
  ~ fails_with outcome "InvalidCheckinImage"
  /\ (width img <= 0 -> outcome = Raise IOError)%Z
  /\ (0 < width img -> height img <= 1 -> outcome = Raise IndexError)%Z
  /\ (width img = 1 -> 1 < height img ->
      outcome = Ok (pct gateway_colour, pct relay_colour, pct offline_colour))%Z
  /\ (width img = 2 -> 1 < height img ->
      outcome = Raise ZeroDivisionError)%Z.
Proof.
  intros Hurl Hcarries Hw outcome pct.
  split; [apply never_InvalidCheckinImage|].
  split; [|split; [|split]]; subst outcome.
  - intros Hw0. by eapply lib_checkin_refused.
  - intros Hpos Hh.
    by eapply lib_checkin_no_row; [|apply carries_serves| |].
  - intros Hw1 Hh.
    rewrite (lib_checkin_decoded _ _ _ _ Hurl
               (carries_serves _ _ _ _ Hcarries ltac:(lia))) by (by left).
    subst pct. cbv beta. rewrite row1_one_wide by done.
    rewrite !count_of_single, Hw1.
    generalize (pixel_at img 0%Z 1%Z). intros p.
    destruct (decide (p = gateway_colour)) as [->|Hg]; [by vm_compute|].
    destruct (decide (p = relay_colour)) as [->|Hr]; [by vm_compute|].
    destruct (decide (p = offline_colour)) as [->|Ho]; by vm_compute.
  - intros Hw2 Hh.
    rewrite (lib_checkin_decoded _ _ _ _ Hurl
               (carries_serves _ _ _ _ Hcarries ltac:(lia))) by (by left).
    rewrite Hw2. change (2 - 2)%Z with 0%Z.
    rewrite (percentage_of_zero_width (count_of gateway_colour (row1 img)));
      [reflexivity|].
    pose proof (count_of_bounds gateway_colour (row1 img)).
    pose proof (row1_length img). lia.
Qed.

Lemma scraper_checkin_narrow (self : Cloudscraper.Node) session img :
  carries session (Cloudscraper.checkin_url self) (Cloudscraper.mac self) img ->
  (width img <= 2)%Z ->
  let outcome := Cloudscraper.scrape_checkin_data self session in
  let pct c := (- 100 * count_of c (row1 img))%Z in
  ~ fails_with outcome "InvalidCheckinImage"
  /\ (width img <= 0 -> outcome = Raise IOError)%Z
  /\ (0 < width img -> height img <= 1 -> outcome = Raise IndexError)%Z
  /\ (width img = 1 -> 1 < height img ->
      exists counter,
        outcome = Ok (Cloudscraper.with_checkin self counter img
                        (pct gateway_colour) (pct relay_colour)
                        (pct offline_colour), counter))%Z
  /\ (width img = 2 -> 1 < height img ->
      outcome = Raise ZeroDivisionError)%Z.
Proof.
  intros Hcarries Hw outcome pct.
  split; [apply never_InvalidCheckinImage|].
  split; [|split; [|split]]; subst outcome.
  - intros Hw0. by eapply scraper_checkin_refused.
  - intros Hpos Hh.
    by eapply scraper_checkin_no_row; [apply carries_serves| |].
  - intros Hw1 Hh.
    destruct (scraper_checkin_decoded self session img
                (carries_serves _ _ _ _ Hcarries ltac:(lia)))
      as (counter & ->); [by left|].
    exists counter. subst pct. cbv beta.
    rewrite row1_one_wide by done. rewrite !count_of_single, Hw1.
    generalize (pixel_at img 0%Z 1%Z). intros p.
    destruct (decide (p = gateway_colour)) as [->|Hg]; [by vm_compute|].
    destruct (decide (p = relay_colour)) as [->|Hr]; [by vm_compute|].
    destruct (decide (p = offline_colour)) as [->|Ho]; by vm_compute.
  - intros Hw2 Hh.
    destruct (scraper_checkin_decoded self session img
                (carries_serves _ _ _ _ Hcarries ltac:(lia)))
      as (counter & ->); [by left|].
    rewrite Hw2. by vm_compute.
Qed.

(** ** Float arithmetic

    [round64] is within half a unit in the last place of the quotient it
    rounds, which gives the accuracy of [percentage] and of the usage
    figures. *)

Local Open Scope R_scope.

Lemma pow2_pos e : 0 < pow2 e.
Proof. apply powerRZ_lt. lra. Qed.

Lemma pow2_add a b : pow2 (a + b) = pow2 a * pow2 b.
Proof. apply powerRZ_add. lra. Qed.

Lemma pow2_neg a : pow2 (- a) = / pow2 a.
Proof. apply powerRZ_neg'. Qed.

Lemma pow2_sub a b : pow2 (a - b) = pow2 a / pow2 b.
Proof. unfold Z.sub, Rdiv. by rewrite pow2_add, pow2_neg. Qed.

Lemma pow2_IZR k : (0 <= k)%Z -> pow2 k = IZR (2 ^ k).
Proof.
  intros Hk. unfold pow2. rewrite <- (Z2Nat.id k) by done.
  by rewrite <- pow_powerRZ, pow_IZR.
Qed.

Lemma pow2_ge_1 k : (0 <= k)%Z -> 1 <= pow2 k.
Proof.
  intros Hk. rewrite pow2_IZR by done. apply IZR_le.
  pose proof (Z.pow_pos_nonneg 2 k). lia.
Qed.

Lemma pow2_le a b : (a <= b)%Z -> pow2 a <= pow2 b.
Proof.
  intros Hab. replace b with (a + (b - a))%Z by lia. rewrite pow2_add.
  pose proof (pow2_pos a). pose proof (pow2_ge_1 (b - a) ltac:(lia)). nra.
Qed.

Lemma pow2_lt a b : (a < b)%Z -> pow2 a < pow2 b.
Proof.
  intros Hab. replace b with (a + 1 + (b - a - 1))%Z by lia.
  rewrite !pow2_add. replace (pow2 1) with 2 by (unfold pow2; simpl; lra).
  pose proof (pow2_pos a). pose proof (pow2_ge_1 (b - a - 1) ltac:(lia)). nra.
Qed.

Lemma pow2_lt_inv a b : pow2 a < pow2 b -> (a < b)%Z.
Proof.
  intros H. destruct (Z_lt_le_dec a b) as [|Hle]; [done|].
  apply pow2_le in Hle. lra.
Qed.

(** scaled *)
Lemma scaled_value a b k x y :
  (0 < b)%Z -> scaled a b k = (x, y) ->
  (0 < y)%Z /\ IZR x / IZR y = IZR a / IZR b / pow2 k.
Proof.
  intros Hb. unfold scaled. destruct (0 <=? k)%Z eqn:Hk; intros [= <- <-].
  - apply Z.leb_le in Hk. split; [pose proof (Z.pow_pos_nonneg 2 k); nia|].
    rewrite mult_IZR, <- pow2_IZR by done.
    pose proof (pow2_pos k). apply IZR_lt in Hb. field. lra.
  - apply Z.leb_gt in Hk. split; [done|].
    rewrite mult_IZR, <- pow2_IZR by lia. rewrite pow2_neg.
    pose proof (pow2_pos k). apply IZR_lt in Hb. field. lra.
Qed.

Lemma div_nearest_even_spec x y :
  (0 < y)%Z -> (2 * Z.abs (div_nearest_even x y * y - x) <= y)%Z.
Proof.
  intros Hy. unfold div_nearest_even.
  pose proof (Z.div_mod x y). pose proof (Z.mod_pos_bound x y).
  repeat match goal with |- context [(?a <? ?b)%Z] => destruct (Z.ltb_spec a b) end;
  try destruct (Z.even _); nia.
Qed.

Lemma div_nearest_even_value x y :
  (0 < y)%Z -> Rabs (IZR (div_nearest_even x y) - IZR x / IZR y) <= 1 / 2.
Proof.
  intros Hy. pose proof (div_nearest_even_spec x y Hy) as H.
  set (q := div_nearest_even x y) in *.
  assert (IZR y > 0) by (apply IZR_lt in Hy; lra).
  replace (IZR q - IZR x / IZR y) with (IZR (q * y - x) / IZR y)
    by (rewrite minus_IZR, mult_IZR; field; lra).
  unfold Rdiv. rewrite Rabs_mult, Rabs_inv, (Rabs_pos_eq (IZR y)) by lra.
  rewrite <- abs_IZR.
  apply (Rmult_le_reg_r (IZR y)); [lra|].
  replace (IZR (Z.abs (q * y - x)) * / IZR y * IZR y) with (IZR (Z.abs (q * y - x))) by (field; lra).
  apply IZR_le in H. rewrite mult_IZR in H. lra.
Qed.

Lemma log2_bounds a : (0 < a)%Z ->
  pow2 (Z.log2 a) <= IZR a < pow2 (Z.log2 a + 1).
Proof.
  intros Ha. pose proof (Z.log2_spec a Ha) as [H1 H2].
  pose proof (Z.log2_nonneg a).
  rewrite !pow2_IZR by lia. split; [by apply IZR_le|].
  apply IZR_lt. by rewrite <- Z.add_1_r in H2.
Qed.

Lemma ilog2_spec a b : (0 < a)%Z -> (0 < b)%Z ->
  pow2 (ilog2 a b) <= IZR a / IZR b < pow2 (ilog2 a b + 1).
Proof.
  intros Ha Hb. unfold ilog2.
  set (d := (Z.log2 a - Z.log2 b)%Z).
  destruct (scaled a b d) as [x y] eqn:Hxy.
  destruct (scaled_value _ _ _ _ _ Hb Hxy) as [Hy Hval].
  pose proof (log2_bounds a Ha) as [Ha1 Ha2].
  pose proof (log2_bounds b Hb) as [Hb1 Hb2].
  assert (0 < IZR a) by (by apply IZR_lt).
  assert (0 < IZR b) by (by apply IZR_lt).
  assert (0 < IZR y) by (by apply IZR_lt).
  pose proof (pow2_pos d) as Hd.
  pose proof (pow2_pos (Z.log2 a)). pose proof (pow2_pos (Z.log2 b)).
  assert (Hq : IZR a / IZR b = IZR x / IZR y * pow2 d)
    by (rewrite Hval; field; lra).
  assert (Hdd : pow2 d * pow2 (Z.log2 b) = pow2 (Z.log2 a))
    by (rewrite <- pow2_add; f_equal; lia).
  assert (Hlo : pow2 (d - 1) < IZR a / IZR b).
  { replace (d - 1)%Z with (Z.log2 a - (Z.log2 b + 1))%Z by lia.
    rewrite pow2_sub.
    pose proof (pow2_pos (Z.log2 b + 1)).
    apply (Rmult_lt_reg_r (IZR b * pow2 (Z.log2 b + 1))); [nra|].
    replace (pow2 (Z.log2 a) / pow2 (Z.log2 b + 1) * (IZR b * pow2 (Z.log2 b + 1)))
      with (pow2 (Z.log2 a) * IZR b) by (field; lra).
    replace (IZR a / IZR b * (IZR b * pow2 (Z.log2 b + 1)))
      with (IZR a * pow2 (Z.log2 b + 1)) by (field; lra).
    nra. }
  assert (Hhi : IZR a / IZR b < pow2 (d + 1)).
  { replace (d + 1)%Z with (Z.log2 a + 1 - Z.log2 b)%Z by lia.
    rewrite pow2_sub.
    pose proof (pow2_pos (Z.log2 a + 1)).
    apply (Rmult_lt_reg_r (IZR b * pow2 (Z.log2 b))); [nra|].
    replace (pow2 (Z.log2 a + 1) / pow2 (Z.log2 b) * (IZR b * pow2 (Z.log2 b)))
      with (pow2 (Z.log2 a + 1) * IZR b) by (field; lra).
    replace (IZR a / IZR b * (IZR b * pow2 (Z.log2 b)))
      with (IZR a * pow2 (Z.log2 b)) by (field; lra).
    nra. }
  destruct (Z.leb_spec y x) as [Hle|Hgt].
  - split; [|done]. rewrite Hq. apply IZR_le in Hle.
    assert (1 <= IZR x / IZR y).
    { apply (Rmult_le_reg_r (IZR y)); [lra|].
      replace (IZR x / IZR y * IZR y) with (IZR x) by (field; lra). lra. }
    nra.
  - replace (d - 1 + 1)%Z with d by lia. split; [lra|].
    rewrite Hq. apply IZR_lt in Hgt.
    assert (IZR x / IZR y < 1).
    { apply (Rmult_lt_reg_r (IZR y)); [lra|].
      replace (IZR x / IZR y * IZR y) with (IZR x) by (field; lra). lra. }
    nra.
Qed.

(** The value of a finite result of [round64]. *)
Lemma round64_spec s a b :
  (0 < a)%Z -> (0 < b)%Z ->
  (-1022 <= ilog2 a b <= 1022)%Z ->
  exists m k m0,
    round64 s a b = Finite s m k
    /\ IZR m * pow2 k = IZR m0 * pow2 (ilog2 a b - 52)
    /\ Rabs (IZR m0 - IZR a / IZR b / pow2 (ilog2 a b - 52)) <= 1 / 2.
Proof.
  intros Ha Hb He. unfold round64.
  rewrite (proj2 (Z.eqb_neq a 0)) by lia.
  rewrite Z.max_l by lia.
  set (k0 := (ilog2 a b - 52)%Z).
  destruct (scaled a b k0) as [x y] eqn:Hxy.
  destruct (scaled_value _ _ _ _ _ Hb Hxy) as [Hy Hval].
  pose proof (div_nearest_even_value x y Hy) as Hm0.
  set (m0 := div_nearest_even x y) in *.
  rewrite Hval in Hm0.
  destruct (Z.eqb_spec m0 (2 ^ 53)) as [Heq|Hne].
  - rewrite (proj2 (Z.ltb_ge 971 (k0 + 1))) by lia.
    exists (2 ^ 52)%Z, (k0 + 1)%Z, m0. split; [done|]. split; [|done].
    rewrite Heq, pow2_add.
    replace (pow2 1) with 2 by (unfold pow2; simpl; lra).
    rewrite <- !pow2_IZR by lia.
    replace 53%Z with (52 + 1)%Z by lia. rewrite pow2_add.
    replace (pow2 1) with 2 by (unfold pow2; simpl; lra). ring.
  - rewrite (proj2 (Z.ltb_ge 971 k0)) by lia.
    exists m0, k0, m0. done.
Qed.

Lemma round64_accurate s a b :
  (0 < a)%Z -> (0 < b)%Z ->
  (-1022 <= ilog2 a b <= 1022)%Z ->
  exists m k,
    round64 s a b = Finite s m k
    /\ Rabs (IZR m * pow2 k - IZR a / IZR b) <= IZR a / IZR b * pow2 (-53).
Proof.
  intros Ha Hb He.
  destruct (round64_spec s a b Ha Hb He) as (m & k & m0 & Hr & Hv & Hm0).
  exists m, k. split; [done|]. rewrite Hv.
  pose proof (ilog2_spec a b Ha Hb) as [Hlo _].
  set (q := IZR a / IZR b) in *. set (e := ilog2 a b) in *.
  pose proof (pow2_pos (e - 52)) as Hp.
  replace (IZR m0 * pow2 (e - 52) - q)
    with ((IZR m0 - q / pow2 (e - 52)) * pow2 (e - 52)) by (field; lra).
  rewrite Rabs_mult, (Rabs_pos_eq (pow2 (e - 52))) by lra.
  assert (Hhalf : pow2 (e - 52) * (1 / 2) = pow2 e * pow2 (-53)).
  { replace (e - 52)%Z with (e + (-53) + 1)%Z by lia.
    rewrite !pow2_add. replace (pow2 1) with 2 by (unfold pow2; simpl; lra).
    field. }
  pose proof (pow2_pos (-53)).
  pose proof (Rabs_pos (IZR m0 - q / pow2 (e - 52))). nra.
Qed.

Lemma IZR_close a b : Rabs (IZR a - IZR b) <= 1 / 2 -> a = b.
Proof.
  intros H. rewrite <- minus_IZR, <- abs_IZR in H.
  destruct (Z.eq_dec a b) as [|Hne]; [done|].
  assert (1 <= Z.abs (a - b))%Z as Hge by lia.
  apply IZR_le in Hge. lra.
Qed.

Lemma round64_exact s a b n :
  (0 < a)%Z -> (0 < b)%Z -> (0 < n < 2 ^ 53)%Z ->
  IZR a / IZR b = IZR n ->
  exists m k,
    round64 s a b = Finite s m k /\ (0 < m)%Z /\ IZR m * pow2 k = IZR n.
Proof.
  intros Ha Hb Hn Hq.
  pose proof (ilog2_spec a b Ha Hb) as [Hlo Hhi]. rewrite Hq in Hlo, Hhi.
  set (e := ilog2 a b) in *.
  assert (0 <= e <= 52)%Z as He.
  { split.
    - assert (pow2 0 < pow2 (e + 1)) as H%pow2_lt_inv; [|lia].
      replace (pow2 0) with 1 by (unfold pow2; simpl; lra).
      assert (1 <= IZR n) by (apply IZR_le; lia). lra.
    - assert (pow2 e < pow2 53) as H%pow2_lt_inv; [|lia].
      rewrite (pow2_IZR 53) by lia.
      assert (IZR n < IZR (2 ^ 53)) by (apply IZR_lt; lia). lra. }
  destruct (round64_spec s a b Ha Hb ltac:(fold e; lia))
    as (m & k & m0 & Hr & Hv & Hm0).
  fold e in Hv, Hm0. rewrite Hq in Hm0.
  assert (IZR n / pow2 (e - 52) = IZR (n * 2 ^ (52 - e))) as HN.
  { rewrite mult_IZR, <- pow2_IZR by lia.
    replace (52 - e)%Z with (- (e - 52))%Z by lia. rewrite pow2_neg.
    pose proof (pow2_pos (e - 52)). field. lra. }
  rewrite HN in Hm0. apply IZR_close in Hm0.
  assert (IZR m * pow2 k = IZR n) as Hval.
  { rewrite Hv, Hm0, <- HN. pose proof (pow2_pos (e - 52)). field. lra. }
  exists m, k. split; [done|]. split; [|done].
  apply lt_IZR. pose proof (pow2_pos k).
  assert (0 < IZR n) by (apply IZR_lt; lia).
  rewrite <- Hval in H0. nra.
Qed.

Lemma float_of_int_exact n :
  (0 < n < 2 ^ 53)%Z ->
  exists m k,
    float_of_int n = Ok (Finite false m k)
    /\ (0 < m)%Z /\ IZR m * pow2 k = IZR n.
Proof.
  intros Hn. unfold float_of_int.
  rewrite (proj2 (Z.ltb_ge n 0)) by lia. rewrite Z.abs_eq by lia.
  destruct (round64_exact false n 1 n) as (m & k & -> & Hm & Hv);
    [lia|lia|done|simpl; field| ].
  eauto.
Qed.

Lemma fmul_positive s m e t n f :
  (0 < m)%Z -> (0 < n)%Z ->
  exists a b,
    fmul (Finite s m e) (Finite t n f) = round64 (xorb s t) a b
    /\ (0 < a)%Z /\ (0 < b)%Z
    /\ IZR a / IZR b = IZR m * pow2 e * (IZR n * pow2 f).
Proof.
  intros Hm Hn. unfold fmul.
  destruct (scaled (m * n) 1 (- (e + f))) as [a b] eqn:Hab.
  exists a, b. split; [done|].
  destruct (scaled_value (m * n) 1 (- (e + f)) a b ltac:(lia) Hab)
    as [Hb Hval].
  assert (Hq : IZR a / IZR b = IZR m * pow2 e * (IZR n * pow2 f)).
  { rewrite Hval, mult_IZR, pow2_neg, pow2_add.
    pose proof (pow2_pos e). pose proof (pow2_pos f).
    field; split; lra. }
  split; [|done].
  apply lt_IZR. apply IZR_lt in Hb, Hm, Hn.
  pose proof (pow2_pos e). pose proof (pow2_pos f).
  assert (0 < IZR a / IZR b)
    by (rewrite Hq; repeat apply Rmult_lt_0_compat; lra).
  destruct (Rle_or_lt (IZR a) 0) as [Hle|]; [|done].
  assert (IZR a / IZR b <= 0); [|lra].
  unfold Rdiv. pose proof (Rinv_0_lt_compat _ Hb). nra.
Qed.

Lemma fdiv_positive s m e t n f :
  (0 < m)%Z -> (0 < n)%Z ->
  exists a b,
    fdiv (Finite s m e) (Finite t n f) = Ok (round64 (xorb s t) a b)
    /\ (0 < a)%Z /\ (0 < b)%Z
    /\ IZR a / IZR b = IZR m * pow2 e / (IZR n * pow2 f).
Proof.
  intros Hm Hn. unfold fdiv.
  destruct n as [|n|n]; [lia| |lia].
  destruct (scaled m (Z.pos n) (f - e)) as [a b] eqn:Hab.
  exists a, b. split; [done|].
  destruct (scaled_value m (Z.pos n) (f - e) a b ltac:(lia) Hab)
    as [Hb Hval].
  assert (Hq : IZR a / IZR b = IZR m * pow2 e / (IZR (Z.pos n) * pow2 f)).
  { rewrite Hval, pow2_sub. apply IZR_lt in Hn.
    pose proof (pow2_pos e). pose proof (pow2_pos f).
    field; split; lra. }
  split; [|done].
  apply lt_IZR. apply IZR_lt in Hb, Hm, Hn.
  pose proof (pow2_pos e). pose proof (pow2_pos f).
  assert (0 < IZR a / IZR b).
  { rewrite Hq. apply Rdiv_lt_0_compat; apply Rmult_lt_0_compat; lra. }
  destruct (Rle_or_lt (IZR a) 0) as [Hle|]; [|done].
  assert (IZR a / IZR b <= 0); [|lra].
  unfold Rdiv. pose proof (Rinv_0_lt_compat _ Hb). nra.
Qed.

Lemma ilog2_range a b lo hi :
  (0 < a)%Z -> (0 < b)%Z ->
  pow2 lo <= IZR a / IZR b < pow2 hi ->
  (lo <= ilog2 a b < hi)%Z.
Proof.
  intros Ha Hb [Hlo Hhi].
  pose proof (ilog2_spec a b Ha Hb) as [He1 He2].
  split.
  - assert (pow2 lo < pow2 (ilog2 a b + 1)) as H%pow2_lt_inv by lra. lia.
  - assert (pow2 (ilog2 a b) < pow2 hi) as H%pow2_lt_inv by lra. lia.
Qed.

Lemma round64_zero s b : round64 s 0 b = Finite s 0 (-1074).
Proof. reflexivity. Qed.

Lemma fdiv_zero s e t n f :
  (0 < n)%Z ->
  fdiv (Finite s 0 e) (Finite t n f) = Ok (Finite (xorb s t) 0 (-1074)).
Proof.
  intros Hn. unfold fdiv. destruct n as [|n|n]; [lia| |lia].
  unfold scaled. by destruct (0 <=? f - e)%Z.
Qed.

(** [percentage c d] is the exact quotient [100 c / d] up to one
    rounding. *)
Lemma percentage_accurate c d :
  (0 <= c)%Z -> (0 < d < 2 ^ 53)%Z -> (100 * c < 2 ^ 53)%Z ->
  exists m k,
    Cloudtrax.percentage c d = Ok (Finite false m k)
    /\ Rabs (IZR m * pow2 k - 100 * IZR c / IZR d)
       <= 100 * IZR c / IZR d * pow2 (-53).
Proof.
  intros Hc Hd Hcc. unfold Cloudtrax.percentage.
  destruct (float_of_int_exact 100 ltac:(lia)) as (mh & kh & -> & Hmh & Hvh).
  destruct (float_of_int_exact d Hd) as (md & kd & Hfd & Hmd & Hvd).
  destruct (Z.eq_dec c 0%Z) as [->|Hne].
  - change (float_of_int 0) with (Ok (Finite false 0 (-1074))).
    cbn [mbind result_bind]. rewrite Hfd. cbn [mbind result_bind].
    assert (fmul (Finite false 0 (-1074)) (Finite false mh kh)
            = Finite false 0 (-1074)) as ->.
    { unfold fmul, scaled. by destruct (0 <=? _)%Z. }
    rewrite fdiv_zero by done. exists 0%Z, (-1074)%Z. split; [done|].
    replace (IZR 0 * pow2 (-1074) - 100 * 0 / IZR d) with 0
      by (unfold Rdiv; ring).
    rewrite Rabs_R0. unfold Rdiv. lra.
  - destruct (float_of_int_exact c ltac:(lia)) as (mc & kc & -> & Hmc & Hvc).
    cbn [mbind result_bind]. rewrite Hfd. cbn [mbind result_bind].
    destruct (fmul_positive false mc kc false mh kh Hmc Hmh)
      as (a & b & -> & Ha & Hb & Hq).
    rewrite Hvc, Hvh, <- mult_IZR in Hq.
    destruct (round64_exact (xorb false false) a b (c * 100) Ha Hb ltac:(lia) Hq)
      as (mp & kp & -> & Hmp & Hvp).
    destruct (fdiv_positive (xorb false false) mp kp false md kd Hmp Hmd)
      as (a' & b' & -> & Ha' & Hb' & Hq').
    rewrite Hvp, Hvd, mult_IZR in Hq'.
    assert (0 < IZR d < IZR (2 ^ 53)) as [Hd1 Hd2]
      by (split; apply IZR_lt; lia).
    assert (1 <= IZR c) by (apply IZR_le; lia).
    assert (1 <= IZR d) by (apply IZR_le; lia).
    assert (100 * IZR c < IZR (2 ^ 53))
      by (rewrite <- mult_IZR; apply IZR_lt; lia).
    rewrite <- !pow2_IZR in * by lia.
    assert (Hqq : IZR a' / IZR b' = 100 * IZR c / IZR d)
      by (rewrite Hq'; field; lra).
    assert (-53 <= ilog2 a' b' < 53)%Z.
    { apply ilog2_range; [done..|]. rewrite Hqq. split.
      - rewrite (pow2_neg 53 : pow2 (-53) = / pow2 53).
        apply (Rmult_le_reg_r (IZR d * pow2 53));
          [pose proof (pow2_pos 53); nra|].
        replace (/ pow2 53 * (IZR d * pow2 53)) with (IZR d)
          by (pose proof (pow2_pos 53); field; lra).
        replace (100 * IZR c / IZR d * (IZR d * pow2 53))
          with (100 * IZR c * pow2 53) by (field; lra).
        pose proof (pow2_ge_1 53 ltac:(lia)). nra.
      - apply (Rmult_lt_reg_r (IZR d)); [lra|].
        replace (100 * IZR c / IZR d * IZR d) with (100 * IZR c)
          by (field; lra).
        pose proof (pow2_pos 53). nra. }
    destruct (round64_accurate (xorb (xorb false false) false) a' b' Ha' Hb'
                ltac:(lia)) as (m & k & -> & Hacc).
    rewrite Hqq in Hacc. by exists m, k.
Qed.

Local Close Scope R_scope.

(** Digits *)
Lemma digit_facts c :
  is_digit c = true ->
  is_space c = false /\ lower c = c /\ c <> "-"%char /\ c <> "+"%char
  /\ c <> "i"%char /\ c <> "n"%char /\ (0 <= digit_value c <= 9)%Z.
Proof.
  destruct c as [[] [] [] [] [] [] [] []]; vm_compute; intros H;
    try discriminate H; repeat split; (discriminate || lia).
Qed.

Lemma drop_while_digits l :
  forallb is_digit l = true -> drop_while is_space l = l.
Proof.
  destruct l as [|c l]; [done|]. simpl. intros [Hc _]%andb_true_iff.
  by rewrite (proj1 (digit_facts c Hc)).
Qed.

Lemma strip_digits l : forallb is_digit l = true -> strip l = l.
Proof.
  intros Hl. unfold strip. rewrite (drop_while_digits l Hl).
  rewrite drop_while_digits; [by rewrite rev_involutive|].
  apply forallb_forall. intros c Hc%in_rev.
  by eapply forallb_forall in Hl.
Qed.

Lemma span_all_digits l :
  forallb is_digit l = true -> span_digits l = (l, []).
Proof.
  unfold span_digits. induction l as [|c l IH]; [done|]. simpl.
  intros [Hc Hl]%andb_true_iff. rewrite Hc.
  specialize (IH Hl). by injection IH as -> ->.
Qed.

Lemma fold_digits_nonneg l acc :
  forallb is_digit l = true -> (0 <= acc)%Z ->
  (0 <= fold_left (fun acc c => 10 * acc + digit_value c) l acc)%Z.
Proof.
  revert acc. induction l as [|c l IH]; intros acc; simpl; [done|].
  intros [Hc Hl]%andb_true_iff Hacc. apply IH; [done|].
  pose proof (digit_facts c Hc). lia.
Qed.

Lemma number_of_nonneg l :
  forallb is_digit l = true -> (0 <= number_of l)%Z.
Proof. intros Hl. by apply fold_digits_nonneg. Qed.

Lemma py_float_numeral s n :
  numeral s n -> py_float s = Ok (round64 false n 1) /\ (0 <= n)%Z.
Proof.
  intros (Hne & Hl & Hn). split; [|rewrite <- Hn; by apply number_of_nonneg].
  unfold py_float. rewrite (strip_digits _ Hl).
  destruct (list_ascii_of_string s) as [|c l] eqn:Hs; [done|].
  pose proof Hl as [Hc _]%andb_true_iff.
  destruct (digit_facts c Hc) as (_ & Hlow & Hminus & Hplus & Hi & Hn' & _).
  assert (split_sign (c :: l) = (false, c :: l)) as ->.
  { unfold split_sign.
    destruct c as [[] [] [] [] [] [] [] []]; try done. }
  rewrite fmap_cons, Hlow.
  rewrite !bool_decide_eq_false_2 by (simpl; congruence).
  cbn [orb]. rewrite (span_all_digits _ Hl). cbn [exponent_of].
  rewrite app_nil_r. cbn [length Z.of_nat Z.sub Z.opp Z.leb Z.compare].
  rewrite Hn. by rewrite Z.mul_1_r.
Qed.

Local Open Scope R_scope.

Lemma scaled_lt_one a b k x y :
  (0 < b)%Z -> scaled a b k = (x, y) ->
  IZR a / IZR b / pow2 k < 1 -> (y <=? x)%Z = false.
Proof.
  intros Hb Hxy Hlt.
  destruct (scaled_value _ _ _ _ _ Hb Hxy) as [Hy Hval].
  rewrite <- Hval in Hlt. apply Z.leb_gt. apply lt_IZR.
  apply IZR_lt in Hy.
  apply (Rmult_lt_reg_r (/ IZR y)); [by apply Rinv_0_lt_compat|].
  replace (IZR y * / IZR y) with 1 by (field; lra). done.
Qed.

(** ['%.2f'] of a non-negative float below [2^60]: the number of
    hundredths nearest to it. *)
Lemma format_2f_small m k :
  (0 <= m)%Z -> IZR m * pow2 k < pow2 60 ->
  exists h,
    format_2f (Finite false m k) = hundredths false h
    /\ Rabs (IZR h - 100 * (IZR m * pow2 k)) <= 1 / 2.
Proof.
  intros Hm Hsmall. unfold format_2f.
  assert (round64 false (10 ^ 50) 1 = Finite false 4814824860968090 114)
    as -> by (by vm_compute).
  unfold magnitude_ge.
  destruct (scaled m 4814824860968090 (114 - k)) as [a b] eqn:Hab.
  rewrite (scaled_lt_one m 4814824860968090 (114 - k) a b ltac:(lia) Hab).
  - destruct (scaled (100 * m) 1 (- k)) as [x y] eqn:Hxy.
    destruct (scaled_value (100 * m) 1 (- k) x y ltac:(lia) Hxy)
      as [Hy Hval].
    exists (div_nearest_even x y). split; [done|].
    pose proof (div_nearest_even_value x y Hy) as Hh.
    rewrite Hval, mult_IZR, pow2_neg in Hh.
    replace (100 * (IZR m * pow2 k))
      with (100 * IZR m / 1 / / pow2 k);
      [done|pose proof (pow2_pos k); field; lra].
  - rewrite pow2_sub.
    pose proof (pow2_pos k). pose proof (pow2_pos 114).
    assert (IZR (2 ^ 52) <= IZR 4814824860968090) as H52
      by (apply IZR_le; lia).
    rewrite <- pow2_IZR in H52 by lia.
    apply (Rmult_lt_reg_r (IZR 4814824860968090 * pow2 114)).
    { apply Rmult_lt_0_compat; [|done]. pose proof (pow2_pos 52). lra. }
    replace (IZR m / IZR 4814824860968090 / (pow2 114 / pow2 k)
             * (IZR 4814824860968090 * pow2 114))
      with (IZR m * pow2 k).
    2:{ field. repeat split; lra. }
    assert (pow2 60 <= pow2 52 * pow2 114)
      by (rewrite <- pow2_add; apply pow2_le; lia).
    nra.
Qed.

Local Close Scope R_scope.

Local Open Scope R_scope.

Lemma Rabs_bound x c : Rabs x <= c -> - c <= x <= c.
Proof. unfold Rabs. destruct (Rcase_abs x); lra. Qed.

Lemma usage_numeral (self : Cloudscraper.User) key s n :
  Cloudscraper.values self !! key = Some s ->
  numeral s n -> (n < 2 ^ 53)%Z ->
  exists h,
    Cloudscraper.usage self key = Ok (hundredths false h)
    /\ (0 <= h)%Z /\ (Z.abs (10 * h - n) <= 5)%Z.
Proof.
  intros Hkey Hnum Hn.
  destruct (py_float_numeral s n Hnum) as [Hfloat Hn0].
  unfold Cloudscraper.usage, getitem. rewrite Hkey.
  cbn [mbind result_bind]. rewrite Hfloat. cbn [mbind result_bind].
  destruct (float_of_int_exact 1000 ltac:(lia)) as (md & kd & -> & Hmd & Hvd).
  cbn [mbind result_bind].
  destruct (Z.eq_dec n 0%Z) as [->|Hne].
  - rewrite round64_zero, fdiv_zero by done. cbn [mbind result_bind].
    exists 0%Z. split; [by vm_compute|lia].
  - destruct (round64_exact false n 1 n) as (m & k & -> & Hm & Hv);
      [lia|lia|lia|simpl; field| ].
    destruct (fdiv_positive false m k false md kd Hm Hmd)
      as (a & b & -> & Ha & Hb & Hq).
    rewrite Hv, Hvd in Hq. cbn [mbind result_bind].
    assert (1 <= IZR n) by (apply IZR_le; lia).
    assert (IZR n < pow2 53)
      by (rewrite pow2_IZR by lia; apply IZR_lt; lia).
    assert (-10 <= ilog2 a b < 53)%Z.
    { apply ilog2_range; [done..|]. rewrite Hq. split.
      - replace (pow2 (-10)) with (/ 1024)
          by (unfold pow2; simpl; lra). lra.
      - lra. }
    destruct (round64_accurate (xorb false false) a b Ha Hb ltac:(lia))
      as (m' & k' & -> & Hacc).
    rewrite Hq in Hacc. cbn [xorb].
    set (Y := IZR m' * pow2 k') in *.
    assert (0 < pow2 (-53) < / 2) as [Hp1 Hp2].
    { split; [apply pow2_pos|].
      rewrite (pow2_neg 53 : pow2 (-53) = / pow2 53).
      apply Rinv_lt_contravar; [|].
      - pose proof (pow2_pos 53). lra.
      - replace 2 with (pow2 1) by (unfold pow2; simpl; lra).
        apply pow2_lt. lia. }
    apply Rabs_bound in Hacc.
    assert (0 < Y) by nra.
    assert (0 <= m')%Z.
    { apply le_IZR. pose proof (pow2_pos k'). subst Y.
      destruct (Rle_or_lt 0 (IZR m')) as [|Hneg]; [done|]. nra. }
    assert (Y < pow2 60).
    { assert (pow2 53 * 2 <= pow2 60); [|nra].
      replace 2 with (pow2 1) by (unfold pow2; simpl; lra).
      rewrite <- pow2_add. apply pow2_le. lia. }
    destruct (format_2f_small m' k') as (h & -> & Hh); [done..|].
    fold Y in Hh. apply Rabs_bound in Hh.
    exists h. split; [done|].
    assert (IZR n * pow2 (-53) < 1).
    { rewrite (pow2_neg 53 : pow2 (-53) = / pow2 53).
      pose proof (pow2_pos 53).
      apply (Rmult_lt_reg_r (pow2 53)); [done|].
      replace (IZR n * / pow2 53 * pow2 53) with (IZR n) by (field; lra).
      lra. }
    split.
    + apply le_IZR. assert (-1 < IZR h) as Hgt by nra.
      apply lt_IZR in Hgt. apply IZR_le. lia.
    + assert (-6 < IZR (10 * h - n) < 6) as [Hlo Hhi].
      { rewrite minus_IZR, mult_IZR. split; nra. }
      apply lt_IZR in Hlo, Hhi. lia.
Qed.

(** ** The decoder on narrow images *)

Lemma image_session_carries img u mac :
  carries (image_session img) u mac img.
Proof. eexists. split; reflexivity. Qed.

Lemma image_session_serves img u mac :
  (0 < width img)%Z -> serves (image_session img) u mac img.
Proof. intros Hw. by apply carries_serves, Hw; apply image_session_carries. Qed.

(** C5, as the code has it.  For a file that holds an image of width at
    most 2 neither decoder raises [InvalidCheckinImage], an error the
    code does not have.  A file of width 0 is refused by [Image.open]
    itself, with [IOError].  At width 2 the division by [width - 2]
    raises [ZeroDivisionError]; at width 1 percentages are returned,
    computed with the negative divisor [width - 2]: the value -100 for
    the colour of the single pixel and zero for the others; an image
    with a column but without a pixel row 1 raises [IndexError]. *)
Theorem checkin_narrow_image img :
  (width img <= 2)%Z ->
  (forall Node User (self : @Cloudtrax.CloudTrax Node User) mac checkin,
     Cloudtrax.url self !! "checkin" = Some checkin ->
     carries (Cloudtrax.session_of self) checkin mac img ->
     let outcome := Cloudtrax.get_checkin_data self mac in
     let pct c := if decide (count_of c (row1 img) = 0%Z)
                  then minus_zero else minus_hundred in
     ~ fails_with outcome "InvalidCheckinImage"
     /\ (width img <= 0 -> outcome = Raise IOError)%Z
     /\ (0 < width img -> height img <= 1 -> outcome = Raise IndexError)%Z
     /\ (width img = 1 -> 1 < height img ->
         outcome
         = Ok (pct gateway_colour, pct relay_colour, pct offline_colour))%Z
     /\ (width img = 2 -> 1 < height img ->
         outcome = Raise ZeroDivisionError)%Z)
  /\ (forall (self : Cloudscraper.Node) session,
        carries session (Cloudscraper.checkin_url self)
                (Cloudscraper.mac self) img ->
        let outcome := Cloudscraper.scrape_checkin_data self session in
        let pct c := (- 100 * count_of c (row1 img))%Z in
        ~ fails_with outcome "InvalidCheckinImage"
        /\ (width img <= 0 -> outcome = Raise IOError)%Z
        /\ (0 < width img -> height img <= 1 ->
            outcome = Raise IndexError)%Z
        /\ (width img = 1 -> 1 < height img ->
            exists counter,
              outcome = Ok (Cloudscraper.with_checkin self counter img
                              (pct gateway_colour) (pct relay_colour)
                              (pct offline_colour), counter))%Z
        /\ (width img = 2 -> 1 < height img ->
            outcome = Raise ZeroDivisionError)%Z).
Proof.
  intros Hw. split.
  - intros Node User self mac checkin Hurl Hcarries.
    exact (lib_checkin_narrow self mac checkin img Hurl Hcarries Hw).
  - intros self session Hcarries.
    exact (scraper_checkin_narrow self session img Hcarries Hw).
Qed.

Lemma checkin_narrow_image_sample :
  (width two_wide <= 2)%Z
  /\ Cloudtrax.get_checkin_data (lib_connector two_wide) "00:11:22:33:44:55"
     = Raise ZeroDivisionError
  /\ Cloudscraper.scrape_checkin_data
       (blank_node "00:11:22:33:44:55" "https://dashboard/checkin")
       (image_session two_wide)
     = Raise ZeroDivisionError
  /\ (width no_column <= 2)%Z
  /\ Cloudtrax.get_checkin_data (lib_connector no_column) "00:11:22:33:44:55"
     = Raise IOError
  /\ Cloudscraper.scrape_checkin_data
       (blank_node "00:11:22:33:44:55" "https://dashboard/checkin")
       (image_session no_column)
     = Raise IOError.
Proof.
  assert (Hw : (width two_wide <= 2)%Z) by (by vm_compute).
  assert (Hw0 : (width no_column <= 2)%Z) by (by vm_compute).
  split; [exact Hw|].
  destruct (checkin_narrow_image two_wide Hw) as [Hlib Hscraper].
  destruct (checkin_narrow_image no_column Hw0) as [Hlib0 Hscraper0].
  split; [|split; [|split; [exact Hw0|split]]].
  - apply (Hlib unit unit (lib_connector two_wide) "00:11:22:33:44:55"
                "https://dashboard/checkin");
      [reflexivity | apply image_session_carries | reflexivity
       | reflexivity].
  - apply (Hscraper
             (blank_node "00:11:22:33:44:55" "https://dashboard/checkin")
             (image_session two_wide));
      [apply image_session_carries | reflexivity | reflexivity].
  - apply (Hlib0 unit unit (lib_connector no_column) "00:11:22:33:44:55"
                 "https://dashboard/checkin");
      [reflexivity | apply image_session_carries | reflexivity].
  - apply (Hscraper0
             (blank_node "00:11:22:33:44:55" "https://dashboard/checkin")
             (image_session no_column));
      [apply image_session_carries | reflexivity].
Defined.

(** The claim of the design document, that such an image fails with
    [InvalidCheckinImage], does not hold of the code: at width 2 the
    failure is a [ZeroDivisionError], at width 1 there is none, and a
    file of width 0 fails in [Image.open] with [IOError]. *)
Lemma checkin_narrow_image_not_InvalidCheckinImage :
  (width two_wide <= 2)%Z
  /\ ~ fails_with
         (Cloudtrax.get_checkin_data (lib_connector two_wide)
            "00:11:22:33:44:55") "InvalidCheckinImage"
  /\ fails_with
       (Cloudtrax.get_checkin_data (lib_connector two_wide)
          "00:11:22:33:44:55") "ZeroDivisionError"
  /\ (width one_wide <= 2)%Z
  /\ Cloudtrax.get_checkin_data (lib_connector one_wide) "00:11:22:33:44:55"
     = Ok (minus_hundred, minus_zero, minus_zero)
  /\ (width no_column <= 2)%Z
  /\ fails_with
       (Cloudtrax.get_checkin_data (lib_connector no_column)
          "00:11:22:33:44:55") "IOError".
Proof.
  split; [by vm_compute|].
  split; [apply never_InvalidCheckinImage|].
  split; [exists ZeroDivisionError; by vm_compute|].
  split; [by vm_compute|]. split; [by vm_compute|].
  split; [by vm_compute|]. exists IOError. by vm_compute.
Qed.

(** *** The sum of the three percentages *)

Lemma classified_total img :
  (0 <= width img)%Z ->
  (count_of gateway_colour (row1 img) + count_of relay_colour (row1 img)
   + count_of offline_colour (row1 img))%Z
  = (width img - unclassified (row1 img))%Z.
Proof.
  intros Hw. pose proof (counts_partition (row1 img)).
  pose proof (row1_length img Hw). lia.
Qed.

Lemma count_of_row1_bounds c img :
  (0 <= width img)%Z -> (0 <= count_of c (row1 img) <= width img)%Z.
Proof.
  intros Hw. pose proof (count_of_bounds c (row1 img)).
  pose proof (row1_length img Hw). lia.
Qed.

Lemma pow2_m53_small : 0 < pow2 (-53) /\ pow2 (-53) * pow2 45 < 1.
Proof.
  split; [apply pow2_pos|].
  rewrite <- pow2_add. replace 1 with (pow2 0) by (unfold pow2; simpl; lra).
  apply pow2_lt. lia.
Qed.

Lemma lib_percentages_sum {Node User} (self : @Cloudtrax.CloudTrax Node User)
    mac checkin img :
  Cloudtrax.url self !! "checkin" = Some checkin ->
  serves (Cloudtrax.session_of self) checkin mac img ->
  (2 < width img < 2 ^ 45)%Z -> (1 < height img)%Z ->
  exists g r o,
    Cloudtrax.get_checkin_data self mac = Ok (g, r, o)
    /\ ((2 <= unclassified (row1 img))%Z ->
        float_value g + float_value r + float_value o
        <= 100 * (1 + pow2 (-53)))
    /\ ((unclassified (row1 img) < 2)%Z ->
        100 < float_value g + float_value r + float_value o)
    /\ (float_value g + float_value r + float_value o < 100 ->
        (2 <= unclassified (row1 img))%Z).
Proof.
  intros Hurl Hserves Hw Hh.
  rewrite (lib_checkin_decoded _ _ _ _ Hurl Hserves) by (by left).
  pose proof (classified_total img ltac:(lia)) as Htotal.
  pose proof (count_of_row1_bounds gateway_colour img ltac:(lia)) as Hg.
  pose proof (count_of_row1_bounds relay_colour img ltac:(lia)) as Hr.
  pose proof (count_of_row1_bounds offline_colour img ltac:(lia)) as Ho.
  set (cg := count_of gateway_colour (row1 img)) in *.
  set (cr := count_of relay_colour (row1 img)) in *.
  set (co := count_of offline_colour (row1 img)) in *.
  set (u := unclassified (row1 img)) in *.
  assert (2 ^ 45 * 100 < 2 ^ 53)%Z as Hpow by (by vm_compute).
  destruct (percentage_accurate cg (width img - 2))
    as (mg & kg & -> & Hvg); [lia..|].
  destruct (percentage_accurate cr (width img - 2))
    as (mr & kr & -> & Hvr); [lia..|].
  destruct (percentage_accurate co (width img - 2))
    as (mo & ko & -> & Hvo); [lia..|].
  cbn [mbind result_bind].
  exists (Finite false mg kg), (Finite false mr kr), (Finite false mo ko).
  split; [done|]. cbn [float_value].
  apply Rabs_bound in Hvg, Hvr, Hvo.
  assert (0 < IZR (width img - 2)) as Hd by (apply IZR_lt; lia).
  set (d := IZR (width img - 2)) in *.
  assert (IZR cg + IZR cr + IZR co = IZR (width img) - IZR u) as Hsum
    by (rewrite <- !plus_IZR, <- minus_IZR; by f_equal).
  assert (d = IZR (width img) - 2) as Hdw by (subst d; by rewrite minus_IZR).
  assert (0 <= IZR cg /\ 0 <= IZR cr /\ 0 <= IZR co) as (Hg0 & Hr0 & Ho0)
    by (repeat split; apply IZR_le; lia).
  assert (IZR (width img) < pow2 45) as Hw45
    by (rewrite pow2_IZR by lia; apply IZR_lt; lia).
  destruct pow2_m53_small as [He1 He2].
  set (eps := pow2 (-53)) in *.
  set (xg := 100 * IZR cg / d) in *.
  set (xr := 100 * IZR cr / d) in *.
  set (xo := 100 * IZR co / d) in *.
  assert (xg + xr + xo = 100 * ((IZR (width img) - IZR u) / d)) as Hx
    by (subst xg xr xo; rewrite <- Hsum; field; lra).
  assert (0 <= xg /\ 0 <= xr /\ 0 <= xo) as (Hxg & Hxr & Hxo).
  { subst xg xr xo. repeat split; apply Rmult_le_pos;
      try (apply Rmult_le_pos; lra);
      apply Rlt_le, Rinv_0_lt_compat, Hd. }
  assert (Hupper : (2 <= u)%Z ->
            1 * IZR mg * pow2 kg + 1 * IZR mr * pow2 kr + 1 * IZR mo * pow2 ko
            <= 100 * (1 + eps)).
  { intros Hu. apply IZR_le in Hu.
    assert ((IZR (width img) - IZR u) / d <= 1).
    { apply (Rmult_le_reg_r d); [done|].
      replace ((IZR (width img) - IZR u) / d * d)
        with (IZR (width img) - IZR u) by (field; lra). lra. }
    nra. }
  assert (Hlower : (u < 2)%Z ->
            100 < 1 * IZR mg * pow2 kg + 1 * IZR mr * pow2 kr
                  + 1 * IZR mo * pow2 ko).
  { intros Hu. assert (u <= 1)%Z as Hu1%IZR_le by lia.
    assert (0 <= u)%Z as Hu0%IZR_le.
    { subst u. unfold unclassified. lia. }
    set (S := IZR (width img) - IZR u) in *.
    assert (eps * S <= eps * pow2 45)
      by (apply Rmult_le_compat_l; subst S; lra).
    assert (d < (1 - eps) * S) by (subst S; nra).
    assert (1 < (1 - eps) * (S / d)).
    { apply (Rmult_lt_reg_r d); [done|].
      replace ((1 - eps) * (S / d) * d) with ((1 - eps) * S)
        by (field; lra). lra. }
    nra. }
  split; [done|]. split; [done|].
  intros Hlt. destruct (Z_lt_le_dec u 2) as [Hu|Hu]; [|done].
  specialize (Hlower Hu). lra.
Qed.

(** Each percentage of [lib/cloudtrax.py] is the quotient
    [100 * count / (width - 2)] up to one rounding to binary64. *)
Lemma lib_percentages_accurate {Node User}
    (self : @Cloudtrax.CloudTrax Node User) mac checkin img :
  Cloudtrax.url self !! "checkin" = Some checkin ->
  serves (Cloudtrax.session_of self) checkin mac img ->
  (2 < width img < 2 ^ 45)%Z -> (1 < height img)%Z ->
  let quotient c := 100 * IZR (count_of c (row1 img)) / IZR (width img - 2) in
  exists g r o,
    Cloudtrax.get_checkin_data self mac = Ok (g, r, o)
    /\ Rabs (float_value g - quotient gateway_colour)
       <= quotient gateway_colour * pow2 (-53)
    /\ Rabs (float_value r - quotient relay_colour)
       <= quotient relay_colour * pow2 (-53)
    /\ Rabs (float_value o - quotient offline_colour)
       <= quotient offline_colour * pow2 (-53).
Proof.
  intros Hurl Hserves Hw Hh quotient. subst quotient. cbv beta.
  rewrite (lib_checkin_decoded _ _ _ _ Hurl Hserves) by (by left).
  pose proof (count_of_row1_bounds gateway_colour img ltac:(lia)) as Hg.
  pose proof (count_of_row1_bounds relay_colour img ltac:(lia)) as Hr.
  pose proof (count_of_row1_bounds offline_colour img ltac:(lia)) as Ho.
  assert (2 ^ 45 * 100 < 2 ^ 53)%Z as Hpow by (by vm_compute).
  destruct (percentage_accurate (count_of gateway_colour (row1 img))
              (width img - 2)) as (mg & kg & -> & Hvg); [lia..|].
  destruct (percentage_accurate (count_of relay_colour (row1 img))
              (width img - 2)) as (mr & kr & -> & Hvr); [lia..|].
  destruct (percentage_accurate (count_of offline_colour (row1 img))
              (width img - 2)) as (mo & ko & -> & Hvo); [lia..|].
  cbn [mbind result_bind].
  exists (Finite false mg kg), (Finite false mr kr), (Finite false mo ko).
  split; [done|]. cbn [float_value]. rewrite !Rmult_1_l. done.
Qed.

Lemma floor_shares a b c d :
  (0 <= a)%Z -> (0 <= b)%Z -> (0 <= c)%Z -> (0 < d)%Z ->
  (a + b + c <= d)%Z ->
  (a / d * 100 + b / d * 100 + c / d * 100 <= 100)%Z.
Proof.
  intros Ha Hb Hc Hd Hsum.
  pose proof (Z.mul_div_le a d Hd). pose proof (Z.mul_div_le b d Hd).
  pose proof (Z.mul_div_le c d Hd).
  pose proof (Z.div_pos a d Ha Hd). pose proof (Z.div_pos b d Hb Hd).
  pose proof (Z.div_pos c d Hc Hd). nia.
Qed.

Lemma scraper_percentages_sum (self : Cloudscraper.Node) session img :
  serves session (Cloudscraper.checkin_url self) (Cloudscraper.mac self) img ->
  (2 < width img)%Z -> (1 < height img)%Z ->
  exists counter gw relay offline,
    Cloudscraper.scrape_checkin_data self session
    = Ok (Cloudscraper.with_checkin self counter img gw relay offline,
          counter)
    /\ gw = (count_of gateway_colour (row1 img) / (width img - 2) * 100)%Z
    /\ relay = (count_of relay_colour (row1 img) / (width img - 2) * 100)%Z
    /\ offline
       = (count_of offline_colour (row1 img) / (width img - 2) * 100)%Z
    /\ ((2 <= unclassified (row1 img))%Z -> (gw + relay + offline <= 100)%Z).
Proof.
  intros Hserves Hw Hh.
  destruct (scraper_checkin_decoded self session img Hserves)
    as (counter & ->); [by left|].
  unfold Cloudscraper.int_div.
  rewrite bool_decide_eq_false_2 by lia. cbn [mbind result_bind].
  eexists counter, _, _, _. split; [reflexivity|].
  split; [reflexivity|]. split; [reflexivity|]. split; [reflexivity|].
  intros Hu.
  pose proof (classified_total img ltac:(lia)).
  pose proof (count_of_row1_bounds gateway_colour img ltac:(lia)).
  pose proof (count_of_row1_bounds relay_colour img ltac:(lia)).
  pose proof (count_of_row1_bounds offline_colour img ltac:(lia)).
  apply floor_shares; lia.
Qed.

(** C4, as the code has it.  The three colours are counted over all the
    columns of row 1, border columns included, and divided by
    [width - 2].  So for a decodable image of width above 2 (and below
    2^45, so that the counts are exact as floats), with [u] pixels of
    row 1 of an unclassified colour:
    - in [lib/cloudtrax.py] the three percentages sum to at most 100, up
      to the rounding of the three float divisions (a factor
      [1 + 2^-53]), when [u >= 2]; to more than 100 when [u < 2]; and a
      sum below 100 is only found when [u >= 2];
    - in [cloudscraper.py], the three percentages are the integer
      quotients times 100, and sum to at most 100 when [u >= 2]. *)
Theorem checkin_percentages_sum img :
  (2 < width img < 2 ^ 45)%Z -> (1 < height img)%Z ->
  (forall Node User (self : @Cloudtrax.CloudTrax Node User) mac checkin,
     Cloudtrax.url self !! "checkin" = Some checkin ->
     serves (Cloudtrax.session_of self) checkin mac img ->
     exists g r o,
       Cloudtrax.get_checkin_data self mac = Ok (g, r, o)
       /\ ((2 <= unclassified (row1 img))%Z ->
           float_value g + float_value r + float_value o
           <= 100 * (1 + pow2 (-53)))
       /\ ((unclassified (row1 img) < 2)%Z ->
           100 < float_value g + float_value r + float_value o)
       /\ (float_value g + float_value r + float_value o < 100 ->
           (2 <= unclassified (row1 img))%Z))
  /\ (forall (self : Cloudscraper.Node) session,
        serves session (Cloudscraper.checkin_url self)
               (Cloudscraper.mac self) img ->
        exists counter gw relay offline,
          Cloudscraper.scrape_checkin_data self session
          = Ok (Cloudscraper.with_checkin self counter img gw relay offline,
                counter)
          /\ gw = (count_of gateway_colour (row1 img)
                   / (width img - 2) * 100)%Z
          /\ relay = (count_of relay_colour (row1 img)
                      / (width img - 2) * 100)%Z
          /\ offline = (count_of offline_colour (row1 img)
                        / (width img - 2) * 100)%Z
          /\ ((2 <= unclassified (row1 img))%Z ->
              (gw + relay + offline <= 100)%Z)).
Proof.
  intros Hw Hh. split.
  - intros Node User self mac checkin Hurl Hserves.
    exact (lib_percentages_sum self mac checkin img Hurl Hserves Hw Hh).
  - intros self session Hserves.
    exact (scraper_percentages_sum self session img Hserves
             ltac:(lia) Hh).
Qed.

Lemma checkin_percentages_sum_sample :
  (2 < width half_day < 2 ^ 45)%Z /\ (1 < height half_day)%Z
  /\ unclassified (row1 half_day) = 2%Z
  /\ exists g r o,
       Cloudtrax.get_checkin_data (lib_connector half_day)
         "00:11:22:33:44:55" = Ok (g, r, o)
       /\ float_value g + float_value r + float_value o
          <= 100 * (1 + pow2 (-53)).
Proof.
  assert (Hw : (2 < width half_day < 2 ^ 45)%Z) by (by vm_compute).
  assert (Hh : (1 < height half_day)%Z) by (by vm_compute).
  assert (Hu : unclassified (row1 half_day) = 2%Z) by (by vm_compute).
  split; [exact Hw|]. split; [exact Hh|]. split; [exact Hu|].
  destruct (checkin_percentages_sum half_day Hw Hh) as [Hlib _].
  destruct (Hlib unit unit (lib_connector half_day) "00:11:22:33:44:55"
              "https://dashboard/checkin" eq_refl
              (image_session_serves half_day _ _ eq_refl))
    as (g & r & o & Hdata & Hupper & _).
  exists g, r, o. split; [exact Hdata|].
  apply Hupper. rewrite Hu. lia.
Defined.

(** The claim of the design document, that the sum is at most 100 for
    every image of width above 2, does not hold of the code: three
    columns, all in the offline colour, give 300 percent offline. *)
Lemma checkin_percentages_sum_above_100 :
  (2 < width all_offline)%Z
  /\ (exists g r o,
        Cloudtrax.get_checkin_data (lib_connector all_offline)
          "00:11:22:33:44:55" = Ok (g, r, o)
        /\ float_value g + float_value r + float_value o = 300
        /\ ~ float_value g + float_value r + float_value o <= 100)
  /\ scraped_percentages
       (blank_node "00:11:22:33:44:55" "https://dashboard/checkin")
       (image_session all_offline) = Ok (0, 0, 300)%Z
  /\ ~ (0 + 0 + 300 <= 100)%Z.
Proof.
  split; [by vm_compute|]. split.
  - exists (Finite false 0 (-1074)), (Finite false 0 (-1074)),
           (Finite false 5277655813324800 (-44)).
    split; [by vm_compute|].
    assert (float_value (Finite false 0 (-1074))
            + float_value (Finite false 0 (-1074))
            + float_value (Finite false 5277655813324800 (-44)) = 300)
      as ->; [|split; [done|lra]].
    cbn [float_value].
    rewrite (pow2_neg 44 : pow2 (-44) = / pow2 44).
    rewrite (pow2_IZR 44) by lia.
    replace (2 ^ 44)%Z with 17592186044416%Z by (by vm_compute).
    lra.
  - split; [by vm_compute|lia].
Qed.

(** C2.  The checkin image [half_day] has twelve columns: a border
    column at each end, five columns in the gateway colour and five in
    the offline colour, so that the quotients are 50, 0 and 50.
    [scrape_checkin_data] of [cloudscraper.py] divides two ints, which
    truncates, and stores 0, 0 and 0; [get_checkin_data] of
    [lib/cloudtrax.py] converts to float first and returns 50.0, 0.0
    and 50.0. *)
Theorem scrape_checkin_data_truncates :
  width half_day = 12%Z
  /\ count_of gateway_colour (row1 half_day) = 5%Z
  /\ count_of relay_colour (row1 half_day) = 0%Z
  /\ count_of offline_colour (row1 half_day) = 5%Z
  /\ scraped_percentages
       (blank_node "00:11:22:33:44:55" "https://dashboard/checkin")
       (image_session half_day) = Ok (0, 0, 0)%Z
  /\ (exists fifty zero,
        float_of_int 50 = Ok fifty /\ float_of_int 0 = Ok zero
        /\ Cloudtrax.get_checkin_data (lib_connector half_day)
             "00:11:22:33:44:55" = Ok (fifty, zero, fifty)).
Proof.
  split; [by vm_compute|]. split; [by vm_compute|].
  split; [by vm_compute|]. split; [by vm_compute|]. split.
  - by vm_compute.
  - eexists _, _. split; [by vm_compute|]. split; by vm_compute.
Qed.

Local Close Scope R_scope.

(** ** The node decoder *)

Lemma cell_ok values needs i k j :
  row_has values needs -> needs !! i = Some k -> (j < k)%nat ->
  exists x, cell values i j = Ok x.
Proof.
  intros Hrow Hk Hj. unfold row_has in Hrow.
  destruct (Forall2_lookup_l _ _ _ _ _ Hrow Hk) as (c & Hc & Hlen).
  apply lookup_take_Some in Hc as [Hc _].
  destruct (lookup_lt_is_Some_2 c j ltac:(lia)) as [x Hx].
  exists x. unfold cell, item. rewrite Hc. run. by rewrite Hx.
Qed.

Lemma cell_last_ok values needs i k :
  row_has values needs -> needs !! i = Some k -> (0 < k)%nat ->
  exists x, cell_last values i = Ok x.
Proof.
  intros Hrow Hk Hj. unfold row_has in Hrow.
  destruct (Forall2_lookup_l _ _ _ _ _ Hrow Hk) as (c & Hc & Hlen).
  apply lookup_take_Some in Hc as [Hc _].
  unfold cell_last, item, item_last. rewrite Hc. run.
  destruct (last c) as [x|] eqn:Hlast; [by exists x|].
  apply last_None in Hlast. subst c. simpl in Hlen. lia.
Qed.

(** The branches of the chain, by token. *)
Lemma init_status_cases token :
  Cloudscraper.init_status token
  = Ok (if bool_decide (token = "3") then (Some "gateway", Some "up")
        else if bool_decide (token = "1") then (Some "gateway", Some "down")
        else if bool_decide (token = "4") then (Some "relay", Some "down")
        else if bool_decide (token = "2") then (Some "relay", Some "down")
        else if bool_decide (token = "7") then (Some "spare", Some "up")
        else if bool_decide (token = "5") then (Some "spare", Some "down")
        else if bool_decide (token = "8") then (Some "spare", Some "up")
        else if bool_decide (token = "6") then (Some "spare", Some "down")
        else (None, None)).
Proof.
  unfold Cloudscraper.init_status.
  repeat (match goal with
          | |- context [getitem Cloudscraper.NODE_STATUS ?k] =>
              let v := eval vm_compute in (getitem Cloudscraper.NODE_STATUS k)
              in change (getitem Cloudscraper.NODE_STATUS k) with v
          end; run).
  by repeat case_bool_decide.
Qed.

(** What [Node(session, values, checkin_url)] builds from a row that
    has the thirteen cells, when the checkin image is decodable, wider
    than 2 and has a pixel row 1: a node whose kind and status are those
    of the branch taken. *)
Lemma Node_init_decoded session values url token mac img :
  row_has values node_cells ->
  cell values 0 0 = Ok token -> cell values 2 0 = Ok mac ->
  serves session url mac img ->
  (2 < width img)%Z -> (1 < height img)%Z ->
  exists n kind status,
    Cloudscraper.init_status token = Ok (kind, status)
    /\ Cloudscraper.Node_init session values url = Ok n
    /\ Cloudscraper.node_type n = kind
    /\ Cloudscraper.node_status n = status
    /\ Cloudscraper.mac n = mac.
Proof.
  intros Hrow Htoken Hmac Hserves Hw Hh.
  destruct (Cloudscraper.init_status token) as [[kind status]|e] eqn:Hst;
    [|by rewrite init_status_cases in Hst].
  unfold Cloudscraper.Node_init. rewrite Htoken, Hmac. run.
  rewrite Hst. run.
  destruct (cell_last_ok values node_cells 1 _ Hrow eq_refl ltac:(lia))
    as [comment ->].
  repeat match goal with
         | |- context [cell values ?i ?j] =>
             let x := fresh "x" in
             destruct (cell_ok values node_cells i _ j Hrow eq_refl
                         ltac:(lia)) as [x ->]; run
         end.
  match goal with
  | |- context [Cloudscraper.scrape_checkin_data ?self session] =>
      destruct (scraper_percentages_sum self session img Hserves Hw Hh)
        as (counter & gw & relay & offline & -> & _)
  end.
  run. eexists _, kind, status. split; [done|]. split; [done|]. done.
Qed.

(** For seven of the eight codes the node gets the kind and status of
    the code table of the design document. *)
Lemma init_status_table token kind status :
  (token, (kind, status)) ∈ status_table -> token <> "4" ->
  Cloudscraper.init_status token = Ok (Some kind, Some status).
Proof.
  intros Hin Hne. rewrite init_status_cases. unfold status_table in Hin.
  repeat (apply elem_of_cons in Hin as [[= -> -> ->]|Hin];
          [done || by vm_compute|]).
  by apply elem_of_nil in Hin.
Qed.

(** For seven of the eight codes the node built from a row has the kind
    and status of the code table. *)
Lemma Node_init_other_codes session values url token kind status mac img :
  row_has values node_cells ->
  cell values 0 0 = Ok token ->
  (token, (kind, status)) ∈ status_table -> token <> "4" ->
  cell values 2 0 = Ok mac ->
  serves session url mac img ->
  (2 < width img)%Z -> (1 < height img)%Z ->
  exists n,
    Cloudscraper.Node_init session values url = Ok n
    /\ Cloudscraper.node_type n = Some kind
    /\ Cloudscraper.node_status n = Some status.
Proof.
  intros Hrow Htoken Hin Hne Hmac Hserves Hw Hh.
  destruct (Node_init_decoded session values url token mac img)
    as (n & k & st & Hst & Hn & Hkind & Hstatus & _); [done..|].
  rewrite (init_status_table token kind status Hin Hne) in Hst.
  injection Hst as <- <-.
  exists n. split; [exact Hn|]. split; [exact Hkind | exact Hstatus].
Qed.

(** C1.  For every 13-cell row whose status token is ["4"], the code
    of [relay_up], the node is built, with kind relay, and its status is
    [down]: the branch for [relay_up] assigns the status of the branch
    for [relay_down], where the code table has [up]. *)
Theorem Node_init_relay_up session values url mac img :
  row_has values node_cells ->
  cell values 0 0 = Ok "4" -> cell values 2 0 = Ok mac ->
  serves session url mac img ->
  (2 < width img)%Z -> (1 < height img)%Z ->
  Cloudscraper.NODE_STATUS !! "relay_up" = Some "4"
  /\ ("4", ("relay", "up")) ∈ status_table
  /\ exists n,
       Cloudscraper.Node_init session values url = Ok n
       /\ Cloudscraper.node_type n = Some "relay"
       /\ Cloudscraper.node_status n = Some "down".
Proof.
  intros Hrow Htoken Hmac Hserves Hw Hh.
  split; [by vm_compute|].
  split; [unfold status_table; do 3 apply list_elem_of_further;
          apply list_elem_of_here|].
  destruct (Node_init_decoded session values url "4" mac img)
    as (n & kind & status & Hst & Hn & Hkind & Hstatus & _); [done..|].
  rewrite init_status_cases in Hst. vm_compute in Hst.
  injection Hst as <- <-.
  exists n. split; [exact Hn|]. split; [exact Hkind | exact Hstatus].
Qed.

Lemma node_row_has token : row_has (node_row token) node_cells.
Proof. unfold row_has. simpl. repeat constructor. Qed.

Lemma Node_init_relay_up_sample :
  row_has (node_row "4") node_cells
  /\ cell (node_row "4") 0 0 = Ok "4"
  /\ (2 < width half_day)%Z /\ (1 < height half_day)%Z
  /\ exists n,
       Cloudscraper.Node_init (image_session half_day) (node_row "4")
         "https://dashboard/checkin" = Ok n
       /\ Cloudscraper.node_type n = Some "relay"
       /\ Cloudscraper.node_status n = Some "down".
Proof.
  split; [apply node_row_has|]. split; [reflexivity|].
  split; [by vm_compute|]. split; [by vm_compute|].
  apply (Node_init_relay_up (image_session half_day) (node_row "4")
           "https://dashboard/checkin" "00:11:22:33:44:55" half_day);
    [apply node_row_has | reflexivity | reflexivity
     | apply image_session_serves; exact eq_refl | by vm_compute
     | by vm_compute].
Defined.

(** C3, as the code has it.  For every 13-cell row whose status token is
    none of the eight codes, no branch of the chain is taken and there is
    no [else]: the node is built all the same, without the attributes
    [node_type] and [node_status], and reading its type later raises
    [AttributeError].  The code has no [UnknownStatusCode] error. *)
Theorem Node_init_unknown_status session values url token mac img :
  row_has values node_cells ->
  cell values 0 0 = Ok token -> token ∉ known_codes ->
  cell values 2 0 = Ok mac ->
  serves session url mac img ->
  (2 < width img)%Z -> (1 < height img)%Z ->
  ~ fails_with (Cloudscraper.Node_init session values url)
      "UnknownStatusCode"
  /\ exists n,
       Cloudscraper.Node_init session values url = Ok n
       /\ Cloudscraper.node_type n = None
       /\ Cloudscraper.node_status n = None
       /\ get_type n = Raise AttributeError
       /\ get_table_row n = Raise AttributeError.
Proof.
  intros Hrow Htoken Hcode Hmac Hserves Hw Hh.
  split; [apply never_UnknownStatusCode|].
  destruct (Node_init_decoded session values url token mac img)
    as (n & kind & status & Hst & Hn & Hkind & Hstatus & _); [done..|].
  rewrite init_status_cases in Hst. unfold known_codes in Hcode.
  repeat (apply not_elem_of_cons in Hcode as [? Hcode]).
  rewrite !bool_decide_eq_false_2 in Hst by done.
  injection Hst as <- <-.
  exists n. split; [done|]. split; [done|]. split; [done|].
  simpl. unfold Cloudscraper.Node_get_type, Cloudscraper.Node_get_table_row.
  by rewrite Hkind.
Qed.

Lemma Node_init_unknown_status_sample :
  row_has (node_row "9") node_cells
  /\ cell (node_row "9") 0 0 = Ok "9" /\ ("9" ∉ known_codes)
  /\ exists n,
       Cloudscraper.Node_init (image_session half_day) (node_row "9")
         "https://dashboard/checkin" = Ok n
       /\ Cloudscraper.node_type n = None
       /\ Cloudscraper.node_status n = None.
Proof.
  assert (Hcode : "9" ∉ known_codes).
  { unfold known_codes. intros Hin.
    repeat (apply elem_of_cons in Hin as [Hin|Hin]; [discriminate Hin|]).
    by apply elem_of_nil in Hin. }
  split; [apply node_row_has|]. split; [reflexivity|]. split; [exact Hcode|].
  destruct (Node_init_unknown_status (image_session half_day) (node_row "9")
              "https://dashboard/checkin" "9" "00:11:22:33:44:55" half_day)
    as (_ & n & Hn & Hkind & Hstatus & _);
    [apply node_row_has | reflexivity | exact Hcode | reflexivity
     | apply image_session_serves; exact eq_refl | by vm_compute
     | by vm_compute |].
  exists n. split; [exact Hn|]. split; [exact Hkind | exact Hstatus].
Defined.

(** The claim of the design document, that such a row fails with
    [UnknownStatusCode], does not hold of the code: the row with token
    ["9"] gives a node, of no kind and no status. *)
Lemma Node_init_unknown_status_no_error :
  ("9" ∉ known_codes)
  /\ decoded_status (image_session half_day) (node_row "9")
       "https://dashboard/checkin" = Ok (None, None)
  /\ ~ fails_with
         (Cloudscraper.Node_init (image_session half_day) (node_row "9")
            "https://dashboard/checkin") "UnknownStatusCode".
Proof.
  split.
  - unfold known_codes. intros Hin.
    repeat (apply elem_of_cons in Hin as [Hin|Hin]; [discriminate Hin|]).
    by apply elem_of_nil in Hin.
  - split; [by vm_compute|]. apply never_UnknownStatusCode.
Qed.

(** ** The user decoder *)

Lemma replace_commas s : replace "," "" s = without_commas s.
Proof.
  unfold without_commas. induction s as [|c s IH]; [done|].
  cbn [replace list_ascii_of_string]. rewrite filter_cons.
  destruct (decide (c = ","%char)) as [->|Hc].
  - rewrite bool_decide_eq_true_2 by done.
    rewrite decide_False by (by intros H). by rewrite IH.
  - rewrite bool_decide_eq_false_2 by done.
    rewrite decide_True by done. cbn [string_of_list_ascii]. by rewrite IH.
Qed.

Lemma without_commas_clean s :
  ","%char ∉ list_ascii_of_string (without_commas s).
Proof.
  unfold without_commas. rewrite list_ascii_of_string_of_list_ascii.
  intros [H _]%list_elem_of_filter. by apply H.
Qed.

(** What [User(values)] builds from a row that has the nine cells. *)
Lemma User_init_decoded values :
  row_has values user_cells ->
  exists u kb_down kb_up,
    cell values 5 0 = Ok kb_down /\ cell values 6 0 = Ok kb_up
    /\ Cloudscraper.User_init values = Ok u
    /\ Cloudscraper.values u !! "kb_down" = Some (without_commas kb_down)
    /\ Cloudscraper.values u !! "kb_up" = Some (without_commas kb_up).
Proof.
  intros Hrow. unfold Cloudscraper.User_init.
  destruct (cell_last_ok values user_cells 0 _ Hrow eq_refl ltac:(lia))
    as [mac ->].
  destruct (cell_ok values user_cells 5 _ 0 Hrow eq_refl ltac:(lia))
    as [kb_down Hdown].
  destruct (cell_ok values user_cells 6 _ 0 Hrow eq_refl ltac:(lia))
    as [kb_up Hup].
  rewrite Hdown, Hup.
  repeat match goal with
         | |- context [cell values ?i ?j] =>
             let x := fresh "x" in
             destruct (cell_ok values user_cells i _ j Hrow eq_refl
                         ltac:(lia)) as [x ->]; run
         end.
  run. rewrite !replace_commas.
  eexists _, kb_down, kb_up.
  split; [done|]. split; [done|]. split; [reflexivity|].
  split; reflexivity.
Qed.

(** C8.  For every row with the nine cells of a user, the user is
    built; the stored [kb_down] and [kb_up] are the texts of the row
    with every comma removed; and when the stored text is a numeral of
    [n] kilobytes ([n < 2^53]) the usage in megabytes is rendered with
    two decimals, as a number of hundredths [h] nearest to [n / 1000]:
    [|h / 100 - n / 1000| <= 0.005]. *)
Theorem User_init_usage values :
  row_has values user_cells ->
  exists u kb_down kb_up,
    cell values 5 0 = Ok kb_down /\ cell values 6 0 = Ok kb_up
    /\ Cloudscraper.User_init values = Ok u
    /\ Cloudscraper.values u !! "kb_down" = Some (without_commas kb_down)
    /\ Cloudscraper.values u !! "kb_up" = Some (without_commas kb_up)
    /\ (","%char ∉ list_ascii_of_string (without_commas kb_down))
    /\ (","%char ∉ list_ascii_of_string (without_commas kb_up))
    /\ (forall n,
          numeral (without_commas kb_down) n -> (n < 2 ^ 53)%Z ->
          exists h,
            Cloudscraper.get_dl_usage u = Ok (hundredths false h)
            /\ (0 <= h)%Z /\ (Z.abs (10 * h - n) <= 5)%Z)
    /\ (forall n,
          numeral (without_commas kb_up) n -> (n < 2 ^ 53)%Z ->
          exists h,
            Cloudscraper.get_ul_usage u = Ok (hundredths false h)
            /\ (0 <= h)%Z /\ (Z.abs (10 * h - n) <= 5)%Z).
Proof.
  intros Hrow.
  destruct (User_init_decoded values Hrow)
    as (u & kb_down & kb_up & Hd & Hu & Hinit & Hkd & Hku).
  exists u, kb_down, kb_up.
  split; [exact Hd|]. split; [exact Hu|]. split; [exact Hinit|].
  split; [exact Hkd|]. split; [exact Hku|].
  split; [apply without_commas_clean|].
  split; [apply without_commas_clean|].
  split; intros n Hnum Hn.
  - exact (usage_numeral u "kb_down" _ n Hkd Hnum Hn).
  - exact (usage_numeral u "kb_up" _ n Hku Hnum Hn).
Qed.

Lemma user_row_has kb_down kb_up : row_has (user_row kb_down kb_up) user_cells.
Proof. unfold row_has. simpl. repeat constructor. Qed.

Lemma User_init_usage_sample :
  row_has (user_row "1,234,567" "5") user_cells
  /\ exists u,
       Cloudscraper.User_init (user_row "1,234,567" "5") = Ok u
       /\ Cloudscraper.values u !! "kb_down" = Some "1234567"
       /\ Cloudscraper.values u !! "kb_up" = Some "5"
       /\ Cloudscraper.get_dl_usage u = Ok "1234.57"
       /\ Cloudscraper.get_ul_usage u = Ok "0.01"
       /\ exists h,
            Cloudscraper.get_dl_usage u = Ok (hundredths false h)
            /\ (Z.abs (10 * h - 1234567) <= 5)%Z.
Proof.
  split; [apply user_row_has|].
  destruct (User_init_usage (user_row "1,234,567" "5") (user_row_has _ _))
    as (u & kb_down & kb_up & Hd & Hu & Hinit & Hkd & Hku & _ & _ & Hdl & _).
  injection Hd as <-. injection Hu as <-.
  exists u. split; [exact Hinit|].
  split; [exact Hkd|]. split; [exact Hku|].
  assert (Hnum : numeral (without_commas "1,234,567") 1234567).
  { split; [discriminate|]. split; reflexivity. }
  destruct (Hdl 1234567%Z Hnum ltac:(reflexivity)) as (h & Hh & _ & Hclose).
  unfold Cloudscraper.get_dl_usage, Cloudscraper.get_ul_usage,
    Cloudscraper.usage, getitem in *.
  rewrite Hkd in *. rewrite Hku.
  split; [by vm_compute|]. split; [by vm_compute|].
  exists h. split; [exact Hh | exact Hclose].
Defined.
(** * Further properties *)

(** ** More on the table distiller *)

Lemma distilled_rows_nonempty table : Forall (fun r : row => r <> []) (distilled table).
Proof.
  unfold distilled. apply Forall_fmap, Forall_forall.
  intros r [Hr _]%list_elem_of_filter. unfold cells_of. simpl.
  destruct (findAll r "td" ∅); [done|discriminate].
Qed.

Lemma distilled_length table :
  (length (distilled table) <= length (findAll table "tr" ∅))%nat.
Proof. unfold distilled. rewrite length_fmap. apply length_filter. Qed.

(** X1.  Whatever [distill_html] returns, no row of it is empty, and
    for a table there are at most as many rows as the table has [tr]
    elements. *)
Theorem distill_html_no_empty_row content element identifier rows :
  Cloudtrax.distill_html content element identifier = Ok rows ->
  Cloudscraper.distill_html content element identifier = Ok rows
  /\ Forall (fun r : row => r <> []) rows
  /\ (rows <> [] ->
      element = "table"
      /\ exists table,
           find (BeautifulSoup content) "table" identifier = Some table
           /\ (length rows <= length (findAll table "tr" ∅))%nat).
Proof.
  intros Hrows. rewrite distill_html_same. split; [done|].
  destruct (decide (element = "table")) as [->|Hne].
  - destruct (find (BeautifulSoup content) "table" identifier)
      as [table|] eqn:Hfind.
    + rewrite (distill_html_found _ _ _ Hfind) in Hrows.
      injection Hrows as <-. split; [apply distilled_rows_nonempty|].
      intros _. split; [done|]. exists table. split; [done|].
      apply distilled_length.
    + by rewrite (distill_html_missing _ _ Hfind) in Hrows.
  - rewrite (distill_html_unsupported _ _ _ Hne) in Hrows.
    injection Hrows as <-. split; [constructor|done].
Qed.

Lemma distill_html_no_empty_row_sample :
  Cloudtrax.distill_html sample_page "table" {["id" := "mytable"]}
  = Ok [[["3"]; ["north"; "(roof)"]]; [["4"]; ["south"]]; [["8"]; ["attic"]]]
  /\ Forall (fun r : row => r <> [])
       [[["3"]; ["north"; "(roof)"]]; [["4"]; ["south"]]; [["8"]; ["attic"]]].
Proof.
  assert (H : Cloudtrax.distill_html sample_page "table" {["id" := "mytable"]}
              = Ok [[["3"]; ["north"; "(roof)"]]; [["4"]; ["south"]];
                    [["8"]; ["attic"]]]) by (by vm_compute).
  split; [exact H|].
  exact (proj1 (proj2 (distill_html_no_empty_row _ _ _ _ H))).
Defined.






(** ** More on the checkin image decoder *)

(** X3.  A pixel is counted in a bucket exactly when it has the RGB
    value of that bucket: although ["%x%x%x"] does not pad the channels
    to two digits, no other pixel gets one of the three names. *)
Theorem colour_names_exact p :
  (format_xxx p = "1faa5f" <-> p = gateway_colour)
  /\ (format_xxx p = "4fdd8f" <-> p = relay_colour)
  /\ (format_xxx p = "cccccc" <-> p = offline_colour)
  /\ (classified p <->
      format_xxx p = "1faa5f" \/ format_xxx p = "4fdd8f"
      \/ format_xxx p = "cccccc").
Proof.
  split; [apply gateway_name|]. split; [apply relay_name|].
  split; [apply offline_name|]. unfold classified.
  by rewrite gateway_name, relay_name, offline_name.
Qed.

(** Without padding, names of other pixels do collide. *)
Lemma colour_names_collide :
  format_xxx (x01, x11, x01) = format_xxx (x11, x01, x01).
Proof. reflexivity. Qed.

Local Open Scope R_scope.

(** X4.  [percentage(value, max_value)] on ints with [0 <= value],
    [0 < max_value < 2^53] and [100 * value < 2^53] returns a finite,
    non-negative float within a relative [2^-53] of the quotient
    [100 * value / max_value]. *)
Theorem percentage_within_rounding value max_value :
  (0 <= value)%Z -> (0 < max_value < 2 ^ 53)%Z -> (100 * value < 2 ^ 53)%Z ->
  exists m k,
    Cloudtrax.percentage value max_value = Ok (Finite false m k)
    /\ Rabs (float_value (Finite false m k)
             - 100 * IZR value / IZR max_value)
       <= 100 * IZR value / IZR max_value * pow2 (-53).
Proof.
  intros Hv Hm Hvv.
  destruct (percentage_accurate value max_value Hv Hm Hvv)
    as (m & k & Hp & Hacc).
  exists m, k. split; [done|]. cbn [float_value]. by rewrite Rmult_1_l.
Qed.

Lemma percentage_within_rounding_sample :
  exists m k,
    Cloudtrax.percentage 1 3 = Ok (Finite false m k)
    /\ Rabs (float_value (Finite false m k) - 100 * 1 / 3)
       <= 100 * 1 / 3 * pow2 (-53).
Proof.
  apply (percentage_within_rounding 1 3); by vm_compute.
Defined.

(** The result of [round64] on a quotient that is an integer. *)
Lemma round64_integer s a b n :
  (0 < a)%Z -> (0 < b)%Z -> (0 < n < 2 ^ 53)%Z ->
  IZR a / IZR b = IZR n ->
  round64 s a b = Finite s (n * 2 ^ (52 - Z.log2 n)) (Z.log2 n - 52).
Proof.
  intros Ha Hb Hn Hq.
  pose proof (log2_bounds n ltac:(lia)) as Hlog.
  pose proof (Z.log2_nonneg n) as Hlog0.
  assert (Z.log2 n < 53)%Z as Hlog53.
  { apply Z.log2_lt_pow2; lia. }
  assert (ilog2 a b = Z.log2 n) as He.
  { pose proof (ilog2_range a b (Z.log2 n) (Z.log2 n + 1) Ha Hb) as H.
    rewrite Hq in H. specialize (H Hlog). lia. }
  unfold round64. rewrite (proj2 (Z.eqb_neq a 0)) by lia.
  rewrite He, Z.max_l by lia.
  set (k0 := (Z.log2 n - 52)%Z).
  destruct (scaled a b k0) as [x y] eqn:Hxy.
  destruct (scaled_value a b k0 x y Hb Hxy) as [Hy Hval].
  pose proof (div_nearest_even_value x y Hy) as Hm0.
  rewrite Hval, Hq in Hm0.
  assert (IZR n / pow2 k0 = IZR (n * 2 ^ (52 - Z.log2 n))) as HN.
  { rewrite mult_IZR, <- pow2_IZR by lia.
    replace (52 - Z.log2 n)%Z with (- k0)%Z by (subst k0; lia).
    rewrite pow2_neg. pose proof (pow2_pos k0). field. lra. }
  rewrite HN in Hm0. apply IZR_close in Hm0. rewrite Hm0.
  assert (n * 2 ^ (52 - Z.log2 n) < 2 ^ 53)%Z as Hlt.
  { apply lt_IZR. rewrite <- HN, <- pow2_IZR by lia.
    destruct Hlog as [_ Hhi]. pose proof (pow2_pos k0).
    apply (Rmult_lt_reg_r (pow2 k0)); [done|].
    replace (IZR n / pow2 k0 * pow2 k0) with (IZR n) by (field; lra).
    rewrite <- pow2_add. replace (53 + k0)%Z with (Z.log2 n + 1)%Z
      by (subst k0; lia). done. }
  rewrite (proj2 (Z.eqb_neq _ _)) by lia.
  by rewrite (proj2 (Z.ltb_ge 971 k0)) by (subst k0; lia).
Qed.

Lemma percentage_of_whole n :
  (0 < n)%Z -> (100 * n < 2 ^ 53)%Z ->
  Cloudtrax.percentage n n = Ok hundred.
Proof.
  intros Hn Hnn. unfold Cloudtrax.percentage.
  destruct (float_of_int_exact 100 ltac:(lia)) as (mh & kh & -> & Hmh & Hvh).
  destruct (float_of_int_exact n ltac:(lia)) as (mn & kn & -> & Hmn & Hvn).
  cbn [mbind result_bind].
  destruct (fmul_positive false mn kn false mh kh Hmn Hmh)
    as (a & b & -> & Ha & Hb & Hq).
  rewrite Hvn, Hvh, <- mult_IZR in Hq.
  destruct (round64_exact (xorb false false) a b (n * 100) Ha Hb ltac:(lia) Hq)
    as (mp & kp & -> & Hmp & Hvp).
  destruct (fdiv_positive (xorb false false) mp kp false mn kn Hmp Hmn)
    as (a' & b' & -> & Ha' & Hb' & Hq').
  rewrite Hvp, Hvn, mult_IZR in Hq'.
  assert (0 < IZR n) by (apply IZR_lt; lia).
  assert (IZR a' / IZR b' = IZR 100) as Hq100
    by (rewrite Hq'; field; lra).
  by rewrite (round64_integer _ a' b' 100 Ha' Hb' ltac:(lia) Hq100).
Qed.

Lemma percentage_of_none n :
  (0 < n < 2 ^ 53)%Z -> Cloudtrax.percentage 0 n = Ok zero.
Proof.
  intros Hn. unfold Cloudtrax.percentage.
  destruct (float_of_int_exact 100 ltac:(lia)) as (mh & kh & -> & Hmh & Hvh).
  destruct (float_of_int_exact n ltac:(lia)) as (mn & kn & -> & Hmn & Hvn).
  change (float_of_int 0) with (Ok (Finite false 0 (-1074))).
  cbn [mbind result_bind].
  assert (fmul (Finite false 0 (-1074)) (Finite false mh kh)
          = Finite false 0 (-1074)) as ->.
  { unfold fmul, scaled. by destruct (0 <=? _)%Z. }
  by rewrite fdiv_zero.
Qed.

Local Close Scope R_scope.

Lemma percentage_exact c d :
  (0 <= c)%Z -> (0 < d < 2 ^ 53)%Z -> (100 * c < 2 ^ 53)%Z ->
  exists p,
    Cloudtrax.percentage c d = Ok p
    /\ (c = d -> p = hundred) /\ (c = 0%Z -> p = zero).
Proof.
  intros Hc Hd Hcc.
  destruct (percentage_accurate c d Hc Hd Hcc) as (m & k & Hp & _).
  exists (Finite false m k). split; [done|]. split.
  - intros ->. rewrite percentage_of_whole in Hp by lia. congruence.
  - intros ->. rewrite percentage_of_none in Hp by lia. congruence.
Qed.

(** X5.  [get_checkin_data] returns exactly [100.0] for a colour that
    fills all of the [width - 2] columns between the borders, and
    exactly [0.0] for a colour that row 1 does not have: the float
    arithmetic adds no rounding error at the two ends of the scale. *)
Theorem get_checkin_data_exact_ends {Node User}
    (self : @Cloudtrax.CloudTrax Node User) mac checkin img :
  Cloudtrax.url self !! "checkin" = Some checkin ->
  serves (Cloudtrax.session_of self) checkin mac img ->
  (2 < width img < 2 ^ 45)%Z -> (1 < height img)%Z ->
  exists g r o,
    Cloudtrax.get_checkin_data self mac = Ok (g, r, o)
    /\ (count_of gateway_colour (row1 img) = (width img - 2)%Z -> g = hundred)
    /\ (count_of gateway_colour (row1 img) = 0%Z -> g = zero)
    /\ (count_of relay_colour (row1 img) = (width img - 2)%Z -> r = hundred)
    /\ (count_of relay_colour (row1 img) = 0%Z -> r = zero)
    /\ (count_of offline_colour (row1 img) = (width img - 2)%Z -> o = hundred)
    /\ (count_of offline_colour (row1 img) = 0%Z -> o = zero).
Proof.
  intros Hurl Hserves Hw Hh.
  rewrite (lib_checkin_decoded self mac checkin img Hurl Hserves)
    by (left; done).
  assert (forall c, exists p,
            Cloudtrax.percentage (count_of c (row1 img)) (width img - 2)
            = Ok p
            /\ (count_of c (row1 img) = (width img - 2)%Z -> p = hundred)
            /\ (count_of c (row1 img) = 0%Z -> p = zero)) as Hpct.
  { intros c. pose proof (count_of_row1_bounds c img ltac:(lia)).
    apply percentage_exact; lia. }
  destruct (Hpct gateway_colour) as (g & -> & Hg1 & Hg0).
  destruct (Hpct relay_colour) as (r & -> & Hr1 & Hr0).
  destruct (Hpct offline_colour) as (o & -> & Ho1 & Ho0).
  exists g, r, o. run. done.
Qed.

Lemma get_checkin_data_exact_ends_sample :
  Cloudtrax.get_checkin_data (lib_connector (gateway_day 7))
    "00:11:22:33:44:55" = Ok (hundred, zero, zero).
Proof.
  destruct (get_checkin_data_exact_ends
              (lib_connector (gateway_day 7)) "00:11:22:33:44:55"
              "https://dashboard/checkin" (gateway_day 7) eq_refl
              (image_session_serves (gateway_day 7) _ _ eq_refl))
    as (g & r & o & -> & Hg & _ & _ & Hr & _ & Ho);
    [by vm_compute | by vm_compute |].
  rewrite Hg, Hr, Ho; reflexivity.
Defined.

(** X6.  Both decoders read the width of the image and its pixel row 1
    and nothing else: two images of the same width and with the same
    row 1 give the same percentages, whatever their other rows hold. *)
Theorem checkin_reads_row_1 img1 img2 :
  width img1 = width img2 -> row1 img1 = row1 img2 ->
  (1 < height img1)%Z -> (1 < height img2)%Z ->
  (forall Node User (self1 self2 : @Cloudtrax.CloudTrax Node User)
          mac1 mac2 checkin1 checkin2,
     Cloudtrax.url self1 !! "checkin" = Some checkin1 ->
     Cloudtrax.url self2 !! "checkin" = Some checkin2 ->
     serves (Cloudtrax.session_of self1) checkin1 mac1 img1 ->
     serves (Cloudtrax.session_of self2) checkin2 mac2 img2 ->
     Cloudtrax.get_checkin_data self1 mac1
     = Cloudtrax.get_checkin_data self2 mac2)
  /\ (forall (self1 self2 : Cloudscraper.Node) session1 session2,
        serves session1 (Cloudscraper.checkin_url self1)
               (Cloudscraper.mac self1) img1 ->
        serves session2 (Cloudscraper.checkin_url self2)
               (Cloudscraper.mac self2) img2 ->
        scraped_percentages self1 session1
        = scraped_percentages self2 session2).
Proof.
  intros Hw Hrow Hh1 Hh2. split.
  - intros Node User self1 self2 mac1 mac2 checkin1 checkin2
           Hurl1 Hurl2 Hserves1 Hserves2.
    rewrite (lib_checkin_decoded self1 mac1 checkin1 img1 Hurl1 Hserves1)
      by (by left).
    rewrite (lib_checkin_decoded self2 mac2 checkin2 img2 Hurl2 Hserves2)
      by (by left).
    by rewrite Hw, Hrow.
  - intros self1 self2 session1 session2 Hserves1 Hserves2.
    unfold scraped_percentages.
    destruct (scraper_checkin_decoded self1 session1 img1 Hserves1
                ltac:(by left)) as (counter1 & ->).
    destruct (scraper_checkin_decoded self2 session2 img2 Hserves2
                ltac:(by left)) as (counter2 & ->).
    rewrite Hw, Hrow.
    destruct (Cloudscraper.int_div (count_of gateway_colour _) _) as [g|e];
      [|done].
    destruct (Cloudscraper.int_div (count_of relay_colour _) _) as [r|e];
      [|done].
    by destruct (Cloudscraper.int_div (count_of offline_colour _) _) as [o|e].
Qed.

Lemma checkin_reads_row_1_sample :
  pixel_at half_day 3 0 <> pixel_at half_day_tall 3 0
  /\ Cloudtrax.get_checkin_data (lib_connector half_day) "00:11:22:33:44:55"
     = Cloudtrax.get_checkin_data (lib_connector half_day_tall)
         "66:77:88:99:aa:bb"
  /\ scraped_percentages
       (blank_node "00:11:22:33:44:55" "https://dashboard/checkin")
       (image_session half_day)
     = scraped_percentages
         (blank_node "66:77:88:99:aa:bb" "https://dashboard/checkin")
         (image_session half_day_tall).
Proof.
  split; [by vm_compute|].
  destruct (checkin_reads_row_1 half_day half_day_tall)
    as [Hlib Hscraper]; [reflexivity | reflexivity | by vm_compute
                         | by vm_compute |].
  split.
  - apply (Hlib unit unit (lib_connector half_day)
                (lib_connector half_day_tall) _ _
                "https://dashboard/checkin" "https://dashboard/checkin");
      [reflexivity | reflexivity
       | apply image_session_serves; exact eq_refl
       | apply image_session_serves; exact eq_refl].
  - apply Hscraper; apply image_session_serves; exact eq_refl.
Defined.

(** *** The colour counter of [scrape_checkin_data] *)

Lemma format_x_0 b : format_x b = "0" -> b = x00.
Proof. byte_cases b. Qed.

Lemma black_name p : format_xxx p = "000" <-> p = black.
Proof.
  split; [|by intros ->].
  destruct p as [[r g] b]. unfold format_xxx.
  destruct (format_x_shape r) as [(a1 & Hr)|(a1 & a2 & Hr)];
  destruct (format_x_shape g) as [(b1 & Hg)|(b1 & b2 & Hg)];
  destruct (format_x_shape b) as [(d1 & Hb)|(d1 & d2 & Hb)];
  rewrite Hr, Hg, Hb; simpl; intros H; try discriminate H.
  injection H as -> -> ->.
  by rewrite (format_x_0 _ Hr), (format_x_0 _ Hg), (format_x_0 _ Hb).
Qed.

Lemma named_nonneg k l : (0 <= named k l)%Z.
Proof. unfold named. lia. Qed.

(** The loop of [cloudscraper.py] from any counter. *)
Lemma scraper_pixel_loop_all img cols (counter : gmap string Z) :
  (1 < height img)%Z ->
  Forall (fun col => 0 <= col < width img)%Z cols ->
  exists counter',
    for_each cols (Cloudscraper.count_pixel img 1) counter = Ok counter'
    /\ forall k,
         let n := named k ((fun col => pixel_at img col 1%Z) <$> cols) in
         counter' !! k
         = if bool_decide (k = "000") then
             if bool_decide (n = 0%Z) then counter !! k else Some 1%Z
           else match counter !! k with
                | Some n0 => Some (n0 + n)%Z
                | None => if bool_decide (n = 0%Z) then None else Some n
                end.
Proof.
  intros Hrow Hcols. revert counter.
  induction Hcols as [|col cols Hcol _ IH]; intros counter.
  - exists counter. split; [done|]. intros k n. subst n.
    change (named k _) with 0%Z.
    rewrite (bool_decide_eq_true_2 (0 = 0)%Z) by done.
    destruct (bool_decide (k = "000")); [done|].
    destruct (counter !! k) as [n0|]; [f_equal; lia|done].
  - cbn [for_each]. rewrite scraper_count_pixel_inside by done.
    set (pc := format_xxx (pixel_at img col 1%Z)). cbv zeta.
    assert (exists v,
              (if bool_decide (pc ∈ dom counter) && bool_decide (pc <> "000")
               then n ← getitem counter pc; Ok (<[pc := (n + 1)%Z]> counter)
               else Ok (<[pc := 1%Z]> counter))
              = Ok (<[pc := v]> counter)
              /\ v = if bool_decide (pc = "000") then 1%Z
                     else match counter !! pc with
                          | Some n0 => (n0 + 1)%Z
                          | None => 1%Z
                          end) as (v & -> & Hv).
    { destruct (decide (pc = "000")) as [Hb|Hb].
      - rewrite (bool_decide_eq_false_2 (pc <> "000")) by (by intros []).
        rewrite andb_false_r, bool_decide_eq_true_2 by done. eauto.
      - rewrite (bool_decide_eq_true_2 (pc <> "000")) by done.
        rewrite andb_true_r, (bool_decide_eq_false_2 (pc = "000")) by done.
        destruct (counter !! pc) as [n0|] eqn:Hn0.
        + rewrite bool_decide_eq_true_2 by (apply elem_of_dom; eauto).
          unfold getitem. rewrite Hn0. run. eauto.
        + rewrite bool_decide_eq_false_2; [eauto|].
          by apply not_elem_of_dom. }
    run. destruct (IH (<[pc := v]> counter)) as (counter' & -> & Hk).
    exists counter'. split; [done|]. intros k.
    rewrite Hk, fmap_cons, named_cons. fold pc.
    pose proof (named_nonneg k ((fun col => pixel_at img col 1%Z) <$> cols))
      as Hn.
    set (n := named k _) in *.
    destruct (decide (pc = k)) as [->|Hne].
    + rewrite lookup_insert_eq.
      rewrite (bool_decide_eq_false_2 (1 + n = 0)%Z) by lia.
      destruct (bool_decide (k = "000")) eqn:Hk0.
      * subst v. by destruct (bool_decide (n = 0%Z)).
      * subst v. destruct (counter !! k) as [n0|]; f_equal; lia.
    + rewrite lookup_insert_ne by done.
      by replace (0 + n)%Z with n by lia.
Qed.

(** X7.  The colour counter that [scrape_checkin_data] returns and
    stores in the node holds, for every colour name other than ["000"],
    the number of pixels of row 1 with that name (the three colours of
    the legend are always present, other names only when a pixel has
    them); black pixels, the only ones named ["000"], are recorded
    as 1 however many there are. *)
Theorem scrape_checkin_data_counter (self : Cloudscraper.Node) session img :
  serves session (Cloudscraper.checkin_url self) (Cloudscraper.mac self) img ->
  (1 < height img)%Z -> width img <> 2%Z ->
  exists self' counter,
    Cloudscraper.scrape_checkin_data self session = Ok (self', counter)
    /\ Cloudscraper.colour_counter self' = Some counter
    /\ (forall k, counter !! k = counted k (row1 img))
    /\ named "000" (row1 img) = count_of black (row1 img).
Proof.
  intros (request & Hget & Himg) Hh Hw.
  destruct (scraper_pixel_loop_all img (range (width img))
              (list_to_map [("cccccc", 0%Z); ("1faa5f", 0%Z);
                            ("4fdd8f", 0%Z)]) Hh (range_bounds _))
    as (counter & Hloop & Hk).
  fold (row1 img) in Hk. cbv zeta in Hk.
  assert (forall k, counter !! k = counted k (row1 img)) as Hcounted.
  { intros k. rewrite Hk. unfold counted.
    destruct (bool_decide (k = "000")) eqn:Hk0.
    - apply bool_decide_eq_true in Hk0 as ->.
      by destruct (bool_decide (named "000" (row1 img) = 0%Z)).
    - change (list_to_map [("cccccc", 0%Z); ("1faa5f", 0%Z); ("4fdd8f", 0%Z)])
        with (<["cccccc" := 0%Z]> (<["1faa5f" := 0%Z]>
                (<["4fdd8f" := 0%Z]> (∅ : gmap string Z)))).
      destruct (decide (k = "cccccc")) as [->|H1];
        [rewrite (bool_decide_eq_true_2 (_ ∈ _))
           by (rewrite !elem_of_cons; tauto);
         done|].
      destruct (decide (k = "1faa5f")) as [->|H2];
        [rewrite (bool_decide_eq_true_2 (_ ∈ _))
           by (rewrite !elem_of_cons; tauto);
         done|].
      destruct (decide (k = "4fdd8f")) as [->|H3];
        [rewrite (bool_decide_eq_true_2 (_ ∈ _))
           by (rewrite !elem_of_cons; tauto);
         done|].
      rewrite (bool_decide_eq_false_2 (k ∈ _))
        by (rewrite !elem_of_cons, elem_of_nil; tauto).
      by rewrite !lookup_insert_ne, lookup_empty by done. }
  unfold Cloudscraper.scrape_checkin_data, getitem.
  rewrite Hget. run. rewrite Himg. run. rewrite Hloop. run.
  rewrite !Hcounted. unfold counted at 1 2 3.
  rewrite !(bool_decide_eq_false_2 (_ = "000")) by done.
  rewrite !(bool_decide_eq_true_2 (_ ∈ _)) by (rewrite !elem_of_cons; tauto).
  run. unfold Cloudscraper.int_div.
  rewrite bool_decide_eq_false_2 by lia. run.
  eexists _, counter. split; [done|]. split; [done|]. split; [done|].
  apply named_count, black_name.
Qed.

Lemma scrape_checkin_data_counter_sample :
  exists self' counter,
    Cloudscraper.scrape_checkin_data
      (blank_node "00:11:22:33:44:55" "https://dashboard/checkin")
      (image_session half_day) = Ok (self', counter)
    /\ count_of black (row1 half_day) = 2%Z
    /\ counter !! "000" = Some 1%Z
    /\ counter !! "1faa5f" = Some 5%Z
    /\ counter !! "4fdd8f" = Some 0%Z
    /\ counter !! "ffffff" = None.
Proof.
  destruct (scrape_checkin_data_counter
              (blank_node "00:11:22:33:44:55" "https://dashboard/checkin")
              (image_session half_day) half_day
              (image_session_serves half_day _ _ eq_refl))
    as (self' & counter & Hrun & _ & Hk & _);
    [by vm_compute | by vm_compute |].
  exists self', counter. split; [exact Hrun|]. clear Hrun.
  split; [reflexivity|]. rewrite !Hk. vm_compute. auto.
Defined.

(** ** Rows that lack a cell *)

Lemma cell_cases values i j :
  (exists c x,
      values !! i = Some c /\ (j < length c)%nat /\ cell values i j = Ok x)
  \/ cell values i j = Raise IndexError.
Proof.
  unfold cell, item, row in *.
  destruct (values !! i) as [c|]; run; [|by right].
  destruct (c !! j) as [x|] eqn:Hx; [|by right].
  left. exists c, x. split; [done|]. split; [|done].
  by apply lookup_lt_Some in Hx.
Qed.

Lemma cell_last_cases values i :
  (exists c x,
      values !! i = Some c /\ (0 < length c)%nat /\ cell_last values i = Ok x)
  \/ cell_last values i = Raise IndexError.
Proof.
  unfold cell_last, item, item_last, row in *.
  destruct (values !! i) as [c|]; run; [|by right].
  destruct (last c) as [x|] eqn:Hx; [|by right].
  left. exists c, x. split; [done|]. split; [|done].
  destruct c; [done|simpl; lia].
Qed.

Lemma row_has_lookup values needs :
  (forall i k, needs !! i = Some k ->
               exists c, values !! i = Some c /\ (k <= length c)%nat) ->
  row_has values needs.
Proof.
  intros Hcells. unfold row_has. apply Forall2_same_length_lookup_2.
  - rewrite length_take.
    destruct (decide (length needs <= length values)%nat) as [|Hshort];
      [lia|].
    destruct (lookup_lt_is_Some_2 needs (length values) ltac:(lia))
      as [k Hk].
    destruct (Hcells _ _ Hk) as (c & Hc & _).
    apply lookup_lt_Some in Hc. lia.
  - intros i k c Hk [Hc _]%lookup_take_Some.
    destruct (Hcells _ _ Hk) as (c' & Hc' & Hlen).
    unfold row in *. rewrite Hc in Hc'. by injection Hc' as <-.
Qed.

Ltac read_cells values :=
  repeat match goal with
         | |- mbind _ (cell values ?i ?j) = _ =>
             let c := fresh "c" in
             let x := fresh "x" in
             let Hc := fresh "Hc" in
             let Hlen := fresh "Hlen" in
             destruct (cell_cases values i j)
               as [(c & x & Hc & Hlen & ->)| ->]; [run|reflexivity]
         | |- mbind _ (cell_last values ?i) = _ =>
             let c := fresh "c" in
             let x := fresh "x" in
             let Hc := fresh "Hc" in
             let Hlen := fresh "Hlen" in
             destruct (cell_last_cases values i)
               as [(c & x & Hc & Hlen & ->)| ->]; [run|reflexivity]
         end.

Ltac same_cells values :=
  repeat match goal with
         | H1 : values !! ?i = Some ?a, H2 : values !! ?i = Some ?b |- _ =>
             assert (b = a) as -> by congruence; clear H2
         end.

(** The cells of a node row are read before the checkin request is
    made. *)
Lemma Node_init_lacks_cell session values url :
  ~ row_has values node_cells ->
  Cloudscraper.Node_init session values url = Raise IndexError.
Proof.
  intros Hnot. unfold Cloudscraper.Node_init.
  destruct (cell_cases values 0 0) as [(c0 & token & Hc0 & Hlen0 & ->)| ->];
    [run|reflexivity].
  destruct (Cloudscraper.init_status token) as [[kind status]|e] eqn:Hst;
    [|by rewrite init_status_cases in Hst].
  run. read_cells values.
  exfalso. apply Hnot. same_cells values.
  apply row_has_lookup. intros i k Hik.
  do 13 (destruct i as [|i];
         [injection Hik as <-; eexists; split; [eassumption|lia]|]).
  discriminate Hik.
Qed.

(** X8.  A node row that lacks one of the thirteen cells, or one of the
    text fragments read from them, makes [Node(...)] raise [IndexError],
    whatever the session: the row is read before any request is made. *)
Theorem Node_init_short_row session values url :
  ~ row_has values node_cells ->
  Cloudscraper.Node_init session values url = Raise IndexError.
Proof. apply Node_init_lacks_cell. Qed.

Lemma Node_init_short_row_sample :
  ~ row_has [["3"]; ["north"]; ["00:11:22:33:44:55"]] node_cells
  /\ Cloudscraper.Node_init offline_session
       [["3"]; ["north"]; ["00:11:22:33:44:55"]] "https://dashboard/checkin"
     = Raise IndexError.
Proof.
  assert (Hnot : ~ row_has [["3"]; ["north"]; ["00:11:22:33:44:55"]]
                   node_cells).
  { intros Hrow. apply Forall2_length in Hrow. discriminate Hrow. }
  split; [exact Hnot|].
  exact (Node_init_short_row offline_session _ _ Hnot).
Defined.

(** X9.  [User(values)] succeeds exactly on the rows that have the nine
    cells with the fragments read from them; on every other row it
    raises [IndexError]. *)
Theorem User_init_short_row values :
  ((exists u, Cloudscraper.User_init values = Ok u)
   <-> row_has values user_cells)
  /\ (~ row_has values user_cells ->
      Cloudscraper.User_init values = Raise IndexError).
Proof.
  assert (~ row_has values user_cells ->
          Cloudscraper.User_init values = Raise IndexError) as Hshort.
  { intros Hnot. unfold Cloudscraper.User_init. read_cells values.
    exfalso. apply Hnot. same_cells values.
    assert (8 < length values)%nat as Hlong.
    { match goal with
      | H : values !! 8%nat = Some _ |- _ => exact (lookup_lt_Some _ _ _ H)
      end. }
    apply row_has_lookup. intros i k Hik.
    do 9 (destruct i as [|i];
          [injection Hik as <-;
           first [ eexists; split; [eassumption|lia]
                 | match goal with
                   | |- exists c, values !! ?n = Some c /\ _ =>
                       destruct (lookup_lt_is_Some_2 values n ltac:(lia))
                         as [c' Hc']; exists c'; split; [exact Hc'|lia]
                   end ]|]).
    discriminate Hik. }
  split; [|exact Hshort]. split.
  - intros [u Hu]. destruct (decide (row_has values user_cells)); [done|].
    rewrite Hshort in Hu by done. discriminate Hu.
  - intros Hrow.
    destruct (User_init_decoded values Hrow) as (u & _ & _ & _ & _ & Hu & _).
    by exists u.
Qed.

Lemma User_init_short_row_sample :
  ~ row_has [["laptop"]; ["north"]] user_cells
  /\ Cloudscraper.User_init [["laptop"]; ["north"]] = Raise IndexError.
Proof.
  assert (Hnot : ~ row_has [["laptop"]; ["north"]] user_cells).
  { intros Hrow. apply Forall2_length in Hrow. discriminate Hrow. }
  split; [exact Hnot|].
  exact (proj2 (User_init_short_row _) Hnot).
Defined.

(** ** The checkin request of a node *)

(** On a row with the thirteen cells, [Node(...)] comes down to
    [scrape_checkin_data] on a node that does not depend on the
    session. *)
Lemma Node_init_scrapes values url mac :
  row_has values node_cells -> cell values 2 0 = Ok mac ->
  exists self,
    Cloudscraper.mac self = mac /\ Cloudscraper.checkin_url self = url
    /\ forall session,
         Cloudscraper.Node_init session values url
         = ('(self, _) ← Cloudscraper.scrape_checkin_data self session;
            Ok self).
Proof.
  intros Hrow Hmac.
  destruct (cell_ok values node_cells 0 _ 0 Hrow eq_refl ltac:(lia))
    as [token Htoken].
  destruct (Cloudscraper.init_status token) as [[kind status]|e] eqn:Hst;
    [|by rewrite init_status_cases in Hst].
  unfold Cloudscraper.Node_init. rewrite Htoken, Hmac. run.
  rewrite Hst. run.
  destruct (cell_last_ok values node_cells 1 _ Hrow eq_refl ltac:(lia))
    as [comment ->].
  repeat match goal with
         | |- context [cell values ?i ?j] =>
             let x := fresh "x" in
             destruct (cell_ok values node_cells i _ j Hrow eq_refl
                         ltac:(lia)) as [x ->]; run
         end.
  run. eexists. split; [|split; [|intros session; reflexivity]]; reflexivity.
Qed.

(** X10.  On a row with the thirteen cells, a failure of the checkin
    request is the failure of [Node(...)]: the exception of the session
    passes through, and a response whose body is not an image raises
    [IOError], whatever its status code. *)
Theorem Node_init_checkin_failure session values url mac :
  row_has values node_cells -> cell values 2 0 = Ok mac ->
  (forall e,
     session url (checkin_parameters mac) = Raise e ->
     Cloudscraper.Node_init session values url = Raise e)
  /\ (forall request,
        session url (checkin_parameters mac) = Ok request ->
        as_image (content request) = None ->
        Cloudscraper.Node_init session values url = Raise IOError).
Proof.
  intros Hrow Hmac.
  destruct (Node_init_scrapes values url mac Hrow Hmac)
    as (self & Hself & Hurl & ->).
  unfold Cloudscraper.scrape_checkin_data, checkin_parameters, Image_open.
  rewrite Hself, Hurl. split.
  - by intros e ->.
  - intros request -> Himg. run. by rewrite Himg.
Qed.

Lemma Node_init_checkin_failure_sample :
  Cloudscraper.Node_init offline_session (node_row "3")
    "https://dashboard/checkin" = Raise ConnectionError
  /\ Cloudscraper.Node_init not_found_session (node_row "3")
       "https://dashboard/checkin" = Raise IOError.
Proof.
  split.
  - apply (proj1 (Node_init_checkin_failure offline_session (node_row "3")
                    "https://dashboard/checkin" "00:11:22:33:44:55"
                    (node_row_has _) eq_refl)).
    reflexivity.
  - apply (proj2 (Node_init_checkin_failure not_found_session (node_row "3")
                    "https://dashboard/checkin" "00:11:22:33:44:55"
                    (node_row_has _) eq_refl)
             {| status_code := 404; content := bare_page |});
      reflexivity.
Defined.

(** X11.  [Node(...)] uses the session for one request only, the
    checkin request for the mac of the row, and of the response only
    its body: two sessions that answer this request with the same body
    or the same exception give the same node or the same exception,
    whatever the status codes and the other answers. *)
Theorem Node_init_one_request session1 session2 values url :
  (forall mac,
     cell values 2 0 = Ok mac ->
     same_content (session1 url (checkin_parameters mac))
                  (session2 url (checkin_parameters mac))) ->
  Cloudscraper.Node_init session1 values url
  = Cloudscraper.Node_init session2 values url.
Proof.
  intros Hsame.
  destruct (decide (row_has values node_cells)) as [Hrow|Hnot];
    [|by rewrite !Node_init_lacks_cell].
  destruct (cell_ok values node_cells 2 _ 0 Hrow eq_refl ltac:(lia))
    as [mac Hmac].
  destruct (Node_init_scrapes values url mac Hrow Hmac)
    as (self & Hself & Hurl & Hinit).
  rewrite !Hinit. specialize (Hsame mac Hmac).
  unfold Cloudscraper.scrape_checkin_data, checkin_parameters in *.
  rewrite Hself, Hurl.
  destruct (session1 url _) as [request1|e1],
           (session2 url _) as [request2|e2]; simpl in Hsame;
    [|done|done|by subst].
  run. by rewrite Hsame.
Qed.

Lemma Node_init_one_request_sample :
  Cloudscraper.Node_init (image_session half_day) (node_row "3")
    "https://dashboard/checkin"
  = Cloudscraper.Node_init
      (constant_session 503 {| as_html := []; as_image := Some half_day |})
      (node_row "3") "https://dashboard/checkin".
Proof.
  apply Node_init_one_request. intros mac _. reflexivity.
Defined.

(** ** The rows of a report table *)

Lemma set_header_new columns :
  columns <> [] ->
  set_header new_Texttable columns
  = Ok {| tt_row_size := length columns; tt_header := columns;
          tt_rows := [] |}.
Proof. intros Hne. by destruct columns. Qed.

Lemma add_row_fits table r :
  tt_row_size table <> 0%nat -> length r = tt_row_size table ->
  add_row table r
  = Ok {| tt_row_size := tt_row_size table; tt_header := tt_header table;
          tt_rows := tt_rows table ++ [r] |}.
Proof.
  intros Hsize Hlen. unfold add_row, check_row_size.
  rewrite bool_decide_eq_false_2 by done.
  by rewrite bool_decide_eq_true_2 by done.
Qed.

(** The loop of [draw_table] on records that can be examined and whose
    rows fit the table. *)
Lemma table_loop {A} `{Entity A} entity_type (entities : list A) table :
  tt_row_size table <> 0%nat ->
  Forall (fun entity =>
            exists t, get_type entity = Ok t
                      /\ (t = entity_type ->
                          exists r, get_table_row entity = Ok r
                                    /\ length r = tt_row_size table))
         entities ->
  for_each entities (fun table entity =>
    t ← get_type entity;
    if bool_decide (t = entity_type)
    then r ← get_table_row entity; add_row table r
    else Ok table) table
  = Ok {| tt_row_size := tt_row_size table; tt_header := tt_header table;
          tt_rows := tt_rows table ++ rows_of entity_type entities |}.
Proof.
  intros Hsize Hall.
  set (body := fun (table : Texttable) (entity : A) =>
                 t ← get_type entity;
                 if bool_decide (t = entity_type)
                 then r ← get_table_row entity; add_row table r
                 else Ok table).
  revert table Hsize Hall.
  induction entities as [|entity entities IH]; intros table Hsize Hall.
  - destruct table. simpl. by rewrite app_nil_r.
  - apply Forall_cons in Hall as [(t & Ht & Hrow) Hall].
    change (for_each (entity :: entities) body table)
      with (table' ← body table entity; for_each entities body table').
    cbn [rows_of flat_map]. fold (rows_of entity_type entities).
    destruct (bool_decide (t = entity_type)) eqn:Htype.
    + apply bool_decide_eq_true in Htype.
      destruct (Hrow Htype) as (r & Hr & Hlen).
      assert (body table entity
              = Ok {| tt_row_size := tt_row_size table;
                      tt_header := tt_header table;
                      tt_rows := tt_rows table ++ [r] |}) as ->.
      { unfold body. rewrite Ht. run.
        rewrite bool_decide_eq_true_2 by done. rewrite Hr. run.
        by apply add_row_fits. }
      run. rewrite IH by done. cbn [tt_row_size tt_header tt_rows].
      rewrite Ht, Hr, bool_decide_eq_true_2 by done.
      by rewrite <- app_assoc.
    + assert (body table entity = Ok table) as ->.
      { unfold body. rewrite Ht. run. by rewrite Htype. }
      run. rewrite IH by done. rewrite Ht.
      destruct (get_table_row entity); [rewrite Htype|]; done.
Qed.

Lemma scraper_header_columns entity_type columns :
  Cloudscraper.header !! entity_type = Some columns -> columns <> [].
Proof.
  intros Hin%elem_of_list_to_map_2.
  repeat (apply elem_of_cons in Hin as [[= _ ->]|Hin]; [done|]).
  by apply elem_of_nil in Hin.
Qed.

Lemma lib_header_columns entity_type columns :
  Cloudtrax.header !! entity_type = Some columns -> columns <> [].
Proof.
  intros Hin%elem_of_list_to_map_2.
  repeat (apply elem_of_cons in Hin as [[= _ ->]|Hin]; [done|]).
  by apply elem_of_nil in Hin.
Qed.

(** The table drawn from records that can be examined and whose rows
    fit the header. *)
Lemma table_drawn `{Renderer} {A} `{Entity A}
    (entity_type : string) (entities : list A) columns :
  Forall (fun entity =>
            exists t, get_type entity = Ok t
                      /\ (t = entity_type ->
                          exists r, get_table_row entity = Ok r
                                    /\ length r = length columns))
         entities ->
  (Cloudscraper.header !! entity_type = Some columns ->
   Cloudscraper.draw_table entity_type entities
   = Ok (draw {| tt_row_size := length columns; tt_header := columns;
                 tt_rows := rows_of entity_type entities |}))
  /\ (Cloudtrax.header !! entity_type = Some columns ->
      Cloudtrax.draw_table entity_type entities
      = Ok (draw {| tt_row_size := length columns; tt_header := columns;
                    tt_rows := rows_of entity_type entities |})).
Proof.
  intros Hall. split; intros Hcolumns.
  - pose proof (scraper_header_columns _ _ Hcolumns) as Hne.
    unfold Cloudscraper.draw_table, getitem. rewrite Hcolumns. run.
    rewrite set_header_new by done. run.
    rewrite table_loop; [done| |done].
    simpl. by destruct columns.
  - pose proof (lib_header_columns _ _ Hcolumns) as Hne.
    unfold Cloudtrax.draw_table, getitem. rewrite Hcolumns. run.
    rewrite set_header_new by done. run.
    rewrite table_loop; [done| |done].
    simpl. by destruct columns.
Qed.

(** X12.  When every record can be asked for its type, and the records
    of the requested type give rows as wide as the header, [draw_table]
    draws the table that has the header of the category and, as rows,
    the table rows of the records of that type in their order; records
    of another type are left out and never asked for their row. *)
Theorem draw_table_rows `{Renderer} {A} `{Entity A}
    (entity_type : string) (entities : list A) columns :
  Forall (fun entity =>
            exists t, get_type entity = Ok t
                      /\ (t = entity_type ->
                          exists r, get_table_row entity = Ok r
                                    /\ length r = length columns))
         entities ->
  (Cloudscraper.header !! entity_type = Some columns ->
   Cloudscraper.draw_table entity_type entities
   = Ok (draw {| tt_row_size := length columns; tt_header := columns;
                 tt_rows := rows_of entity_type entities |}))
  /\ (Cloudtrax.header !! entity_type = Some columns ->
      Cloudtrax.draw_table entity_type entities
      = Ok (draw {| tt_row_size := length columns; tt_header := columns;
                    tt_rows := rows_of entity_type entities |})).
Proof. apply table_drawn. Qed.

Lemma draw_table_rows_sample :
  length (rows_of "relay" sample_nodes) = 2%nat
  /\ @Cloudscraper.draw_table count_renderer _ _ "relay" sample_nodes
     = Ok "2 rows"
  /\ @Cloudtrax.draw_table count_renderer _ _ "relay" sample_nodes
     = Ok "2 rows".
Proof.
  assert (Forall (fun entity : Cloudscraper.Node =>
                    exists t, get_type entity = Ok t
                              /\ (t = "relay" ->
                                  exists r, get_table_row entity = Ok r
                                            /\ length r = 6%nat))
                 sample_nodes) as Hall.
  { repeat constructor;
      (eexists; split; [reflexivity|]; intros Ht;
       first [discriminate Ht | eexists; split; reflexivity]). }
  split; [reflexivity|]. split.
  - destruct (@draw_table_rows count_renderer _ _ "relay" sample_nodes
                ["Name" +:+ nl +:+ "(Firmware)"; "Users";
                 "DL MB" +:+ nl +:+ "UL MB"; "Gateway";
                 "Up" +:+ nl +:+ "(Down)"; "Latency" +:+ nl +:+ "(Hops)"]
                Hall) as [-> _]; reflexivity.
  - destruct (@draw_table_rows count_renderer _ _ "relay" sample_nodes
                ["Name" +:+ nl +:+ "(mac)"; "Users";
                 "DL MB" +:+ nl +:+ "UL MB";
                 "Gateway" +:+ nl +:+ "(Firmware)";
                 "Up" +:+ nl +:+ "(Down)"; "Latency" +:+ nl +:+ "(Hops)"]
                Hall) as [_ ->]; reflexivity.
Defined.

(** *** Tables of nodes *)

Lemma scraper_header_width entity_type columns :
  Cloudscraper.header !! entity_type = Some columns ->
  length columns = if bool_decide (entity_type = "relay") then 6%nat
                   else 5%nat.
Proof.
  intros Hin%elem_of_list_to_map_2.
  repeat (apply elem_of_cons in Hin as [[= -> ->]|Hin]; [done|]).
  by apply elem_of_nil in Hin.
Qed.

Lemma rows_of_cons {A} `{Entity A} entity_type (entity : A) entities :
  rows_of entity_type (entity :: entities)
  = (rows_of entity_type [entity] ++ rows_of entity_type entities)%list.
Proof. unfold rows_of. simpl. by rewrite app_nil_r. Qed.

Lemma node_rows_of (n : Cloudscraper.Node) kind entity_type :
  Cloudscraper.node_type n = Some kind -> kind ∈ node_kinds ->
  get_type n = Ok kind
  /\ exists r,
       get_table_row n = Ok r
       /\ length r = (if bool_decide (kind = "relay") then 6%nat else 5%nat)
       /\ rows_of entity_type [n]
          = if bool_decide (kind = entity_type) then [r] else [].
Proof.
  intros Hkind Hin. unfold rows_of. simpl.
  unfold Cloudscraper.Node_get_type, Cloudscraper.Node_get_table_row.
  rewrite Hkind. simpl. run. split; [done|].
  unfold node_kinds in Hin.
  repeat (apply elem_of_cons in Hin as [->|Hin];
          [eexists; split; [reflexivity|]; split; [reflexivity|];
           by rewrite app_nil_r|]).
  by apply elem_of_nil in Hin.
Qed.

(** X13.  For nodes of the three kinds, the rows that [get_table_row]
    gives are as wide as the header of their kind, so that [draw_table]
    of [cloudscraper.py] draws a table for every category of its header
    dictionary, and each node is a row of exactly one of the tables of
    gateways, relays and spares. *)
Theorem draw_table_nodes `{Renderer} (nodes : list Cloudscraper.Node) :
  Forall (fun n => exists kind,
              Cloudscraper.node_type n = Some kind /\ kind ∈ node_kinds)
         nodes ->
  (forall entity_type columns,
     Cloudscraper.header !! entity_type = Some columns ->
     Cloudscraper.draw_table entity_type nodes
     = Ok (draw {| tt_row_size := length columns; tt_header := columns;
                   tt_rows := rows_of entity_type nodes |})
     /\ Forall (fun r => length r = length columns)
               (rows_of entity_type nodes))
  /\ (length (rows_of "gateway" nodes) + length (rows_of "relay" nodes)
      + length (rows_of "spare" nodes) = length nodes)%nat.
Proof.
  intros Hkinds. split.
  - intros entity_type columns Hcolumns.
    pose proof (scraper_header_width _ _ Hcolumns) as Hwidth.
    assert (Forall (fun n : Cloudscraper.Node =>
                      exists t, get_type n = Ok t
                                /\ (t = entity_type ->
                                    exists r, get_table_row n = Ok r
                                              /\ length r = length columns))
                   nodes) as Hall.
    { eapply Forall_impl; [exact Hkinds|].
      intros n (kind & Hkind & Hin).
      destruct (node_rows_of n kind entity_type Hkind Hin)
        as (Ht & r & Hr & Hlen & _).
      exists kind. split; [done|]. intros ->. exists r. split; [done|].
      by rewrite Hlen, Hwidth. }
    split; [exact (proj1 (table_drawn _ _ _ Hall) Hcolumns)|].
    clear Hall. induction Hkinds as [|n nodes (kind & Hkind & Hin) _ IH];
      [constructor|].
    rewrite rows_of_cons. apply Forall_app. split; [|exact IH].
    destruct (node_rows_of n kind entity_type Hkind Hin)
      as (_ & r & _ & Hlen & ->).
    destruct (decide (kind = entity_type)) as [->|Hne];
      [rewrite bool_decide_eq_true_2 by done
      |rewrite bool_decide_eq_false_2 by done; constructor].
    constructor; [|constructor]. by rewrite Hlen, Hwidth.
  - induction Hkinds as [|n nodes (kind & Hkind & Hin) _ IH]; [done|].
    rewrite !(rows_of_cons _ n nodes), !length_app.
    destruct (node_rows_of n kind "gateway" Hkind Hin)
      as (_ & r1 & _ & _ & ->).
    destruct (node_rows_of n kind "relay" Hkind Hin)
      as (_ & r2 & _ & _ & ->).
    destruct (node_rows_of n kind "spare" Hkind Hin)
      as (_ & r3 & _ & _ & ->).
    unfold node_kinds in Hin.
    repeat (apply elem_of_cons in Hin as [->|Hin];
            [simpl; lia|]).
    by apply elem_of_nil in Hin.
Qed.

Lemma draw_table_nodes_sample :
  @Cloudscraper.draw_table count_renderer _ _ "gateway" sample_nodes
  = Ok "1 rows"
  /\ @Cloudscraper.draw_table count_renderer _ _ "relay" sample_nodes
     = Ok "2 rows"
  /\ @Cloudscraper.draw_table count_renderer _ _ "spare" sample_nodes
     = Ok "1 rows"
  /\ length sample_nodes = 4%nat.
Proof.
  assert (Forall (fun n => exists kind,
                      Cloudscraper.node_type n = Some kind
                      /\ kind ∈ node_kinds) sample_nodes) as Hkinds.
  { unfold node_kinds.
    repeat constructor; eexists; (split; [reflexivity|]);
      rewrite !elem_of_cons; auto. }
  destruct (@draw_table_nodes count_renderer sample_nodes Hkinds)
    as [Hdraw _].
  split; [|split; [|split; [|reflexivity]]].
  - destruct (Hdraw "gateway" _ eq_refl) as [-> _]. reflexivity.
  - destruct (Hdraw "relay" _ eq_refl) as [-> _]. reflexivity.
  - destruct (Hdraw "spare" _ eq_refl) as [-> _]. reflexivity.
Defined.

(** *** Tables of users *)

Lemma py_float_cases text :
  (exists x, py_float text = Ok x) \/ py_float text = Raise ValueError.
Proof.
  unfold py_float. repeat case_match; eauto.
Qed.

Lemma fdiv_thousand x :
  exists y, fdiv x (Finite false 8796093022208000 (-43)) = Ok y.
Proof.
  destruct x as [s m e|s|]; simpl; eauto.
  destruct (scaled m _ _); eauto.
Qed.

(** On a key that is there, [usage] raises nothing but the [ValueError]
    of [float]. *)
Lemma usage_cases (self : Cloudscraper.User) key kb :
  Cloudscraper.values self !! key = Some kb ->
  (exists s, Cloudscraper.usage self key = Ok s)
  \/ Cloudscraper.usage self key = Raise ValueError.
Proof.
  intros Hkey. unfold Cloudscraper.usage, getitem. rewrite Hkey. run.
  destruct (py_float_cases kb) as [[x ->]| ->]; run; [|by auto].
  change (float_of_int 1000)
    with (Ok (Finite false 8796093022208000 (-43))). run.
  destruct (fdiv_thousand x) as [y ->]. run. eauto.
Qed.

(** X14.  A user built by [User(values)] has all the keys that
    [get_table_row] reads: its row has the five cells of the header of
    users, unless one of the two usage texts is no number for [float],
    in which case [get_table_row] raises [ValueError]. *)
Theorem User_table_row values (u : Cloudscraper.User) :
  Cloudscraper.User_init values = Ok u ->
  get_type u = Ok "user"
  /\ (exists columns,
         Cloudscraper.header !! "user" = Some columns
         /\ length columns = 5%nat)
  /\ ((exists r dl ul,
          get_table_row u = Ok r /\ length r = 5%nat
          /\ Cloudscraper.get_dl_usage u = Ok dl
          /\ Cloudscraper.get_ul_usage u = Ok ul
          /\ r !! 3%nat = Some dl /\ r !! 4%nat = Some ul)
      \/ (get_table_row u = Raise ValueError
          /\ (Cloudscraper.get_dl_usage u = Raise ValueError
              \/ Cloudscraper.get_ul_usage u = Raise ValueError))).
Proof.
  intros Hinit. split; [done|]. split; [by eexists|].
  assert (exists name mac node_name node_mac rssi rate mcs kb_down kb_up
                 blocked,
            Cloudscraper.values u
            = list_to_map
                [("name", name); ("mac", mac); ("node_name", node_name);
                 ("node_mac", node_mac); ("rssi", rssi); ("rate", rate);
                 ("MCS", mcs); ("kb_down", kb_down); ("kb_up", kb_up);
                 ("blocked", blocked)])
    as (name & mac & node_name & node_mac & rssi & rate & mcs & kb_down
        & kb_up & blocked & Hvalues).
  { unfold Cloudscraper.User_init in Hinit.
    repeat match type of Hinit with
           | mbind _ ?m = _ =>
               destruct m; cbn [mbind result_bind] in Hinit;
               [|discriminate Hinit]
           end.
    injection Hinit as <-. simpl. by eexists _, _, _, _, _, _, _, _, _, _. }
  simpl. unfold Cloudscraper.User_get_table_row, getitem.
  unfold Cloudscraper.get_dl_usage, Cloudscraper.get_ul_usage.
  assert (forall key,
            key ∈ ["name"; "mac"; "node_name"; "node_mac"; "blocked";
                   "kb_down"; "kb_up"] ->
            is_Some (Cloudscraper.values u !! key)) as Hkeys.
  { intros key Hkey. rewrite Hvalues.
    repeat (apply elem_of_cons in Hkey as [->|Hkey]; [by eexists|]).
    by apply elem_of_nil in Hkey. }
  destruct (Hkeys "name") as [? ->]; [rewrite !elem_of_cons; tauto|].
  destruct (Hkeys "mac") as [? ->]; [rewrite !elem_of_cons; tauto|].
  destruct (Hkeys "node_name") as [? ->]; [rewrite !elem_of_cons; tauto|].
  destruct (Hkeys "node_mac") as [? ->]; [rewrite !elem_of_cons; tauto|].
  destruct (Hkeys "blocked") as [? ->]; [rewrite !elem_of_cons; tauto|].
  run.
  destruct (Hkeys "kb_down") as [down Hdown]; [rewrite !elem_of_cons; tauto|].
  destruct (Hkeys "kb_up") as [up Hup]; [rewrite !elem_of_cons; tauto|].
  destruct (usage_cases u "kb_down" down Hdown) as [[dl Hdl]|Hdl];
    [|rewrite Hdl; run; right; auto].
  destruct (usage_cases u "kb_up" up Hup) as [[ul Hul]|Hul];
    [|rewrite Hdl, Hul; run; right; auto].
  rewrite Hdl, Hul. run. left. eexists _, dl, ul.
  split; [reflexivity|]. split; [reflexivity|]. auto.
Qed.

Lemma User_table_row_sample :
  Cloudscraper.User_init (user_row "1,234,567" "5") = Ok sample_user
  /\ exists r,
       get_table_row sample_user = Ok r /\ length r = 5%nat
       /\ r !! 3%nat = Some "1234.57" /\ r !! 4%nat = Some "0.01".
Proof.
  assert (Hinit : Cloudscraper.User_init (user_row "1,234,567" "5")
                  = Ok sample_user) by reflexivity.
  split; [exact Hinit|].
  destruct (User_table_row _ sample_user Hinit)
    as (_ & _ & [(r & dl & ul & Hr & Hlen & Hdl & Hul & H3 & H4)|[Hr _]]).
  - exists r. split; [exact Hr|]. split; [exact Hlen|].
    rewrite H3, H4.
    assert (Ok dl = Ok "1234.57") as [= ->]
      by (rewrite <- Hdl; vm_compute; reflexivity).
    assert (Ok ul = Ok "0.01") as [= ->]
      by (rewrite <- Hul; vm_compute; reflexivity).
    split; reflexivity.
  - vm_compute in Hr. discriminate Hr.
Defined.

(** *** Usage texts without a number *)

Lemma drop_while_Forall {A} (p : A -> bool) (P : A -> Prop) l :
  Forall P l -> Forall P (drop_while p l).
Proof.
  induction 1 as [|x l Hx Hl IH]; simpl; [constructor|].
  destruct (p x); [done|by constructor].
Qed.

Lemma strip_Forall (P : ascii -> Prop) l : Forall P l -> Forall P (strip l).
Proof.
  intros Hl. unfold strip.
  apply Forall_rev, drop_while_Forall, Forall_rev.
  by apply drop_while_Forall.
Qed.

Lemma split_sign_Forall (P : ascii -> Prop) l :
  Forall P l -> Forall P (split_sign l).2.
Proof.
  intros Hl. unfold split_sign.
  repeat case_match; subst; simpl; try done; by inversion Hl.
Qed.

Lemma span_no_digits l :
  Forall (fun c => is_digit c = false) l -> span_digits l = ([], l).
Proof.
  intros Hl. unfold span_digits.
  destruct Hl as [|c l Hc Hl]; simpl; [done|]. by rewrite Hc.
Qed.

Lemma py_float_no_digit text :
  no_digit text ->
  py_float text = Raise ValueError
  \/ (exists neg, py_float text = Ok (Infinity neg))
  \/ py_float text = Ok NaN.
Proof.
  intros Hno. unfold py_float.
  pose proof (split_sign_Forall _ _ (strip_Forall _ _ Hno)) as Hs.
  destruct (split_sign (strip (list_ascii_of_string text))) as [neg s].
  simpl in Hs. destruct (_ || _); [eauto|].
  destruct (bool_decide _); [eauto|].
  rewrite (span_no_digits s Hs). left.
  destruct Hs as [|c s Hc Hs]; [done|].
  destruct (decide (c = "."%char)) as [->|Hdot].
  - rewrite (span_no_digits s Hs). by destruct (exponent_of s).
  - assert (match c :: s with
            | "."%char :: r => span_digits r
            | _ => ([], c :: s)
            end = ([], c :: s)) as ->; [|by destruct (exponent_of _)].
    destruct c as [[] [] [] [] [] [] [] []]; try done.
Qed.

(** X15.  A usage text without a decimal digit gives no megabytes:
    [get_dl_usage] and [get_ul_usage] raise [ValueError], unless the
    text is one that [float] reads as infinity or as not a number, in
    which case the usage is the string [inf], [-inf] or [nan]. *)
Theorem usage_without_digit (self : Cloudscraper.User) key kb :
  Cloudscraper.values self !! key = Some kb -> no_digit kb ->
  Cloudscraper.usage self key = Raise ValueError
  \/ Cloudscraper.usage self key = Ok "inf"
  \/ Cloudscraper.usage self key = Ok "-inf"
  \/ Cloudscraper.usage self key = Ok "nan".
Proof.
  intros Hkey Hno. unfold Cloudscraper.usage, getitem. rewrite Hkey. run.
  change (float_of_int 1000)
    with (Ok (Finite false 8796093022208000 (-43))).
  destruct (py_float_no_digit kb Hno) as [->|[[neg ->]| ->]]; run.
  - by left.
  - destruct neg; simpl; auto.
  - simpl. auto.
Qed.

Lemma usage_without_digit_sample :
  Cloudscraper.get_dl_usage idle_user = Raise ValueError
  /\ Cloudscraper.get_ul_usage idle_user = Raise ValueError.
Proof.
  split.
  - destruct (usage_without_digit idle_user "kb_down" "" eq_refl)
      as [H|[H|[H|H]]];
      [constructor | exact H | discriminate H | discriminate H
       | discriminate H].
  - destruct (usage_without_digit idle_user "kb_up" "n/a" eq_refl)
      as [H|[H|[H|H]]];
      [repeat constructor | exact H | discriminate H | discriminate H
       | discriminate H].
Defined.

(** ** Refreshing the lists of nodes and users *)

Lemma for_each_decodes {B} (decode : row -> result B)
    (body : list B -> row -> result (list B)) rows acc :
  (forall acc r, body acc r = (x ← decode r; Ok (acc ++ [x])%list)) ->
  match for_each rows body acc with
  | Ok records =>
      exists xs, records = (acc ++ xs)%list
                 /\ Forall2 (fun r x => decode r = Ok x) rows xs
  | Raise e => decodes decode rows (Raise e)
  end.
Proof.
  intros Hbody. revert acc.
  induction rows as [|r rows IH]; intros acc.
  - exists []. rewrite app_nil_r. split; [done|constructor].
  - change (for_each (r :: rows) body acc)
      with (acc' ← body acc r; for_each rows body acc').
    rewrite Hbody. destruct (decode r) as [x|e] eqn:Hr; run.
    + specialize (IH (acc ++ [x])%list).
      destruct (for_each rows body (acc ++ [x])%list) as [records|e].
      * destruct IH as (xs & -> & Hxs). exists (x :: xs).
        split; [by rewrite <- app_assoc|by constructor].
      * destruct IH as (done & r' & rest & -> & Hdone & Hr').
        exists (r :: done), r', rest. split; [done|].
        split; [constructor; eauto|done].
    + exists [], r, rows. split; [done|]. split; [constructor|done].
Qed.

Lemma for_each_decodes_all {B} (decode : row -> result B)
    (body : list B -> row -> result (list B)) rows :
  (forall acc r, body acc r = (x ← decode r; Ok (acc ++ [x])%list)) ->
  decodes decode rows (for_each rows body []).
Proof.
  intros Hbody. pose proof (for_each_decodes decode body rows [] Hbody) as H.
  destruct (for_each rows body []) as [records|e]; [|done].
  by destruct H as (xs & -> & Hxs).
Qed.

(** X16.  A refresh of [cloudscraper.py] whose request is answered with
    a status other than 200 ends the program with that status as exit
    code, whatever the body; with status 200 the list of the connector
    is replaced by the records decoded from the distilled rows, one for
    each row and in their order, and the first row that cannot be
    decoded ends the refresh with its exception. *)
Theorem refresh_outcome (self : Cloudscraper.CloudTrax) :
  (forall request,
     Cloudscraper.ct_session self (Cloudscraper.ct_data_url self)
       (list_to_map [("network", Cloudscraper.ct_network self);
                     ("showall", "1"); ("details", "1")]) = Ok request ->
     (status_code request <> 200%Z ->
      Cloudscraper.refresh_network_status self
      = Raise (SystemExit (status_code request)))
     /\ (status_code request = 200%Z ->
         forall rows,
           Cloudscraper.distill_html (content request) "table"
             {["id" := "mytable"]} = Ok rows ->
           decodes (fun r => Cloudscraper.Node_init
                               (Cloudscraper.ct_session self) r
                               (Cloudscraper.ct_checkin_url self))
                   rows
                   (self' ← Cloudscraper.refresh_network_status self;
                    Ok (Cloudscraper.ct_nodes self'))
           /\ forall self',
                Cloudscraper.refresh_network_status self = Ok self' ->
                Cloudscraper.ct_users self' = Cloudscraper.ct_users self
                /\ Cloudscraper.ct_request self' = Some request))
  /\ (forall request,
        Cloudscraper.ct_session self (Cloudscraper.ct_user_url self)
          (list_to_map [("network", Cloudscraper.ct_network self)])
        = Ok request ->
        (status_code request <> 200%Z ->
         Cloudscraper.refresh_users self
         = Raise (SystemExit (status_code request)))
        /\ (status_code request = 200%Z ->
            forall rows,
              Cloudscraper.distill_html (content request) "table"
                {["class" := "inline sortable"]} = Ok rows ->
              decodes Cloudscraper.User_init rows
                      (self' ← Cloudscraper.refresh_users self;
                       Ok (Cloudscraper.ct_users self'))
              /\ forall self',
                   Cloudscraper.refresh_users self = Ok self' ->
                   Cloudscraper.ct_nodes self' = Cloudscraper.ct_nodes self
                   /\ Cloudscraper.ct_request self' = Some request)).
Proof.
  split; intros request Hget; (split; [intros Hcode|intros Hcode rows Hrows]).
  - unfold Cloudscraper.refresh_network_status. rewrite Hget. run.
    by rewrite bool_decide_eq_false_2.
  - unfold Cloudscraper.refresh_network_status. rewrite Hget. run.
    rewrite bool_decide_eq_true_2 by done. rewrite Hrows. run.
    match goal with
    | |- context [for_each rows ?body []] =>
        pose proof (for_each_decodes_all
                      (fun r => Cloudscraper.Node_init
                                  (Cloudscraper.ct_session self) r
                                  (Cloudscraper.ct_checkin_url self))
                      body rows ltac:(intros; reflexivity)) as Hloop;
        destruct (for_each rows body []) as [nodes|e]
    end; run.
    + split; [exact Hloop|]. by intros self' [= <-].
    + split; [exact Hloop|]. by intros self' [=].
  - unfold Cloudscraper.refresh_users. rewrite Hget. run.
    by rewrite bool_decide_eq_false_2.
  - unfold Cloudscraper.refresh_users. rewrite Hget. run.
    rewrite bool_decide_eq_true_2 by done. rewrite Hrows. run.
    match goal with
    | |- context [for_each rows ?body []] =>
        pose proof (for_each_decodes_all Cloudscraper.User_init
                      body rows ltac:(intros; reflexivity)) as Hloop;
        destruct (for_each rows body []) as [users|e]
    end; run.
    + split; [exact Hloop|]. by intros self' [= <-].
    + split; [exact Hloop|]. by intros self' [=].
Qed.

Lemma refresh_outcome_sample :
  Cloudscraper.refresh_users
    (status_connector (constant_session 503 status_page))
  = Raise (SystemExit 503)
  /\ exists self' n1 n2,
       Cloudscraper.refresh_network_status
         (status_connector (dashboard status_page half_day)) = Ok self'
       /\ Cloudscraper.ct_nodes self' = [n1; n2]
       /\ Cloudscraper.Node_init (dashboard status_page half_day)
            (node_row "3") "https://dashboard/checkin" = Ok n1
       /\ Cloudscraper.Node_init (dashboard status_page half_day)
            (node_row "2") "https://dashboard/checkin" = Ok n2.
Proof.
  split.
  - destruct (refresh_outcome
                (status_connector (constant_session 503 status_page)))
      as [_ Husers].
    destruct (Husers {| status_code := 503; content := status_page |}
                eq_refl) as [Hexit _].
    apply Hexit. discriminate.
  - destruct (refresh_outcome
                (status_connector (dashboard status_page half_day)))
      as [Hnodes _].
    destruct (Hnodes {| status_code := 200; content := status_page |}
                eq_refl) as [_ Hok].
    destruct (Hok eq_refl [node_row "3"; node_row "2"] eq_refl)
      as [Hdecodes _].
    destruct (Cloudscraper.refresh_network_status _) as [self'|e];
      cbn [mbind result_bind decodes] in Hdecodes.
    + apply Forall2_cons_inv_l in Hdecodes as (n1 & l1 & H1 & Hrest & Heq).
      apply Forall2_cons_inv_l in Hrest as (n2 & l2 & H2 & Hnil & ->).
      apply Forall2_nil_inv_l in Hnil as ->.
      exists self', n1, n2. split; [reflexivity|].
      split; [exact Heq|]. split; [exact H1 | exact H2].
    + exfalso. destruct Hdecodes as (done & r & rest & Hsplit & _ & Hr).
      assert (r = node_row "3" \/ r = node_row "2") as [-> | ->].
      { assert (r ∈ [node_row "3"; node_row "2"]) as Hin
          by (rewrite Hsplit, elem_of_app, elem_of_cons; auto).
        rewrite !elem_of_cons, elem_of_nil in Hin. tauto. }
      * vm_compute in Hr. discriminate Hr.
      * vm_compute in Hr. discriminate Hr.
Defined.

(** X17.  The same for the two refreshes of [lib/cloudtrax.py], where
    the node of a row is built from the row and the checkin data of its
    mac, and the constructors of nodes and users are those of modules
    that are not at hand. *)
Theorem lib_refresh_outcome {Node User}
    (new_Node : row -> pyfloat * pyfloat * pyfloat -> result Node)
    (new_User : row -> result User)
    (self : @Cloudtrax.CloudTrax Node User) name :
  Cloudtrax.network self !! "name" = Some name ->
  (forall data request,
     Cloudtrax.url self !! "data" = Some data ->
     Cloudtrax.session_of self data
       (list_to_map [("network", name); ("showall", "1"); ("details", "1")])
     = Ok request ->
     (status_code request <> 200%Z ->
      Cloudtrax.refresh_nodes new_Node self
      = Raise (SystemExit (status_code request)))
     /\ (status_code request = 200%Z ->
         forall rows,
           Cloudtrax.distill_html (content request) "table"
             {["id" := "mytable"]} = Ok rows ->
           decodes (lib_node new_Node self) rows
                   (self' ← Cloudtrax.refresh_nodes new_Node self;
                    Ok (Cloudtrax.nodes self'))
           /\ forall self',
                Cloudtrax.refresh_nodes new_Node self = Ok self' ->
                Cloudtrax.users self' = Cloudtrax.users self))
  /\ (forall user request,
        Cloudtrax.url self !! "user" = Some user ->
        Cloudtrax.session_of self user (list_to_map [("network", name)])
        = Ok request ->
        (status_code request <> 200%Z ->
         Cloudtrax.refresh_users new_User self
         = Raise (SystemExit (status_code request)))
        /\ (status_code request = 200%Z ->
            forall rows,
              Cloudtrax.distill_html (content request) "table"
                {["class" := "inline sortable"]} = Ok rows ->
              decodes new_User rows
                      (self' ← Cloudtrax.refresh_users new_User self;
                       Ok (Cloudtrax.users self'))
              /\ forall self',
                   Cloudtrax.refresh_users new_User self = Ok self' ->
                   Cloudtrax.nodes self' = Cloudtrax.nodes self)).
Proof.
  intros Hname.
  split; intros address request Haddress Hget;
    (split; [intros Hcode|intros Hcode rows Hrows]).
  - unfold Cloudtrax.refresh_nodes, getitem.
    rewrite Hname, Haddress. run. rewrite Hget. run.
    by rewrite bool_decide_eq_false_2.
  - unfold Cloudtrax.refresh_nodes, getitem.
    rewrite Hname, Haddress. run. rewrite Hget. run.
    rewrite bool_decide_eq_true_2 by done. rewrite Hrows. run.
    match goal with
    | |- context [for_each rows ?body []] =>
        assert (decodes (lib_node new_Node self) rows
                        (for_each rows body [])) as Hloop;
        [|destruct (for_each rows body []) as [nodes|e]]
    end.
    { apply for_each_decodes_all. intros acc r. unfold lib_node.
      destruct (cell r 2 0) as [mac|]; [|reflexivity].
      cbn [mbind result_bind].
      destruct (Cloudtrax.get_checkin_data self mac); reflexivity. }
    + run. split; [exact Hloop|]. by intros self' [= <-].
    + run. split; [exact Hloop|]. by intros self' [=].
  - unfold Cloudtrax.refresh_users, getitem.
    rewrite Hname, Haddress. run. rewrite Hget. run.
    by rewrite bool_decide_eq_false_2.
  - unfold Cloudtrax.refresh_users, getitem.
    rewrite Hname, Haddress. run. rewrite Hget. run.
    rewrite bool_decide_eq_true_2 by done. rewrite Hrows. run.
    match goal with
    | |- context [for_each rows ?body []] =>
        pose proof (for_each_decodes_all new_User
                      body rows ltac:(intros; reflexivity)) as Hloop;
        destruct (for_each rows body []) as [users|e]
    end; run.
    + split; [exact Hloop|]. by intros self' [= <-].
    + split; [exact Hloop|]. by intros self' [=].
Qed.

Lemma lib_refresh_outcome_sample :
  Cloudtrax.refresh_nodes (fun r _ => Ok r)
    (row_connector (constant_session 404 status_page))
  = Raise (SystemExit 404)
  /\ exists users,
       (self' ← Cloudtrax.refresh_users Ok
                 (row_connector (constant_session 200 status_page));
        Ok (Cloudtrax.users self')) = Ok users
       /\ Forall2 (fun r u => Ok r = Ok u)
                  [user_row "1,234,567" "5"; user_row "12" "7"] users.
Proof.
  split.
  - destruct (lib_refresh_outcome (fun r _ => Ok r) Ok
                (row_connector (constant_session 404 status_page)) "mesh"
                eq_refl) as [Hnodes _].
    destruct (Hnodes "https://dashboard/data"
                {| status_code := 404; content := status_page |}
                eq_refl eq_refl) as [Hexit _].
    apply Hexit. discriminate.
  - destruct (lib_refresh_outcome (fun r _ => Ok r) Ok
                (row_connector (constant_session 200 status_page)) "mesh"
                eq_refl) as [_ Husers].
    destruct (Husers "https://dashboard/users"
                {| status_code := 200; content := status_page |}
                eq_refl eq_refl) as [_ Hok].
    destruct (Hok eq_refl [user_row "1,234,567" "5"; user_row "12" "7"]
                eq_refl) as [Hdecodes _].
    destruct (_ ← Cloudtrax.refresh_users _ _; _) as [users|e] eqn:Hrun.
    + exists users. split; [reflexivity|exact Hdecodes].
    + exfalso. vm_compute in Hrun. discriminate Hrun.
Defined.

(** ** The cached lists *)

(** X18.  [get_nodes] and [get_users] of [cloudscraper.py] return the
    list the connector holds after the call, and a list that is not
    empty is kept: the next call returns it again without a request,
    whatever the session would answer. *)
Theorem get_nodes_cache (self : Cloudscraper.CloudTrax) (s : session) :
  (forall self' nodes,
     Cloudscraper.get_nodes self = Ok (self', nodes) ->
     Cloudscraper.ct_nodes self' = nodes
     /\ (nodes <> [] ->
         Cloudscraper.get_nodes (with_session self' s)
         = Ok (with_session self' s, nodes)))
  /\ (forall self' users,
        Cloudscraper.get_users self = Ok (self', users) ->
        Cloudscraper.ct_users self' = users
        /\ (users <> [] ->
            Cloudscraper.get_users (with_session self' s)
            = Ok (with_session self' s, users))).
Proof.
  split.
  - intros self' nodes Hget.
    assert (Cloudscraper.ct_nodes self' = nodes) as Hnodes.
    { unfold Cloudscraper.get_nodes in Hget.
      destruct (bool_decide _);
        [destruct (Cloudscraper.refresh_network_status self);
         cbn [mbind result_bind] in Hget|];
        first [discriminate Hget | by injection Hget as <- <-]. }
    split; [exact Hnodes|]. intros Hne. unfold Cloudscraper.get_nodes.
    cbn [with_session Cloudscraper.ct_nodes]. rewrite Hnodes.
    rewrite bool_decide_eq_false_2; [done|]. by destruct nodes.
  - intros self' users Hget.
    assert (Cloudscraper.ct_users self' = users) as Husers.
    { unfold Cloudscraper.get_users in Hget.
      destruct (bool_decide _);
        [destruct (Cloudscraper.refresh_users self);
         cbn [mbind result_bind] in Hget|];
        first [discriminate Hget | by injection Hget as <- <-]. }
    split; [exact Husers|]. intros Hne. unfold Cloudscraper.get_users.
    cbn [with_session Cloudscraper.ct_users]. rewrite Husers.
    rewrite bool_decide_eq_false_2; [done|]. by destruct users.
Qed.

Lemma get_nodes_cache_sample :
  Cloudscraper.get_nodes (with_session filled_connector offline_session)
  = Ok (with_session filled_connector offline_session, sample_nodes)
  /\ Cloudscraper.get_users (with_session filled_connector offline_session)
     = Ok (with_session filled_connector offline_session, [idle_user]).
Proof.
  destruct (get_nodes_cache filled_connector offline_session)
    as [Hnodes Husers].
  split.
  - apply (Hnodes filled_connector sample_nodes eq_refl). discriminate.
  - apply (Husers filled_connector [idle_user] eq_refl). discriminate.
Defined.

(** X19.  The same for [get_nodes] and [get_users] of
    [lib/cloudtrax.py]. *)
Theorem lib_get_nodes_cache {Node User}
    (new_Node : row -> pyfloat * pyfloat * pyfloat -> result Node)
    (new_User : row -> result User)
    (self : @Cloudtrax.CloudTrax Node User) (s : session) :
  (forall self' nodes,
     Cloudtrax.get_nodes new_Node self = Ok (self', nodes) ->
     Cloudtrax.nodes self' = nodes
     /\ (nodes <> [] ->
         Cloudtrax.get_nodes new_Node (lib_with_session self' s)
         = Ok (lib_with_session self' s, nodes)))
  /\ (forall self' users,
        Cloudtrax.get_users new_User self = Ok (self', users) ->
        Cloudtrax.users self' = users
        /\ (users <> [] ->
            Cloudtrax.get_users new_User (lib_with_session self' s)
            = Ok (lib_with_session self' s, users))).
Proof.
  split.
  - intros self' nodes Hget.
    assert (Cloudtrax.nodes self' = nodes) as Hnodes.
    { unfold Cloudtrax.get_nodes in Hget.
      destruct (bool_decide _);
        [destruct (Cloudtrax.refresh_nodes new_Node self);
         cbn [mbind result_bind] in Hget|];
        first [discriminate Hget | by injection Hget as <- <-]. }
    split; [exact Hnodes|]. intros Hne. unfold Cloudtrax.get_nodes.
    cbn [lib_with_session Cloudtrax.nodes]. rewrite Hnodes.
    rewrite bool_decide_eq_false_2; [done|]. by destruct nodes.
  - intros self' users Hget.
    assert (Cloudtrax.users self' = users) as Husers.
    { unfold Cloudtrax.get_users in Hget.
      destruct (bool_decide _);
        [destruct (Cloudtrax.refresh_users new_User self);
         cbn [mbind result_bind] in Hget|];
        first [discriminate Hget | by injection Hget as <- <-]. }
    split; [exact Husers|]. intros Hne. unfold Cloudtrax.get_users.
    cbn [lib_with_session Cloudtrax.users]. rewrite Husers.
    rewrite bool_decide_eq_false_2; [done|]. by destruct users.
Qed.

Lemma lib_get_nodes_cache_sample :
  Cloudtrax.get_nodes (fun r _ => Ok r)
    (lib_with_session filled_row_connector (constant_session 200 bare_page))
  = Ok (lib_with_session filled_row_connector (constant_session 200 bare_page),
        [node_row "3"])
  /\ Cloudtrax.get_users Ok
       (lib_with_session filled_row_connector (constant_session 200 bare_page))
     = Ok (lib_with_session filled_row_connector
             (constant_session 200 bare_page),
           [user_row "12" "7"]).
Proof.
  destruct (lib_get_nodes_cache (fun r _ => Ok r) Ok filled_row_connector
              (constant_session 200 bare_page)) as [Hnodes Husers].
  split.
  - apply (Hnodes filled_row_connector [node_row "3"] eq_refl). discriminate.
  - apply (Husers filled_row_connector [user_row "12" "7"] eq_refl).
    discriminate.
Defined.

(** ** Underlining *)

Lemma length_append s1 s2 :
  String.length (s1 +:+ s2) = (String.length s1 + String.length s2)%nat.
Proof. induction s1 as [|c s1 IH]; simpl; [done|]. by rewrite IH. Qed.

Lemma string_times_dashes n :
  String.length (string_times n "-") = n
  /\ Forall (fun c => c = "-"%char)
            (list_ascii_of_string (string_times n "-")).
Proof.
  induction n as [|n [IHlen IHall]]; [split; [done|constructor]|].
  split; [exact (f_equal S IHlen)|by constructor].
Qed.

(** X20.  [underline(text)] is the text on a line of its own, followed
    by a line of dashes with as many dashes as the text has characters:
    [2 * len(text) + 2] characters in all. *)
Theorem underline_shape text :
  exists dashes,
    Cloudscraper.underline text = text +:+ nl +:+ dashes +:+ nl
    /\ String.length dashes = String.length text
    /\ Forall (fun c => c = "-"%char) (list_ascii_of_string dashes)
    /\ String.length (Cloudscraper.underline text)
       = (2 * String.length text + 2)%nat.
Proof.
  destruct (string_times_dashes (String.length text)) as [Hlen Hall].
  exists (string_times (String.length text) "-").
  split; [done|]. split; [done|]. split; [done|].
  unfold Cloudscraper.underline. rewrite !length_append, Hlen. simpl. lia.
Qed.
